(** * Impact analysis service: traversal, aggregation and severity

    A shallow embedding of the impact-analysis core of the service
    (app/domain/entities, app/application/strategies,
    app/application/use_cases) and the properties of it that the
    specification states.

    Conventions of the embedding.
    - A Python [str] is a [string]; [int] is [Z]; [Optional[T]] is [option T];
      a property bag returned by the graph store ([dict]) is a
      [gmap string string].
    - An exception is a value of [exn]; code that may raise returns a
      [outcome].  The batch use case mutates one shared [result] dictionary
      while exceptions fly, so it runs in a state-and-exception monad [M]
      whose state survives a raise, as the dictionary does in Python.
    - [await] is sequencing: every use case awaits each store call before
      it issues the next one.
    - The graph store is the interface [IGraphRepository]; within one
      request a query is a function of its parameters.
    - Logging is not modelled. *)

From stdpp Require Import base option list strings gmap.
From Stdlib Require Import Ascii ZArith Lia.

#[local] Set Warnings "-register-all".
#[local] Open Scope Z_scope.

(* ================================================================= *)
(** ** Exceptions and the two monads *)

(** app/core/exceptions.py, and the two built-in exceptions that
    subscripting can raise. *)
Inductive exn : Type :=
| DatabaseConnectionError
| EntityNotFoundError
| InvalidChangeEventError
| SimulationError
| ConfigurationError
| KeyError
| IndexError.

Inductive outcome (A : Type) : Type :=
| Ok (a : A)
| Raise (e : exn).
Arguments Ok {A} a.
Arguments Raise {A} e.

#[global] Instance outcome_ret : MRet outcome := @Ok.
#[global] Instance outcome_bind : MBind outcome :=
  λ A B k m, match m with Ok a => k a | Raise e => Raise e end.
#[global] Instance outcome_fmap : FMap outcome :=
  λ A B f m, match m with Ok a => Ok (f a) | Raise e => Raise e end.

(** [try: body except Exception as e: handler] *)
Definition try_except {A} (body : outcome A) (handler : exn → outcome A) : outcome A :=
  match body with Ok a => Ok a | Raise e => handler e end.

(** [for x in xs: body], threading the locals [acc] the body rebinds. *)
Fixpoint for_each {M : Type → Type} `{!MBind M, !MRet M} {A S : Type}
    (xs : list A) (acc : S) (body : S → A → M S) : M S :=
  match xs with
  | [] => mret acc
  | x :: rest => acc' ← body acc x; for_each rest acc' body
  end.

(** [l[i]] *)
Definition index {A} (l : list A) (i : nat) : outcome A :=
  match l !! i with Some x => Ok x | None => Raise IndexError end.

(** [d[k]] *)
Definition subscript {V} (d : gmap string V) (k : string) : outcome V :=
  match d !! k with Some v => Ok v | None => Raise KeyError end.

(** [d.get(k, dflt)] *)
Definition get_default {V} (d : gmap string V) (k : string) (dflt : V) : V :=
  default dflt (d !! k).

(* ================================================================= *)
(** ** Strings *)

(** [s.split(sep)] for a one-character separator: the segments between
    the occurrences of [sep]; never the empty list. *)
Fixpoint split (sep : ascii) (s : string) : list string :=
  match s with
  | EmptyString => [EmptyString]
  | String c rest =>
      if Ascii.eqb c sep then EmptyString :: split sep rest
      else match split sep rest with
           | seg :: segs => String c seg :: segs
           | [] => [String c EmptyString]
           end
  end.

Definition lower_ascii (c : ascii) : ascii :=
  let n := nat_of_ascii c in
  if ((65 <=? n) && (n <=? 90))%nat then ascii_of_nat (n + 32) else c.

(** [s.lower()] on the ASCII letters. *)
Fixpoint lower (s : string) : string :=
  match s with
  | EmptyString => EmptyString
  | String c rest => String (lower_ascii c) (lower rest)
  end.

(** [not s] for a string. *)
Definition is_empty (s : string) : bool :=
  match s with EmptyString => true | _ => false end.

(** Does the character occur in the string? *)
Fixpoint occurs (c : ascii) (s : string) : bool :=
  match s with
  | EmptyString => false
  | String c' rest => Ascii.eqb c' c || occurs c rest
  end.

(* ================================================================= *)
(** ** Domain entities *)

(** app/domain/entities/line.py *)
Module Line.

Record t : Type := mk {
  id : string;
  line_number : string;
  system_number : Z;
  system_name : string;
  project_number : string;
  project_name : string;
  module_name : string
}.

End Line.

(** app/domain/entities/iso.py.  The dictionary [parse_iso_id] returns
    has exactly the three keys of the model, so building an [ISO] from
    it and taking [iso.dict()] are the identity on this record. *)
Module ISO.

Record t : Type := mk {
  id : string;
  iso_number : option string;
  sheet_number : option string
}.

Definition parse_iso_id (iso_id : string) : outcome t :=
  let parts := split "." iso_id in
  iso_number ← (if (0 <? length parts)%nat then index parts 0 else mret iso_id);
  sheet_number ← (if (1 <? length parts)%nat then Some <$> index parts 1
                  else mret None);
  mret (mk iso_id (Some iso_number) sheet_number).

End ISO.

(** app/domain/entities/change_event.py *)
Inductive ChangeSeverity : Type := LOW | MEDIUM | HIGH | CRITICAL.

Module ChangeEvent.

Record t : Type := mk {
  event_id : option string;
  entity_type : string;
  entity_id : string;
  description : string
}.

End ChangeEvent.

(** app/domain/entities/impact_result.py.  The fields no operation of
    the core reads (timestamp, estimated delay, additional_info) are
    left out. *)
Module ImpactResult.

Record t : Type := mk {
  event_id : option string;
  affected_isos : list ISO.t;
  affected_spools : list (gmap string string);
  affected_parts : list (gmap string string);
  impact_count : Z;
  severity : option ChangeSeverity;
  analysis_method : string
}.

Definition set_affected_isos (v : list ISO.t) (r : t) : t :=
  mk (event_id r) v (affected_spools r) (affected_parts r)
     (impact_count r) (severity r) (analysis_method r).
Definition set_affected_spools (v : list (gmap string string)) (r : t) : t :=
  mk (event_id r) (affected_isos r) v (affected_parts r)
     (impact_count r) (severity r) (analysis_method r).
Definition set_affected_parts (v : list (gmap string string)) (r : t) : t :=
  mk (event_id r) (affected_isos r) (affected_spools r) v
     (impact_count r) (severity r) (analysis_method r).
Definition set_impact_count (v : Z) (r : t) : t :=
  mk (event_id r) (affected_isos r) (affected_spools r) (affected_parts r)
     v (severity r) (analysis_method r).
Definition set_severity (v : option ChangeSeverity) (r : t) : t :=
  mk (event_id r) (affected_isos r) (affected_spools r) (affected_parts r)
     (impact_count r) v (analysis_method r).

Definition calculate_impact_count (self : t) : Z :=
  Z.of_nat (length (affected_isos self))
  + Z.of_nat (length (affected_spools self))
  + Z.of_nat (length (affected_parts self)).

Definition update_impact_count (self : t) : t :=
  set_impact_count (calculate_impact_count self) self.

End ImpactResult.

(* ================================================================= *)
(** ** The store port *)

(** app/domain/repositories/graph_repository.py, with the one query the
    children use case sends through [graph_repo.client] directly
    (SPOOL -[:GROUPS]-> Part).  Each operation either answers or raises,
    as the Neo4j implementation does ([DatabaseConnectionError]). *)
Record IGraphRepository : Type := mkRepo {
  get_line_by_id : string → outcome (option Line.t);
  get_affected_isos_by_line : string → outcome (list ISO.t);
  get_affected_spools_by_iso : string → outcome (list (gmap string string));
  get_affected_parts_by_iso : string → outcome (list (gmap string string));
  traverse_impact_graph :
    string → string → Z → outcome (gmap string (list (gmap string string)));
  client_groups_query : string → outcome (list (gmap string string))
}.

(* ================================================================= *)
(** ** Single-entity analysis
    app/application/strategies/graph_traversal_strategy.py *)
Module GraphTraversalStrategy.

Section with_repository.
Context (graph_repo : IGraphRepository).

Definition _analyze_line_impact (line_id : string) (result : ImpactResult.t)
  : outcome ImpactResult.t :=
  line ← get_line_by_id graph_repo line_id;
  match line with
  | None => Raise EntityNotFoundError
  | Some _ =>
      affected_isos ← get_affected_isos_by_line graph_repo line_id;
      let result := ImpactResult.set_affected_isos affected_isos result in
      for_each affected_isos result (λ result iso,
        spools ← get_affected_spools_by_iso graph_repo (ISO.id iso);
        parts ← get_affected_parts_by_iso graph_repo (ISO.id iso);
        let result := ImpactResult.set_affected_spools (ImpactResult.affected_spools result ++ spools) result in
        mret (ImpactResult.set_affected_parts (ImpactResult.affected_parts result ++ parts) result))
  end.

Definition _analyze_iso_impact (iso_id : string) (result : ImpactResult.t)
  : outcome ImpactResult.t :=
  spools ← get_affected_spools_by_iso graph_repo iso_id;
  parts ← get_affected_parts_by_iso graph_repo iso_id;
  iso ← ISO.parse_iso_id iso_id;
  mret (ImpactResult.set_affected_parts parts
         (ImpactResult.set_affected_spools spools
           (ImpactResult.set_affected_isos [iso] result))).

Definition _analyze_generic_impact (entity_type entity_id : string)
    (result : ImpactResult.t) : outcome ImpactResult.t :=
  affected_entities ← traverse_impact_graph graph_repo entity_type entity_id 5;
  result ← match affected_entities !! "ISO" with
           | Some isos =>
               parsed ← for_each isos [] (λ acc iso,
                          iso_id ← subscript iso "id";
                          parsed ← ISO.parse_iso_id iso_id;
                          mret (acc ++ [parsed]));
               mret (ImpactResult.set_affected_isos parsed result)
           | None => mret result
           end;
  let result := match affected_entities !! "SPOOL" with
                | Some spools => ImpactResult.set_affected_spools spools result
                | None => result
                end in
  let result := match affected_entities !! "Part" with
                | Some parts => ImpactResult.set_affected_parts parts result
                | None => result
                end in
  mret result.

Definition _assess_severity (impact_count : Z) : ChangeSeverity :=
  if impact_count =? 0 then LOW
  else if impact_count <=? 5 then MEDIUM
  else if impact_count <=? 15 then HIGH
  else CRITICAL.

Definition analyze (change_event : ChangeEvent.t) : outcome ImpactResult.t :=
  if is_empty (ChangeEvent.entity_id change_event) || is_empty (ChangeEvent.entity_type change_event)
  then Raise InvalidChangeEventError
  else
    let result :=
      ImpactResult.mk (ChangeEvent.event_id change_event) [] [] [] 0 None "graph_traversal" in
    result ←
      (if String.eqb (lower (ChangeEvent.entity_type change_event)) "line" then
         _analyze_line_impact (ChangeEvent.entity_id change_event) result
       else if String.eqb (lower (ChangeEvent.entity_type change_event)) "iso" then
         _analyze_iso_impact (ChangeEvent.entity_id change_event) result
       else
         _analyze_generic_impact (ChangeEvent.entity_type change_event)
                                 (ChangeEvent.entity_id change_event) result);
    let result := ImpactResult.update_impact_count result in
    mret (ImpactResult.set_severity (Some (_assess_severity (ImpactResult.impact_count result))) result).

End with_repository.

Definition get_strategy_name : string := "graph_traversal".

Definition supports_entity_type (entity_type : string) : bool :=
  bool_decide (lower entity_type ∈ ["line"; "iso"; "equipment"; "spool"; "part"]).

End GraphTraversalStrategy.

(** app/application/strategies/base_strategy.py: the strategy interface,
    and the graph traversal as its instance. *)
Class ImpactAnalysisStrategy (S : Type) : Type := {
  strategy_analyze : S → ChangeEvent.t → outcome ImpactResult.t;
  strategy_name : S → string;
  strategy_supports : S → string → bool
}.

#[global] Instance graph_traversal_strategy : ImpactAnalysisStrategy IGraphRepository := {
  strategy_analyze := GraphTraversalStrategy.analyze;
  strategy_name := λ _, GraphTraversalStrategy.get_strategy_name;
  strategy_supports := λ _, GraphTraversalStrategy.supports_entity_type
}.

(** app/application/use_cases/analyze_line_impact.py *)
Module AnalyzeLineImpactUseCase.

Definition _validate_change_event (change_event : ChangeEvent.t) : outcome unit :=
  if is_empty (ChangeEvent.entity_id change_event) then Raise InvalidChangeEventError
  else if is_empty (ChangeEvent.entity_type change_event) then Raise InvalidChangeEventError
  else if is_empty (ChangeEvent.description change_event) then Raise InvalidChangeEventError
  else mret tt.

Definition execute {S} `{!ImpactAnalysisStrategy S} (strategy : S)
    (change_event : ChangeEvent.t) : outcome ImpactResult.t :=
  _ ← _validate_change_event change_event;
  if negb (strategy_supports strategy (ChangeEvent.entity_type change_event))
  then Raise InvalidChangeEventError
  else strategy_analyze strategy change_event.

End AnalyzeLineImpactUseCase.

(* ================================================================= *)
(** ** Batch analysis
    app/application/use_cases/batch_impact_analysis.py *)
Module BatchImpactAnalysisUseCase.

(** The [properties] entry of a summary or of a hierarchy node is the
    dictionary of a line, of an ISO, or the bag the store returned. *)
Inductive properties : Type :=
| LineProps (line : Line.t)
| IsoProps (iso : ISO.t)
| BagProps (bag : gmap string string).

(** An entry of one of the flat [affected_*] lists. *)
Record EntitySummary : Type := mkSummary {
  id : string;
  type : string;
  summary_properties : properties
}.

(** A node of [impact_hierarchy]. *)
Inductive HierarchyNode : Type :=
  mkNode (entity_id : string) (entity_type : string)
         (children : list HierarchyNode) (node_properties : properties)
         (impact_count : Z).

Definition entity_id (n : HierarchyNode) : string :=
  match n with mkNode i _ _ _ _ => i end.
Definition entity_type (n : HierarchyNode) : string :=
  match n with mkNode _ t _ _ _ => t end.
Definition children (n : HierarchyNode) : list HierarchyNode :=
  match n with mkNode _ _ cs _ _ => cs end.
Definition node_properties (n : HierarchyNode) : properties :=
  match n with mkNode _ _ _ p _ => p end.
Definition impact_count (n : HierarchyNode) : Z :=
  match n with mkNode _ _ _ _ c => c end.
Definition set_impact_count (c : Z) (n : HierarchyNode) : HierarchyNode :=
  match n with mkNode i t cs p _ => mkNode i t cs p c end.

Record Metrics : Type := mkMetrics {
  total_affected_isos : Z;
  total_affected_spools : Z;
  total_affected_parts : Z;
  total_impact_count : Z
}.

(** The [result] dictionary of [execute]. *)
Record BatchResult : Type := mkResult {
  affected_lines : list EntitySummary;
  affected_isos : list EntitySummary;
  affected_spools : list EntitySummary;
  affected_parts : list EntitySummary;
  impact_hierarchy : list HierarchyNode;
  metrics : Metrics
}.

Definition append_affected_lines (e : EntitySummary) (r : BatchResult) : BatchResult :=
  mkResult (affected_lines r ++ [e]) (affected_isos r) (affected_spools r)
           (affected_parts r) (impact_hierarchy r) (metrics r).
Definition append_affected_isos (e : EntitySummary) (r : BatchResult) : BatchResult :=
  mkResult (affected_lines r) (affected_isos r ++ [e]) (affected_spools r)
           (affected_parts r) (impact_hierarchy r) (metrics r).
Definition append_affected_spools (e : EntitySummary) (r : BatchResult) : BatchResult :=
  mkResult (affected_lines r) (affected_isos r) (affected_spools r ++ [e])
           (affected_parts r) (impact_hierarchy r) (metrics r).
Definition append_affected_parts (e : EntitySummary) (r : BatchResult) : BatchResult :=
  mkResult (affected_lines r) (affected_isos r) (affected_spools r)
           (affected_parts r ++ [e]) (impact_hierarchy r) (metrics r).
Definition append_impact_hierarchy (n : HierarchyNode) (r : BatchResult) : BatchResult :=
  mkResult (affected_lines r) (affected_isos r) (affected_spools r)
           (affected_parts r) (impact_hierarchy r ++ [n]) (metrics r).
Definition set_metrics (m : Metrics) (r : BatchResult) : BatchResult :=
  mkResult (affected_lines r) (affected_isos r) (affected_spools r)
           (affected_parts r) (impact_hierarchy r) m.

(** Computations on the shared [result] dictionary: the state is kept
    when the computation raises. *)
Definition M (A : Type) : Type := BatchResult → BatchResult * outcome A.

#[global] Instance M_ret : MRet M := λ A a result, (result, Ok a).
#[global] Instance M_bind : MBind M := λ A B k m result,
  match m result with
  | (result', Ok a) => k a result'
  | (result', Raise e) => (result', Raise e)
  end.

(** read the dictionary *)
Definition get : M BatchResult := λ result, (result, Ok result).
(** update it in place *)
Definition modify (f : BatchResult → BatchResult) : M unit :=
  λ result, (f result, Ok tt).
(** run a store call or another raising computation *)
Definition lift {A} (o : outcome A) : M A := λ result, (result, o).
(** [try: body except Exception as e: handler] *)
Definition try_except_M {A} (body : M A) (handler : exn → M A) : M A :=
  λ result,
    match body result with
    | (result', Ok a) => (result', Ok a)
    | (result', Raise e) => handler e result'
    end.

(** [any(x["id"] == key for x in entries)]; [key] is [None] when it comes
    from a [.get("id")] on a bag without that entry. *)
Definition any_id (key : option string) (entries : list EntitySummary) : bool :=
  existsb (λ x, bool_decide (Some (id x) = key)) entries.

Fixpoint _count_hierarchy_impacts (node : HierarchyNode) : Z :=
  match node with
  | mkNode _ _ cs _ _ =>
      fold_left (λ count child, count + _count_hierarchy_impacts child) cs 1
  end.

Definition _assess_severity (total_impact_count : Z) : string :=
  if total_impact_count =? 0 then "low"
  else if total_impact_count <=? 10 then "medium"
  else if total_impact_count <=? 30 then "high"
  else "critical".

Definition _requires_approval (severity : string) (total_impact_count : Z) : bool :=
  bool_decide (severity ∈ ["high"; "critical"]) || (15 <? total_impact_count).

Section with_repository.
Context (graph_repo : IGraphRepository).

Definition _get_iso_children (iso_id : string) (include_spools include_parts : bool)
  : M HierarchyNode :=
  iso_data ← lift (ISO.parse_iso_id iso_id);
  children ←
    (if include_spools then
       spools ← lift (get_affected_spools_by_iso graph_repo iso_id);
       for_each spools [] (λ children spool,
         result ← get;
         _ ← (if negb (any_id (spool !! "id") (affected_spools result)) then
                modify (append_affected_spools
                          (mkSummary (get_default spool "id" "unknown") "SPOOL"
                                     (BagProps spool)))
              else mret tt);
         mret (children ++ [mkNode (get_default spool "id" "unknown") "SPOOL" []
                                   (BagProps spool) 1]))
     else mret []);
  children ←
    (if include_parts then
       parts ← lift (get_affected_parts_by_iso graph_repo iso_id);
       for_each parts children (λ children part,
         result ← get;
         _ ← (if negb (any_id (part !! "id") (affected_parts result)) then
                modify (append_affected_parts
                          (mkSummary (get_default part "id" "unknown") "Part"
                                     (BagProps part)))
              else mret tt);
         mret (children ++ [mkNode (get_default part "id" "unknown") "Part" []
                                   (BagProps part) 1]))
     else mret children);
  mret (mkNode iso_id "ISO" children (IsoProps iso_data) (Z.of_nat (length children))).

Definition _process_line (line_id : string) (include_spools include_parts : bool)
  : M unit :=
  try_except_M
    (line ← lift (get_line_by_id graph_repo line_id);
     match line with
     | None => mret tt
     | Some line =>
         _ ← modify (append_affected_lines
                       (mkSummary (Line.id line) "Line" (LineProps line)));
         isos ← lift (get_affected_isos_by_line graph_repo line_id);
         children ← for_each isos [] (λ children iso,
           result ← get;
           _ ← (if negb (any_id (Some (ISO.id iso)) (affected_isos result)) then
                  modify (append_affected_isos
                            (mkSummary (ISO.id iso) "ISO" (IsoProps iso)))
                else mret tt);
           iso_children ← _get_iso_children (ISO.id iso) include_spools include_parts;
           mret (children ++ [iso_children]));
         let hierarchy_node := mkNode line_id "Line" children (LineProps line) 0 in
         let hierarchy_node :=
           set_impact_count (_count_hierarchy_impacts hierarchy_node) hierarchy_node in
         modify (append_impact_hierarchy hierarchy_node)
     end)
    (λ e, mret tt).

Definition _process_iso (iso_id : string) (include_spools include_parts : bool)
  : M unit :=
  try_except_M
    (result ← get;
     _ ← (if negb (any_id (Some iso_id) (affected_isos result)) then
            iso_data ← lift (ISO.parse_iso_id iso_id);
            modify (append_affected_isos (mkSummary iso_id "ISO" (IsoProps iso_data)))
          else mret tt);
     iso_hierarchy ← _get_iso_children iso_id include_spools include_parts;
     modify (append_impact_hierarchy iso_hierarchy))
    (λ e, mret tt).

Definition initial_result : BatchResult :=
  mkResult [] [] [] [] [] (mkMetrics 0 0 0 0).

Definition execute_body (line_numbers iso_numbers : list string)
    (include_spools include_parts : bool) : M BatchResult :=
  _ ← for_each line_numbers tt (λ _ line_id,
         _process_line line_id include_spools include_parts);
  _ ← for_each iso_numbers tt (λ _ iso_id,
         _process_iso iso_id include_spools include_parts);
  result ← get;
  _ ← modify (set_metrics
         (mkMetrics
            (Z.of_nat (length (affected_isos result)))
            (Z.of_nat (length (affected_spools result)))
            (Z.of_nat (length (affected_parts result)))
            (Z.of_nat (length (affected_isos result))
             + Z.of_nat (length (affected_spools result))
             + Z.of_nat (length (affected_parts result)))));
  get.

(** [execute] creates the dictionary, runs the body on it and returns it. *)
Definition execute (line_numbers iso_numbers : list string)
    (include_spools include_parts : bool) : outcome BatchResult :=
  snd (execute_body line_numbers iso_numbers include_spools include_parts
         initial_result).

End with_repository.

End BatchImpactAnalysisUseCase.

(* ================================================================= *)
(** ** Depth-limited children retrieval
    app/application/use_cases/get_children_hierarchy.py *)
Module GetChildrenHierarchyUseCase.

(** The minimal node: id, latest_status, children. *)
Inductive ChildNode : Type :=
  mkChild (id : string) (latest_status : option string) (children : list ChildNode).

Definition id (n : ChildNode) : string :=
  match n with mkChild i _ _ => i end.
Definition latest_status (n : ChildNode) : option string :=
  match n with mkChild _ s _ => s end.
Definition children (n : ChildNode) : list ChildNode :=
  match n with mkChild _ _ cs => cs end.
Definition set_children (cs : list ChildNode) (n : ChildNode) : ChildNode :=
  match n with mkChild i s _ => mkChild i s cs end.

Record ChildrenResult : Type := mkResult {
  entity_id : string;
  entity_type : string;
  result_children : list ChildNode;
  total_descendants : Z
}.

(** [_count_descendants] recurses on the [children] entry of each
    element of its argument; the recursion is written on the node that
    holds the list: [descendants_of child] is
    [_count_descendants(child.get("children", []))]. *)
Fixpoint descendants_of (child : ChildNode) : Z :=
  match child with
  | mkChild _ _ cs =>
      fold_left (λ count child, count + descendants_of child) cs
                (Z.of_nat (length cs))
  end.

Definition _count_descendants (children : list ChildNode) : Z :=
  fold_left (λ count child, count + descendants_of child) children
            (Z.of_nat (length children)).

Section with_repository.
Context (graph_repo : IGraphRepository).

Definition _get_spool_children (spool_id : string) (max_depth current_depth : Z)
  : outcome (list ChildNode) :=
  if max_depth <? current_depth then mret []
  else
    try_except
      (records ← client_groups_query graph_repo spool_id;
       for_each records [] (λ children part,
         mret (children ++ [mkChild (get_default part "id" "unknown") None []])))
      (λ e, mret []).

Definition _get_iso_children (iso_id : string) (max_depth current_depth : Z)
  : outcome (list ChildNode) :=
  if max_depth <? current_depth then mret []
  else
    spools ← get_affected_spools_by_iso graph_repo iso_id;
    children ← for_each spools [] (λ children spool,
      let spool_node :=
        mkChild (get_default spool "id" "unknown") (spool !! "latest_status") [] in
      spool_node ←
        (if current_depth <? max_depth then
           spool_children ← _get_spool_children (get_default spool "id" "unknown")
                                                max_depth (current_depth + 1);
           mret (set_children spool_children spool_node)
         else mret spool_node);
      mret (children ++ [spool_node]));
    parts ← get_affected_parts_by_iso graph_repo iso_id;
    for_each parts children (λ children part,
      mret (children ++ [mkChild (get_default part "id" "unknown") None []])).

Definition _get_line_children (line_id : string) (max_depth current_depth : Z)
  : outcome (list ChildNode) :=
  if max_depth <? current_depth then mret []
  else
    isos ← get_affected_isos_by_line graph_repo line_id;
    for_each isos [] (λ children iso,
      let iso_node := mkChild (ISO.id iso) None [] in
      iso_node ←
        (if current_depth <? max_depth then
           iso_children ← _get_iso_children (ISO.id iso) max_depth (current_depth + 1);
           mret (set_children iso_children iso_node)
         else mret iso_node);
      mret (children ++ [iso_node])).

Definition execute (entity_type entity_id : string) (depth : Z)
  : outcome ChildrenResult :=
  children ←
    (if String.eqb (lower entity_type) "line" then
       _get_line_children entity_id depth 1
     else if String.eqb (lower entity_type) "iso" then
       _get_iso_children entity_id depth 1
     else if String.eqb (lower entity_type) "spool" then
       _get_spool_children entity_id depth 1
     else mret []);
  mret (mkResult entity_id entity_type children (_count_descendants children)).

End with_repository.

(** Nodes of a forest with the number of relationship hops that
    separates each from the root the forest hangs under. *)
Inductive hops : list ChildNode → ChildNode → nat → Prop :=
| hops_child cs n : n ∈ cs → hops cs n 1
| hops_deeper cs c n k : c ∈ cs → hops (children c) n k → hops cs n (S k).

(** The longest downward path that starts at a node, in edges, and the
    longest path from the root a forest hangs under. *)
Fixpoint node_height (n : ChildNode) : nat :=
  match n with
  | mkChild _ _ cs => fold_right (λ c h, Nat.max (S (node_height c)) h) 0%nat cs
  end.

Definition height (cs : list ChildNode) : nat :=
  fold_right (λ c h, Nat.max (S (node_height c)) h) 0%nat cs.

End GetChildrenHierarchyUseCase.

(* ================================================================= *)
(** ** The simulation strategy
    app/application/strategies/simulation_strategy.py *)
Module SimulationStrategy.

(** The strategy object: it only holds the repository. *)
Record t : Type := mk { graph_repo : IGraphRepository }.

Definition analyze (self : t) (change_event : ChangeEvent.t) : outcome ImpactResult.t :=
  mret (ImpactResult.mk (ChangeEvent.event_id change_event) [] [] [] 0
                        (Some MEDIUM) "simulation").

Definition get_strategy_name : string := "simulation".

Definition supports_entity_type (entity_type : string) : bool := false.

End SimulationStrategy.

#[global] Instance simulation_strategy : ImpactAnalysisStrategy SimulationStrategy.t := {
  strategy_analyze := SimulationStrategy.analyze;
  strategy_name := λ _, SimulationStrategy.get_strategy_name;
  strategy_supports := λ _, SimulationStrategy.supports_entity_type
}.

(* ================================================================= *)
(** ** The Neo4j repository
    app/infrastructure/database/neo4j_repository.py *)
Module Neo4jGraphRepository.

(** What [client.execute_query] answers to each query of the
    repository, as the list of its records, each record reduced to the
    column the query returns: a node is its property bag, the traversal
    returns the labels with the node, the count query an integer. *)
Record Neo4jClient : Type := mkClient {
  match_line : string → outcome (list (gmap string string));
  match_isos_of_line : string → outcome (list (gmap string string));
  match_spools_of_iso : string → outcome (list (gmap string string));
  match_parts_of_iso : string → outcome (list (gmap string string));
  match_reachable :
    string → string → Z → outcome (list (list string * gmap string string));
  match_iso_count : string → outcome (list Z);
  match_parts_of_spool : string → outcome (list (gmap string string))
}.

Section with_client.
Context (client : Neo4jClient).
(** The construction of a [Line] from the properties of its node is the
    validation of the model library; it returns the line or raises. *)
Context (make_line : gmap string string → outcome Line.t).

Definition get_line_by_id (line_id : string) : outcome (option Line.t) :=
  try_except
    (records ← match_line client line_id;
     match records with
     | node :: _ => line ← make_line node; mret (Some line)
     | [] => mret None
     end)
    (λ e, Raise DatabaseConnectionError).

Definition get_affected_isos_by_line (line_id : string) : outcome (list ISO.t) :=
  try_except
    (records ← match_isos_of_line client line_id;
     for_each records [] (λ isos iso_node,
       iso_id ← subscript iso_node "id";
       iso_data ← ISO.parse_iso_id iso_id;
       mret (isos ++ [iso_data])))
    (λ e, Raise DatabaseConnectionError).

Definition get_affected_spools_by_iso (iso_id : string)
  : outcome (list (gmap string string)) :=
  try_except
    (records ← match_spools_of_iso client iso_id;
     mret records)
    (λ e, Raise DatabaseConnectionError).

Definition get_affected_parts_by_iso (iso_id : string)
  : outcome (list (gmap string string)) :=
  try_except
    (records ← match_parts_of_iso client iso_id;
     mret records)
    (λ e, Raise DatabaseConnectionError).

(** The dictionary the traversal builds keeps the entities of a label in
    record order; the order of its keys is not kept here. *)
Definition traverse_impact_graph (start_entity_type start_entity_id : string)
    (max_depth : Z) : outcome (gmap string (list (gmap string string))) :=
  try_except
    (records ← match_reachable client start_entity_type start_entity_id max_depth;
     for_each records ∅ (λ affected_entities record,
       let label := match record.1 with l :: _ => l | [] => "Unknown" end in
       let entity := record.2 in
       let affected_entities :=
         match affected_entities !! label with
         | None => <[label := []]> affected_entities
         | Some _ => affected_entities
         end in
       entities ← subscript affected_entities label;
       mret (<[label := entities ++ [entity]]> affected_entities)))
    (λ e, Raise DatabaseConnectionError).

Definition get_line_iso_relationship_count (line_id : string) : outcome Z :=
  try_except
    (records ← match_iso_count client line_id;
     match records with
     | iso_count :: _ => mret iso_count
     | [] => mret 0
     end)
    (λ e, Raise DatabaseConnectionError).

(** The repository as the use cases see it; the children use case sends
    its SPOOL query through the client of the repository. *)
Definition repository : IGraphRepository :=
  mkRepo get_line_by_id get_affected_isos_by_line get_affected_spools_by_iso
         get_affected_parts_by_iso traverse_impact_graph
         (match_parts_of_spool client).

End with_client.

End Neo4jGraphRepository.

(* ================================================================= *)
(** ** The decision variables of the batch endpoint
    app/api/v1/endpoints/camunda.py, batch_analyze_impact *)
Module CamundaEndpoint.

Record camunda_variables : Type := mkVariables {
  impactSeverity : string;
  requiresApproval : bool;
  affectedISOCount : Z;
  affectedSpoolCount : Z;
  affectedPartCount : Z;
  totalImpactCount : Z;
  outcome_variable : string
}.

(** The body of the endpoint between the call of the use case and the
    response: severity, approval and the variables for the DMN table. *)
Definition decide (result : BatchImpactAnalysisUseCase.BatchResult) : camunda_variables :=
  let metrics := BatchImpactAnalysisUseCase.metrics result in
  let total_impact := BatchImpactAnalysisUseCase.total_impact_count metrics in
  let severity := BatchImpactAnalysisUseCase._assess_severity total_impact in
  let requires_approval :=
    BatchImpactAnalysisUseCase._requires_approval severity total_impact in
  mkVariables severity requires_approval
    (BatchImpactAnalysisUseCase.total_affected_isos metrics)
    (BatchImpactAnalysisUseCase.total_affected_spools metrics)
    (BatchImpactAnalysisUseCase.total_affected_parts metrics)
    total_impact
    (if 0 <? total_impact then "IMPACT" else "NO_IMPACT").


End CamundaEndpoint.

(* ================================================================= *)
(** ** The children endpoints
    app/api/v1/endpoints/camunda.py (get_children_objects_v2) and
    app/api/v2/endpoints/impact.py (get_children_objects) *)
Module ChildrenEndpoint.

(** The body of the endpoint's [try]: one request of the use case for
    each entity id, in order, the responses collected in a list.  The
    response model copies the four fields of the result.  Whatever this
    body raises, the endpoint answers with status 500. *)
Definition get_children_objects_v2 (graph_repo : IGraphRepository)
    (entity_type : string) (entity_ids : list string) (depth : Z)
  : outcome (list GetChildrenHierarchyUseCase.ChildrenResult) :=
  for_each entity_ids [] (λ responses entity_id,
    result ← GetChildrenHierarchyUseCase.execute graph_repo entity_type entity_id depth;
    mret (responses ++ [result])).

End ChildrenEndpoint.

(* ================================================================= *)
(** ** The analysis endpoint
    app/api/v1/endpoints/impact.py (analyze_impact) *)
Module ImpactEndpoint.

(** The fields of the request the analysis reads. *)
Record AnalyzeImpactRequest : Type := mkRequest {
  entity_type : string;
  entity_id : string;
  description : string
}.

(** What the endpoint answers: the response, with status 200, or an
    [HTTPException] with its status code and the [error] of its detail. *)
Inductive answer : Type :=
| Response (result : ImpactResult.t)
| HTTPException (status_code : Z) (error : string).

(** The change event is made from the request, without event id; the
    response copies the fields of the result.  The [except] clauses are
    tried in order. *)
Definition analyze_impact {S} `{!ImpactAnalysisStrategy S} (use_case : S)
    (request : AnalyzeImpactRequest) : answer :=
  let change_event :=
    ChangeEvent.mk None (entity_type request) (entity_id request) (description request) in
  match AnalyzeLineImpactUseCase.execute use_case change_event with
  | Ok result => Response result
  | Raise EntityNotFoundError => HTTPException 404 "EntityNotFoundError"
  | Raise InvalidChangeEventError => HTTPException 400 "InvalidChangeEventError"
  | Raise DatabaseConnectionError => HTTPException 500 "DatabaseConnectionError"
  | Raise _ => HTTPException 500 "InternalServerError"
  end.

End ImpactEndpoint.

(* ================================================================= *)
(** ** Stores used in the examples *)
Module Stores.

Definition line (line_id : string) : Line.t :=
  Line.mk line_id line_id 662 "OIL SEPARATION" "SO17113" "FPSO" "TS002".

Definition iso (iso_id drawing sheet : string) : ISO.t :=
  ISO.mk iso_id (Some drawing) (Some sheet).

(** A store with no node at all: every query answers, with nothing. *)
Definition empty_store : IGraphRepository :=
  mkRepo (λ _, Ok None) (λ _, Ok []) (λ _, Ok []) (λ _, Ok [])
         (λ _ _ _, Ok ∅) (λ _, Ok []).

(** Lines L1 and L2 share the drawing sheet A.2; A.1 is fabricated as two
    spools and has one loose part; the spools of C.1 were stored without
    an id; the spool query for B.1 fails. *)
Definition plant : IGraphRepository :=
  mkRepo
    (λ line_id,
       if String.eqb line_id "L1" then Ok (Some (line "L1"))
       else if String.eqb line_id "L2" then Ok (Some (line "L2"))
       else if String.eqb line_id "L3" then Ok (Some (line "L3"))
       else Ok None)
    (λ line_id,
       if String.eqb line_id "L1" then Ok [iso "A.1" "A" "1"; iso "A.2" "A" "2"]
       else if String.eqb line_id "L2" then Ok [iso "A.2" "A" "2"]
       else if String.eqb line_id "L3" then Ok [iso "B.1" "B" "1"]
       else Ok [])
    (λ iso_id,
       if String.eqb iso_id "A.1" then
         Ok [ {[ "id" := "SP1"; "latest_status" := "fabricated" ]};
              {[ "id" := "SP2" ]} ]
       else if String.eqb iso_id "B.1" then Raise DatabaseConnectionError
       else if String.eqb iso_id "C.1" then
         Ok [ {[ "latest_status" := "new" ]}; {[ "latest_status" := "painted" ]} ]
       else Ok [])
    (λ iso_id,
       if String.eqb iso_id "A.1" then Ok [ {[ "id" := "P1" ]} ] else Ok [])
    (λ _ _ _, Ok ∅)
    (λ spool_id,
       if String.eqb spool_id "SP1" then Ok [ {[ "id" := "P2" ]}; {[ "id" := "P3" ]} ]
       else Ok []).

(** The plant with the spool query of B.1 answered and the spools of
    C.1 given ids: every query answers and every bag has an id. *)
Definition yard : IGraphRepository :=
  mkRepo
    (get_line_by_id plant)
    (get_affected_isos_by_line plant)
    (λ iso_id,
       if String.eqb iso_id "B.1" then Ok [ {[ "id" := "SP1" ]} ]
       else if String.eqb iso_id "C.1" then
         Ok [ {[ "id" := "SP7"; "latest_status" := "new" ]};
              {[ "id" := "SP7"; "latest_status" := "painted" ]} ]
       else get_affected_spools_by_iso plant iso_id)
    (get_affected_parts_by_iso plant)
    (traverse_impact_graph plant)
    (client_groups_query plant).

(** A Neo4j client over a few records, and the repository on it.  The
    equipment E1 reaches two ISOs, a spool and a node without labels; the
    pump P1 reaches an ISO node that has no id; the ISO query of line L9
    returns a node without id; the spool query of Z.1 fails in the
    driver with a key error. *)
Definition client : Neo4jGraphRepository.Neo4jClient :=
  Neo4jGraphRepository.mkClient
    (λ line_id,
       if String.eqb line_id "L1" then Ok [ {[ "id" := "L1" ]}; {[ "id" := "L1b" ]} ]
       else Ok [])
    (λ line_id,
       if String.eqb line_id "L1" then Ok [ {[ "id" := "A.1" ]}; {[ "id" := "A.2" ]} ]
       else if String.eqb line_id "L9" then Ok [ {[ "name" := "A.9" ]} ]
       else Ok [])
    (λ iso_id,
       if String.eqb iso_id "A.1" then Ok [ {[ "id" := "SP1" ]} ]
       else if String.eqb iso_id "Z.1" then Raise KeyError
       else Ok [])
    (λ iso_id, Ok [])
    (λ entity_type entity_id max_depth,
       if String.eqb entity_id "E1" then
         Ok [ (["ISO"; "Drawing"], {[ "id" := "A.1" ]});
              (["SPOOL"], {[ "id" := "SP1" ]});
              (["ISO"], {[ "id" := "A.2" ]});
              ([], {[ "id" := "N1" ]}) ]
       else if String.eqb entity_id "P1" then
         Ok [ (["ISO"], {[ "name" := "A.3" ]}) ]
       else Ok [])
    (λ line_id, if String.eqb line_id "L1" then Ok [2] else Ok [])
    (λ spool_id, Ok []).

Definition neo4j : IGraphRepository :=
  Neo4jGraphRepository.repository client (λ node, Ok (line (get_default node "id" "unknown"))).

End Stores.

(* ================================================================= *)
(** ** Vocabulary of the statements *)

(** The order low < medium < high < critical. *)
Definition severity_rank (s : ChangeSeverity) : Z :=
  match s with LOW => 0 | MEDIUM => 1 | HIGH => 2 | CRITICAL => 3 end.

(** The levels still allowed below a call at [current_depth]. *)
Definition budget (max_depth current_depth : Z) : Z :=
  Z.max 0 (max_depth - current_depth + 1).

(** *** Batch hierarchy *)
Module BatchVocabulary.
Import BatchImpactAnalysisUseCase.

(** All the nodes of a tree, the root first, and of a forest. *)
Fixpoint nodes (n : HierarchyNode) : list HierarchyNode :=
  match n with
  | mkNode _ _ cs _ _ => n :: flat_map nodes cs
  end.

Definition hierarchy_nodes (h : list HierarchyNode) : list HierarchyNode :=
  flat_map nodes h.

(** The sum of the [impact_count] entries of the children of a node. *)
Definition children_impact (n : HierarchyNode) : Z :=
  foldr Z.add 0 (impact_count <$> children n).

(** The three kinds of node the batch builds. *)
Definition leaf_shape (n : HierarchyNode) : Prop :=
  (entity_type n = "SPOOL" ∨ entity_type n = "Part") ∧
  children n = [] ∧ impact_count n = 1.

Definition iso_shape (n : HierarchyNode) : Prop :=
  entity_type n = "ISO" ∧ Forall leaf_shape (children n) ∧
  impact_count n = Z.of_nat (length (children n)).

Definition line_shape (n : HierarchyNode) : Prop :=
  entity_type n = "Line" ∧ Forall iso_shape (children n) ∧
  impact_count n = 1 + foldr Z.add 0 ((λ c, 1 + impact_count c) <$> children n).

Definition root_shape (n : HierarchyNode) : Prop := line_shape n ∨ iso_shape n.

(** A SPOOL node is a leaf that counts for one. *)
Definition spool_is_leaf (n : HierarchyNode) : Prop :=
  entity_type n = "SPOOL" → children n = [] ∧ impact_count n = 1.

(** The summary and the hierarchy leaf the batch makes of a store bag. *)
Definition bag_summary (type : string) (bag : gmap string string) : EntitySummary :=
  mkSummary (get_default bag "id" "unknown") type (BagProps bag).

Definition bag_leaf (type : string) (bag : gmap string string) : HierarchyNode :=
  mkNode (get_default bag "id" "unknown") type [] (BagProps bag) 1.

(** What a pass over the spools (the parts) of an ISO leaves in the flat
    lists: a bag is recorded unless an entry already equals its id. *)
Definition record_spool (result : BatchResult) (spool : gmap string string) : BatchResult :=
  if any_id (spool !! "id") (affected_spools result) then result
  else append_affected_spools (bag_summary "SPOOL" spool) result.

Definition record_part (result : BatchResult) (part : gmap string string) : BatchResult :=
  if any_id (part !! "id") (affected_parts result) then result
  else append_affected_parts (bag_summary "Part" part) result.

(** The fields [parse_iso_id] computes, read off the segments. *)
Definition iso_fields (iso_id : string) : ISO.t :=
  match split "." iso_id with
  | [] => ISO.mk iso_id (Some iso_id) None
  | [a] => ISO.mk iso_id (Some a) None
  | a :: b :: _ => ISO.mk iso_id (Some a) (Some b)
  end.

(** The ISO node of the hierarchy, given what the store answered. *)
Definition iso_node (iso_id : string) (spools parts : list (gmap string string))
  : HierarchyNode :=
  let children := (bag_leaf "SPOOL" <$> spools) ++ (bag_leaf "Part" <$> parts) in
  mkNode iso_id "ISO" children (IsoProps (iso_fields iso_id))
         (Z.of_nat (length children)).

(** No id occurs twice in a flat list. *)
Definition distinct_ids (entries : list EntitySummary) : Prop :=
  NoDup (id <$> entries).

(** The store gave every bag an id. *)
Definition has_id (bag : gmap string string) : Prop := is_Some (bag !! "id").

(** The computation keeps the property [I] of the dictionary, whether
    it returns or raises. *)
Definition preserves (I : BatchResult → Prop) {A} (m : M A) : Prop :=
  ∀ result, I result → I (m result).1.

Section with_repository.
Context (graph_repo : IGraphRepository).

(** The queries [_get_iso_children] sends under the two flags. *)
Definition spools_wanted (include_spools : bool) (iso_id : string)
  : outcome (list (gmap string string)) :=
  if include_spools then get_affected_spools_by_iso graph_repo iso_id else Ok [].

Definition parts_wanted (include_parts : bool) (iso_id : string)
  : outcome (list (gmap string string)) :=
  if include_parts then get_affected_parts_by_iso graph_repo iso_id else Ok [].

Definition is_ok {A} (o : outcome A) : bool :=
  match o with Ok _ => true | Raise _ => false end.

(** The store answers everything the expansion of an ISO asks. *)
Definition iso_expands (include_spools include_parts : bool) (iso_id : string) : bool :=
  is_ok (spools_wanted include_spools iso_id)
  && is_ok (parts_wanted include_parts iso_id).

(** The line is found and the store answers everything its expansion
    asks. *)
Definition line_expands (include_spools include_parts : bool) (line_id : string) : bool :=
  match get_line_by_id graph_repo line_id with
  | Ok (Some _) =>
      match get_affected_isos_by_line graph_repo line_id with
      | Ok isos => forallb (λ iso, iso_expands include_spools include_parts (ISO.id iso)) isos
      | Raise _ => false
      end
  | _ => false
  end.

End with_repository.

End BatchVocabulary.

(** *** Further vocabulary *)

(** The value of a member of the enumeration [ChangeSeverity]. *)
Definition severity_value (s : ChangeSeverity) : string :=
  match s with
  | LOW => "low" | MEDIUM => "medium" | HIGH => "high" | CRITICAL => "critical"
  end.

(** The order of the batch bands. *)
Definition band_rank (band : string) : Z :=
  if String.eqb band "low" then 0
  else if String.eqb band "medium" then 1
  else if String.eqb band "high" then 2
  else 3.

(** Every failure of the store operations the analyses call is a
    [DatabaseConnectionError]. *)
Definition raises_only_database_errors (graph_repo : IGraphRepository) : Prop :=
  (∀ i e, get_line_by_id graph_repo i = Raise e → e = DatabaseConnectionError) ∧
  (∀ i e, get_affected_isos_by_line graph_repo i = Raise e → e = DatabaseConnectionError) ∧
  (∀ i e, get_affected_spools_by_iso graph_repo i = Raise e → e = DatabaseConnectionError) ∧
  (∀ i e, get_affected_parts_by_iso graph_repo i = Raise e → e = DatabaseConnectionError) ∧
  (∀ t i d e, traverse_impact_graph graph_repo t i d = Raise e → e = DatabaseConnectionError).

(** All the nodes of a children tree, and of a forest. *)
Fixpoint child_nodes (n : GetChildrenHierarchyUseCase.ChildNode)
  : list GetChildrenHierarchyUseCase.ChildNode :=
  match n with
  | GetChildrenHierarchyUseCase.mkChild _ _ cs => n :: flat_map child_nodes cs
  end.

Definition forest_nodes (cs : list GetChildrenHierarchyUseCase.ChildNode)
  : list GetChildrenHierarchyUseCase.ChildNode :=
  flat_map child_nodes cs.

(** The fields the three analyses leave alone. *)
Definition same_header (a b : ImpactResult.t) : Prop :=
  ImpactResult.event_id a = ImpactResult.event_id b ∧
  ImpactResult.analysis_method a = ImpactResult.analysis_method b.

(** The entry a requested line leaves in [affected_lines]: one when the
    lookup finds the line, none otherwise. *)
Definition found_line (graph_repo : IGraphRepository) (line_id : string)
  : list BatchImpactAnalysisUseCase.EntitySummary :=
  match get_line_by_id graph_repo line_id with
  | Ok (Some line) =>
      [BatchImpactAnalysisUseCase.mkSummary (Line.id line) "Line"
         (BatchImpactAnalysisUseCase.LineProps line)]
  | _ => []
  end.

(** The label the traversal files a record under. *)
Definition first_label (record : list string * gmap string string) : string :=
  match record.1 with l :: _ => l | [] => "Unknown" end.

(** The id under which a bag of the store is shown. *)
Definition shown_id (bag : gmap string string) : string :=
  get_default bag "id" "unknown".

(** The levels the children request can show below an entity of a
    type: a line has ISOs, spools or loose parts, and grouped parts
    below it; a type the request does not know has nothing. *)
Definition levels_below (entity_type : string) : Z :=
  if String.eqb (lower entity_type) "line" then 3
  else if String.eqb (lower entity_type) "iso" then 2
  else if String.eqb (lower entity_type) "spool" then 1
  else 0.

(** The node the children request shows for a part. *)
Definition part_leaf (part : gmap string string) : GetChildrenHierarchyUseCase.ChildNode :=
  GetChildrenHierarchyUseCase.mkChild (shown_id part) None [].

(** The parts a spool groups, as the children request shows them: a
    grouping query that fails shows as a spool without parts. *)
Definition grouped_parts (graph_repo : IGraphRepository) (spool_id : string)
  : list GetChildrenHierarchyUseCase.ChildNode :=
  match client_groups_query graph_repo spool_id with
  | Ok records => part_leaf <$> records
  | Raise _ => []
  end.

(** The node the children request shows for a spool, with its grouped
    parts when the request goes that deep. *)
Definition spool_tree (graph_repo : IGraphRepository) (deeper : bool)
    (spool : gmap string string) : GetChildrenHierarchyUseCase.ChildNode :=
  GetChildrenHierarchyUseCase.mkChild (shown_id spool) (spool !! "latest_status")
    (if deeper then grouped_parts graph_repo (shown_id spool) else []).

(** The expansion of an ISO asks the store for its spools and then for
    its parts; the first of the two that fails is what it raises. *)
Definition iso_queries_raise (graph_repo : IGraphRepository) (iso_id : string) (e : exn)
  : Prop :=
  get_affected_spools_by_iso graph_repo iso_id = Raise e ∨
  ((∃ spools, get_affected_spools_by_iso graph_repo iso_id = Ok spools) ∧
   get_affected_parts_by_iso graph_repo iso_id = Raise e).

(** A request the use case lets through to the graph-traversal
    strategy: id, type and description are not empty and the type is one
    the strategy supports. *)
Definition accepted (request : ImpactEndpoint.AnalyzeImpactRequest) : bool :=
  negb (is_empty (ImpactEndpoint.entity_id request)) &&
  negb (is_empty (ImpactEndpoint.entity_type request)) &&
  negb (is_empty (ImpactEndpoint.description request)) &&
  GraphTraversalStrategy.supports_entity_type (ImpactEndpoint.entity_type request).

(* ================================================================= *)
(** * Properties *)

(* ================================================================= *)
(** ** Severity classification and approval *)

(** C2.  For an impact count [n >= 0] the single-entity classifier
    answers LOW at 0, MEDIUM on 1..5, HIGH on 6..15 and CRITICAL above
    15; the batch classifier answers low at 0, medium on 1..10, high on
    11..30 and critical above 30. *)
Theorem assess_severity_bands (n : Z) (Hn : 0 ≤ n) :
  (n = 0 → GraphTraversalStrategy._assess_severity n = LOW) ∧
  (1 ≤ n ≤ 5 → GraphTraversalStrategy._assess_severity n = MEDIUM) ∧
  (6 ≤ n ≤ 15 → GraphTraversalStrategy._assess_severity n = HIGH) ∧
  (15 < n → GraphTraversalStrategy._assess_severity n = CRITICAL) ∧
  (n = 0 → BatchImpactAnalysisUseCase._assess_severity n = "low") ∧
  (1 ≤ n ≤ 10 → BatchImpactAnalysisUseCase._assess_severity n = "medium") ∧
  (11 ≤ n ≤ 30 → BatchImpactAnalysisUseCase._assess_severity n = "high") ∧
  (30 < n → BatchImpactAnalysisUseCase._assess_severity n = "critical").
Proof.
  unfold GraphTraversalStrategy._assess_severity,
         BatchImpactAnalysisUseCase._assess_severity.
  repeat split; intros Hband;
    repeat match goal with
           | |- context [?a =? ?b] => destruct (Z.eqb_spec a b)
           | |- context [?a <=? ?b] => destruct (Z.leb_spec a b)
           end; first [reflexivity | lia].
Qed.

Lemma assess_severity_bands_witness :
  0 ≤ 7 ∧
  GraphTraversalStrategy._assess_severity 7 = HIGH ∧
  BatchImpactAnalysisUseCase._assess_severity 7 = "medium".
Proof.
  split; [lia|].
  pose proof (assess_severity_bands 7 ltac:(lia)) as (_ & _ & Hhigh & _ & _ & Hmed & _).
  split; [apply Hhigh | apply Hmed]; lia.
Defined.

(** The single-entity classifier is monotone in the count. *)
Lemma single_severity_monotone (m n : Z) :
  0 ≤ m ≤ n →
  severity_rank (GraphTraversalStrategy._assess_severity m)
  ≤ severity_rank (GraphTraversalStrategy._assess_severity n).
Proof.
  intros Hmn. unfold GraphTraversalStrategy._assess_severity.
  repeat match goal with
         | |- context [?a =? ?b] => destruct (Z.eqb_spec a b)
         | |- context [?a <=? ?b] => destruct (Z.leb_spec a b)
         end; simpl; lia.
Qed.

(** C3.  The batch approval flag is set exactly when the severity is
    high or critical, or the count exceeds 15; each of the two conditions
    sets it where the other does not. *)
Theorem requires_approval_iff (severity : string) (n : Z) :
  (BatchImpactAnalysisUseCase._requires_approval severity n = true
   ↔ (severity = "high" ∨ severity = "critical") ∨ 15 < n) ∧
  BatchImpactAnalysisUseCase._requires_approval "high" 0 = true ∧
  BatchImpactAnalysisUseCase._requires_approval "low" 16 = true.
Proof.
  split; [|split; reflexivity].
  unfold BatchImpactAnalysisUseCase._requires_approval.
  rewrite orb_true_iff, bool_decide_eq_true, Z.ltb_lt.
  rewrite !elem_of_cons, elem_of_nil. tauto.
Qed.

(* ================================================================= *)
(** ** Resolution of ISO identifiers *)

Lemma split_nonempty (sep : ascii) (s : string) : split sep s ≠ [].
Proof.
  destruct s as [|c rest]; simpl; [discriminate|].
  destruct (Ascii.eqb c sep); [discriminate|].
  destruct (split sep rest); discriminate.
Qed.

(** A string without the separator is its own single segment. *)
Lemma split_absent (sep : ascii) (s : string) :
  occurs sep s = false → split sep s = [s].
Proof.
  induction s as [|c rest IH]; simpl; [reflexivity|].
  intros [Hc Hrest]%orb_false_iff. rewrite Hc, (IH Hrest). reflexivity.
Qed.

(** The first segment ends at the first separator. *)
Lemma split_first (sep : ascii) (a rest : string) :
  occurs sep a = false →
  split sep (a +:+ String sep rest) = a :: split sep rest.
Proof.
  induction a as [|c a IH]; simpl.
  - intros _. rewrite Ascii.eqb_refl. reflexivity.
  - intros [Hc Ha]%orb_false_iff. rewrite Hc, (IH Ha). reflexivity.
Qed.

Lemma parse_iso_id_segments (iso_id : string) :
  ISO.parse_iso_id iso_id =
  match split "." iso_id with
  | [] => Ok (ISO.mk iso_id (Some iso_id) None)
  | [a] => Ok (ISO.mk iso_id (Some a) None)
  | a :: b :: _ => Ok (ISO.mk iso_id (Some a) (Some b))
  end.
Proof.
  unfold ISO.parse_iso_id.
  destruct (split "." iso_id) as [|a [|b rest]]; reflexivity.
Qed.

(** In general the drawing number is what precedes the first '.', and
    the sheet number what lies between the first '.' and the next, or
    the end of the id. *)
Lemma parse_iso_id_first_dot (a b rest : string) :
  occurs "." a = false → occurs "." b = false →
  ISO.parse_iso_id (a +:+ "." +:+ b) = Ok (ISO.mk (a +:+ "." +:+ b) (Some a) (Some b)) ∧
  ISO.parse_iso_id (a +:+ "." +:+ b +:+ "." +:+ rest)
    = Ok (ISO.mk (a +:+ "." +:+ b +:+ "." +:+ rest) (Some a) (Some b)).
Proof.
  intros Ha Hb. rewrite !parse_iso_id_segments. split.
  - change ("." +:+ b) with (String "."%char b).
    rewrite (split_first _ _ _ Ha), (split_absent _ _ Hb). reflexivity.
  - change ("." +:+ b +:+ "." +:+ rest)
      with (String "."%char (b +:+ String "."%char rest)).
    rewrite (split_first _ _ _ Ha), (split_first _ _ _ Hb). reflexivity.
Qed.

Lemma parse_iso_id_no_dot (a : string) :
  occurs "." a = false → ISO.parse_iso_id a = Ok (ISO.mk a (Some a) None).
Proof.
  intros Ha. rewrite parse_iso_id_segments, (split_absent _ _ Ha). reflexivity.
Qed.

(** C6, as the code has it.  For [a] and [b] free of '.', the id
    [a.b] resolves to drawing number [a] and sheet number [b], its id
    being [iso_number + "." + sheet_number]; and the dot-free id [a]
    resolves to drawing number [a] with no sheet number, without error. *)
Theorem parse_iso_id_one_dot (a b : string)
    (Ha : occurs "." a = false) (Hb : occurs "." b = false) :
  ISO.parse_iso_id (a +:+ "." +:+ b)
    = Ok (ISO.mk (a +:+ "." +:+ b) (Some a) (Some b)) ∧
  ISO.parse_iso_id a = Ok (ISO.mk a (Some a) None).
Proof.
  split.
  - apply (parse_iso_id_first_dot a b EmptyString Ha Hb).
  - apply parse_iso_id_no_dot, Ha.
Qed.

Lemma parse_iso_id_one_dot_witness :
  ISO.parse_iso_id "TS002-662-LPPL-2014.SHT1"
    = Ok (ISO.mk "TS002-662-LPPL-2014.SHT1" (Some "TS002-662-LPPL-2014") (Some "SHT1")) ∧
  ISO.parse_iso_id "TS002-662-LPPL-2014"
    = Ok (ISO.mk "TS002-662-LPPL-2014" (Some "TS002-662-LPPL-2014") None).
Proof.
  apply (parse_iso_id_one_dot "TS002-662-LPPL-2014" "SHT1"); reflexivity.
Defined.

(** With a second '.', the sheet number is the segment between the
    first two dots, not the rest of the id, and the id is no longer
    [iso_number + "." + sheet_number]. *)
Lemma parse_iso_id_two_dots :
  ∃ r, ISO.parse_iso_id "A.B.C" = Ok r ∧
       ISO.sheet_number r ≠ Some "B.C" ∧
       ∀ n s, ISO.iso_number r = Some n → ISO.sheet_number r = Some s →
              ISO.id r ≠ n +:+ "." +:+ s.
Proof.
  eexists. split; [reflexivity|]. split; [discriminate|].
  simpl. intros n s [= <-] [= <-]. discriminate.
Qed.

(** C8, as the code has it.  Resolution is a function of the id alone
    and never fails: every string, the empty one and the blank ones
    included, resolves to a record that carries it as id. *)
Theorem parse_iso_id_total (iso_id : string) :
  ∃ r, ISO.parse_iso_id iso_id = Ok r ∧ ISO.id r = iso_id.
Proof.
  rewrite parse_iso_id_segments.
  destruct (split "." iso_id) as [|a [|b rest]]; eexists; split; reflexivity.
Qed.

(** The empty id and a blank id resolve; nothing is raised. *)
Lemma parse_iso_id_blank :
  ISO.parse_iso_id "" = Ok (ISO.mk "" (Some "") None) ∧
  ISO.parse_iso_id "  " = Ok (ISO.mk "  " (Some "  ") None) ∧
  ¬ ∃ e, ISO.parse_iso_id "" = Raise e.
Proof.
  split; [reflexivity|]. split; [reflexivity|]. intros [e He]. discriminate He.
Qed.

(* ================================================================= *)
(** ** Loops in the exception monad *)

(** A loop establishes what its body preserves. *)
Lemma for_each_invariant {A S} (P : S → Prop) (xs : list A) (acc r : S)
    (body : S → A → outcome S) :
  P acc →
  (∀ acc x acc', P acc → body acc x = Ok acc' → P acc') →
  for_each xs acc body = Ok r → P r.
Proof.
  intros Hacc Hbody. revert acc Hacc.
  induction xs as [|x xs IH]; simpl; intros acc Hacc Hrun.
  - injection Hrun as <-. exact Hacc.
  - unfold mbind, outcome_bind in Hrun.
    destruct (body acc x) as [acc'|e] eqn:Hx; [|discriminate].
    apply (IH acc'); [eapply Hbody; eassumption | exact Hrun].
Qed.

(** A loop whose body never raises does not raise. *)
Lemma for_each_returns {A S} (xs : list A) (acc : S) (body : S → A → outcome S) :
  (∀ acc x, ∃ acc', body acc x = Ok acc') →
  ∃ r, for_each xs acc body = Ok r.
Proof.
  intros Hbody. revert acc.
  induction xs as [|x xs IH]; simpl; intros acc; [eexists; reflexivity|].
  destruct (Hbody acc x) as [acc' Hx].
  unfold mbind, outcome_bind. rewrite Hx. apply IH.
Qed.

(* ================================================================= *)
(** ** Depth bound of the children tree *)
Section children_depth.
Import GetChildrenHierarchyUseCase.
Context (graph_repo : IGraphRepository).

Lemma height_app (cs ds : list ChildNode) :
  height (cs ++ ds) = Nat.max (height cs) (height ds).
Proof.
  unfold height. induction cs as [|c cs IH]; simpl; [reflexivity|].
  rewrite IH. lia.
Qed.

Lemma height_singleton (i : string) (s : option string) (cs : list ChildNode) :
  height [mkChild i s cs] = S (height cs).
Proof. unfold height. simpl. lia. Qed.

Lemma height_elem (c : ChildNode) (cs : list ChildNode) :
  c ∈ cs → (S (node_height c) ≤ height cs)%nat.
Proof.
  unfold height. induction 1 as [c cs|c c' cs _ IH]; simpl; lia.
Qed.

Lemma node_height_children (c : ChildNode) : node_height c = height (children c).
Proof. destruct c; reflexivity. Qed.

(** Every node of a forest is within [height] hops. *)
Lemma hops_height (cs : list ChildNode) (n : ChildNode) (k : nat) :
  hops cs n k → (k ≤ height cs)%nat.
Proof.
  induction 1 as [cs n Hin|cs c n k Hin _ IH].
  - pose proof (height_elem _ _ Hin). lia.
  - pose proof (height_elem _ _ Hin) as Hc.
    rewrite node_height_children in Hc. lia.
Qed.


Lemma spool_children_height (spool_id : string) (max_depth current_depth : Z)
    (cs : list ChildNode) :
  _get_spool_children graph_repo spool_id max_depth current_depth = Ok cs →
  Z.of_nat (height cs) ≤ budget max_depth current_depth.
Proof.
  unfold _get_spool_children, budget.
  destruct (Z.ltb_spec max_depth current_depth) as [Hlt|Hge].
  - intros [= <-]. simpl. lia.
  - unfold try_except, mbind, outcome_bind.
    destruct (client_groups_query graph_repo spool_id) as [records|e];
      [|intros [= <-]; simpl; lia].
    destruct (for_each records [] _) as [r|e] eqn:Hloop; [|intros [= <-]; simpl; lia].
    intros [= <-].
    enough (height r ≤ 1)%nat by lia.
    revert Hloop. apply (for_each_invariant (λ cs, (height cs ≤ 1)%nat)); [simpl; lia|].
    intros acc part acc' Hacc [= <-].
    rewrite height_app, height_singleton. simpl. lia.
Qed.

(** The spool level never raises: its store failure is caught. *)
Lemma spool_children_returns (spool_id : string) (max_depth current_depth : Z) :
  ∃ cs, _get_spool_children graph_repo spool_id max_depth current_depth = Ok cs.
Proof.
  unfold _get_spool_children, try_except, mbind, outcome_bind.
  destruct (max_depth <? current_depth); [eexists; reflexivity|].
  destruct (client_groups_query graph_repo spool_id) as [records|e];
    [|eexists; reflexivity].
  destruct (for_each records [] _); eexists; reflexivity.
Qed.

Lemma iso_children_height (iso_id : string) (max_depth current_depth : Z)
    (cs : list ChildNode) :
  _get_iso_children graph_repo iso_id max_depth current_depth = Ok cs →
  Z.of_nat (height cs) ≤ budget max_depth current_depth.
Proof.
  unfold _get_iso_children, budget.
  destruct (Z.ltb_spec max_depth current_depth) as [Hlt|Hge].
  { intros [= <-]. simpl. lia. }
  unfold mbind at 1, outcome_bind at 1.
  destruct (get_affected_spools_by_iso graph_repo iso_id) as [spools|e]; [|discriminate].
  unfold mbind at 1, outcome_bind at 1.
  destruct (for_each spools [] _) as [children|e] eqn:Hspools; [|discriminate].
  unfold mbind at 1, outcome_bind at 1.
  destruct (get_affected_parts_by_iso graph_repo iso_id) as [parts|e]; [|discriminate].
  assert (Z.of_nat (height children) ≤ max_depth - current_depth + 1) as Hchildren.
  { revert Hspools.
    apply (for_each_invariant
             (λ cs, Z.of_nat (height cs) ≤ max_depth - current_depth + 1));
      [simpl; lia|].
    intros acc spool acc' Hacc. unfold mbind, outcome_bind.
    destruct (Z.ltb_spec current_depth max_depth) as [Hdeeper|Hlast].
    - destruct (_get_spool_children _ _ _ _) as [gs|e] eqn:Hgs; [|discriminate].
      intros [= <-]. apply spool_children_height in Hgs. unfold budget in Hgs.
      rewrite height_app. simpl set_children. rewrite height_singleton. lia.
    - intros [= <-]. rewrite height_app, height_singleton.
    change (height []) with 0%nat. lia. }
  intros Hparts.
  enough (Z.of_nat (height cs) ≤ max_depth - current_depth + 1) by lia.
  revert Hparts.
  apply (for_each_invariant
           (λ cs, Z.of_nat (height cs) ≤ max_depth - current_depth + 1));
    [lia|].
  intros acc part acc' Hacc [= <-].
  rewrite height_app, height_singleton.
    change (height []) with 0%nat. lia.
Qed.

Lemma line_children_height (line_id : string) (max_depth current_depth : Z)
    (cs : list ChildNode) :
  _get_line_children graph_repo line_id max_depth current_depth = Ok cs →
  Z.of_nat (height cs) ≤ budget max_depth current_depth.
Proof.
  unfold _get_line_children, budget.
  destruct (Z.ltb_spec max_depth current_depth) as [Hlt|Hge].
  { intros [= <-]. simpl. lia. }
  unfold mbind at 1, outcome_bind at 1.
  destruct (get_affected_isos_by_line graph_repo line_id) as [isos|e]; [|discriminate].
  intros Hloop.
  enough (Z.of_nat (height cs) ≤ max_depth - current_depth + 1) by lia.
  revert Hloop.
  apply (for_each_invariant
           (λ cs, Z.of_nat (height cs) ≤ max_depth - current_depth + 1));
    [simpl; lia|].
  intros acc iso acc' Hacc. unfold mbind, outcome_bind.
  destruct (Z.ltb_spec current_depth max_depth) as [Hdeeper|Hlast].
  - destruct (_get_iso_children _ _ _ _) as [gs|e] eqn:Hgs; [|discriminate].
    intros [= <-]. apply iso_children_height in Hgs. unfold budget in Hgs.
    rewrite height_app. simpl set_children. rewrite height_singleton. lia.
  - intros [= <-]. rewrite height_app, height_singleton.
    change (height []) with 0%nat. lia.
Qed.

End children_depth.

(** C9.  A children request with [depth = d >= 1] returns a tree in
    which no node lies more than [d] hops below the requested entity:
    the longest path from it has at most [d] edges. *)
Theorem get_children_depth_bound (graph_repo : IGraphRepository)
    (entity_type entity_id : string) (d : Z)
    (r : GetChildrenHierarchyUseCase.ChildrenResult)
    (Hd : 1 ≤ d)
    (Hrun : GetChildrenHierarchyUseCase.execute graph_repo entity_type entity_id d = Ok r) :
  Z.of_nat (GetChildrenHierarchyUseCase.height
              (GetChildrenHierarchyUseCase.result_children r)) ≤ d ∧
  ∀ n k, GetChildrenHierarchyUseCase.hops
           (GetChildrenHierarchyUseCase.result_children r) n k → Z.of_nat k ≤ d.
Proof.
  assert (Z.of_nat (GetChildrenHierarchyUseCase.height
                      (GetChildrenHierarchyUseCase.result_children r)) ≤ d) as Hheight.
  { revert Hrun. unfold GetChildrenHierarchyUseCase.execute, mbind, outcome_bind.
    assert (budget d 1 = d) as Hbudget by (unfold budget; lia).
    destruct (String.eqb (lower entity_type) "line");
      [|destruct (String.eqb (lower entity_type) "iso");
        [|destruct (String.eqb (lower entity_type) "spool")]].
    - destruct (GetChildrenHierarchyUseCase._get_line_children _ _ _ _) as [cs|e] eqn:Hcs;
        [|discriminate].
      intros [= <-]. simpl. apply line_children_height in Hcs. lia.
    - destruct (GetChildrenHierarchyUseCase._get_iso_children _ _ _ _) as [cs|e] eqn:Hcs;
        [|discriminate].
      intros [= <-]. simpl. apply iso_children_height in Hcs. lia.
    - destruct (GetChildrenHierarchyUseCase._get_spool_children _ _ _ _) as [cs|e] eqn:Hcs;
        [|discriminate].
      intros [= <-]. simpl. apply spool_children_height in Hcs. lia.
    - intros [= <-]. simpl. lia. }
  split; [exact Hheight|].
  intros n k Hhops. apply hops_height in Hhops. lia.
Qed.

Lemma get_children_depth_bound_witness :
  1 ≤ 1 ∧
  GetChildrenHierarchyUseCase.execute Stores.plant "ISO" "A.1" 1
    = Ok (GetChildrenHierarchyUseCase.mkResult "A.1" "ISO"
            [GetChildrenHierarchyUseCase.mkChild "SP1" (Some "fabricated") [];
             GetChildrenHierarchyUseCase.mkChild "SP2" None [];
             GetChildrenHierarchyUseCase.mkChild "P1" None []] 3) ∧
  Z.of_nat (GetChildrenHierarchyUseCase.height
              [GetChildrenHierarchyUseCase.mkChild "SP1" (Some "fabricated") [];
               GetChildrenHierarchyUseCase.mkChild "SP2" None [];
               GetChildrenHierarchyUseCase.mkChild "P1" None []]) ≤ 1.
Proof.
  split; [lia|]. split; [vm_compute; reflexivity|].
  apply (get_children_depth_bound Stores.plant "ISO" "A.1" 1 _
           ltac:(lia) ltac:(vm_compute; reflexivity)).
Defined.

(** One level more shows the grandchildren, and no further. *)
Example get_children_line_depth_2 :
  ∃ r, GetChildrenHierarchyUseCase.execute Stores.plant "Line" "L1" 2 = Ok r ∧
       GetChildrenHierarchyUseCase.height
         (GetChildrenHierarchyUseCase.result_children r) = 2%nat ∧
       GetChildrenHierarchyUseCase.total_descendants r = 5.
Proof. eexists. split; [vm_compute; reflexivity|]. split; reflexivity. Qed.

(** The request returns whenever the store answers its queries; the
    spool level returns even when it does not. *)
Section children_returns.
Import GetChildrenHierarchyUseCase.
Context (graph_repo : IGraphRepository).
Hypothesis isos_answer : ∀ i, ∃ l, get_affected_isos_by_line graph_repo i = Ok l.
Hypothesis spools_answer : ∀ i, ∃ l, get_affected_spools_by_iso graph_repo i = Ok l.
Hypothesis parts_answer : ∀ i, ∃ l, get_affected_parts_by_iso graph_repo i = Ok l.

Lemma iso_children_returns (iso_id : string) (max_depth current_depth : Z) :
  ∃ cs, _get_iso_children graph_repo iso_id max_depth current_depth = Ok cs.
Proof.
  unfold _get_iso_children.
  destruct (max_depth <? current_depth); [eexists; reflexivity|].
  destruct (spools_answer iso_id) as [spools ->].
  destruct (parts_answer iso_id) as [parts ->].
  unfold mbind at 1, outcome_bind at 1.
  match goal with
  | |- context [for_each spools [] ?body] =>
      destruct (for_each_returns spools [] body) as [children Hchildren]
  end.
  { intros acc spool. simpl. destruct (current_depth <? max_depth).
    - destruct (spool_children_returns graph_repo (get_default spool "id" "unknown")
                  max_depth (current_depth + 1)) as [gs ->].
      eexists; reflexivity.
    - eexists; reflexivity. }
  rewrite Hchildren. unfold mbind, outcome_bind.
  apply for_each_returns. intros acc part. eexists; reflexivity.
Qed.

Lemma line_children_returns (line_id : string) (max_depth current_depth : Z) :
  ∃ cs, _get_line_children graph_repo line_id max_depth current_depth = Ok cs.
Proof.
  unfold _get_line_children.
  destruct (max_depth <? current_depth); [eexists; reflexivity|].
  destruct (isos_answer line_id) as [isos ->].
  unfold mbind at 1, outcome_bind at 1.
  apply for_each_returns. intros acc iso. simpl.
  destruct (current_depth <? max_depth); [|eexists; reflexivity].
  destruct (iso_children_returns (ISO.id iso) max_depth (current_depth + 1)) as [gs ->].
  eexists; reflexivity.
Qed.

Lemma get_children_returns (entity_type entity_id : string) (d : Z) :
  ∃ r, execute graph_repo entity_type entity_id d = Ok r.
Proof.
  unfold execute.
  destruct (String.eqb (lower entity_type) "line");
    [|destruct (String.eqb (lower entity_type) "iso");
      [|destruct (String.eqb (lower entity_type) "spool")]].
  - destruct (line_children_returns entity_id d 1) as [cs ->]. eexists; reflexivity.
  - destruct (iso_children_returns entity_id d 1) as [cs ->]. eexists; reflexivity.
  - destruct (spool_children_returns graph_repo entity_id d 1) as [cs ->].
    eexists; reflexivity.
  - eexists; reflexivity.
Qed.

End children_returns.

(* ================================================================= *)
(** ** Batch analysis: how the calls run *)
Section batch_runs.
Import BatchImpactAnalysisUseCase BatchVocabulary.
Context (graph_repo : IGraphRepository).

(** A loop whose body neither raises nor looks at more than the state
    and its locals is a pair of folds. *)
Lemma for_each_M_run {A S} (xs : list A) (acc : S) (body : S → A → M S)
    (f : BatchResult → A → BatchResult) (g : S → A → S) (result : BatchResult) :
  (∀ acc x result, body acc x result = (f result x, Ok (g acc x))) →
  for_each xs acc body result = (fold_left f xs result, Ok (fold_left g xs acc)).
Proof.
  intros Hbody. revert acc result.
  induction xs as [|x xs IH]; intros acc result; simpl; [reflexivity|].
  unfold mbind, M_bind. rewrite Hbody. apply IH.
Qed.

Lemma fold_left_snoc {A B} (h : A → B) (xs : list A) (acc : list B) :
  fold_left (λ acc x, acc ++ [h x]) xs acc = acc ++ (h <$> xs).
Proof.
  revert acc. induction xs as [|x xs IH]; intros acc; simpl.
  - rewrite app_nil_r. reflexivity.
  - rewrite IH, <- app_assoc. reflexivity.
Qed.

Lemma parse_iso_id_fields (iso_id : string) :
  ISO.parse_iso_id iso_id = Ok (iso_fields iso_id).
Proof.
  rewrite parse_iso_id_segments. unfold iso_fields.
  destruct (split "." iso_id) as [|a [|b rest]]; reflexivity.
Qed.

(** [_get_iso_children] asks for the spools, records them, asks for the
    parts, records them, and returns the node; a query that raises ends
    it there, with what was recorded so far left in the lists. *)
Lemma get_iso_children_run (iso_id : string) (include_spools include_parts : bool)
    (result : BatchResult) :
  _get_iso_children graph_repo iso_id include_spools include_parts result =
  match spools_wanted graph_repo include_spools iso_id with
  | Raise e => (result, Raise e)
  | Ok spools =>
      let result := fold_left record_spool spools result in
      match parts_wanted graph_repo include_parts iso_id with
      | Raise e => (result, Raise e)
      | Ok parts => (fold_left record_part parts result, Ok (iso_node iso_id spools parts))
      end
  end.
Proof.
  unfold _get_iso_children, spools_wanted, parts_wanted.
  rewrite parse_iso_id_fields.
  unfold mbind at 1, M_bind at 1, lift at 1.
  assert (∀ (type : string) (field : BatchResult → list EntitySummary)
            (append : EntitySummary → BatchResult → BatchResult)
            (record : BatchResult → gmap string string → BatchResult)
            (bags : list (gmap string string)) (children : list HierarchyNode)
            (result : BatchResult),
    (∀ result bag, record result bag =
       if any_id (bag !! "id") (field result) then result
       else append (bag_summary type bag) result) →
    for_each bags children (λ children bag,
         result ← get;
         _ ← (if negb (any_id (bag !! "id") (field result)) then
                modify (append (mkSummary (get_default bag "id" "unknown") type
                                          (BagProps bag)))
              else mret tt);
         mret (children ++ [mkNode (get_default bag "id" "unknown") type []
                                   (BagProps bag) 1])) result
    = (fold_left record bags result, Ok (children ++ (bag_leaf type <$> bags))))
    as Hloop.
  { intros type field append record bags children result0 Hrecord.
    rewrite <- (fold_left_snoc (bag_leaf type)).
    apply for_each_M_run. intros acc bag st.
    unfold mbind, M_bind, get. rewrite Hrecord.
    destruct (any_id (bag !! "id") (field st)); reflexivity. }
  destruct include_spools, include_parts;
    unfold mbind, M_bind, lift, mret, M_ret;
    repeat match goal with
           | |- context [get_affected_spools_by_iso graph_repo iso_id] =>
               destruct (get_affected_spools_by_iso graph_repo iso_id) as [spools|e];
               [|reflexivity]
           | |- context [get_affected_parts_by_iso graph_repo iso_id] =>
               destruct (get_affected_parts_by_iso graph_repo iso_id) as [parts|e]
           end;
    rewrite ?(Hloop "SPOOL" affected_spools append_affected_spools record_spool)
      by reflexivity;
    rewrite ?(Hloop "Part" affected_parts append_affected_parts record_part)
      by reflexivity;
    try reflexivity;
    unfold iso_node; rewrite ?fmap_nil, ?app_nil_r; reflexivity.
Qed.

(** What a loop yields when each round either keeps an invariant of the
    state and of the locals, or raises, the choice being a function of
    the element alone. *)
Lemma for_each_M_spec {A S} (I : BatchResult → Prop) (Q : S → Prop) (ok : A → bool)
    (xs : list A) (acc : S) (body : S → A → M S) (result : BatchResult) :
  I result → Q acc →
  (∀ result acc x, I result → Q acc →
     I (body acc x result).1 ∧
     if ok x then ∃ acc', (body acc x result).2 = Ok acc' ∧ Q acc'
     else ∃ e, (body acc x result).2 = Raise e) →
  I (for_each xs acc body result).1 ∧
  if forallb ok xs then ∃ acc', (for_each xs acc body result).2 = Ok acc' ∧ Q acc'
  else ∃ e, (for_each xs acc body result).2 = Raise e.
Proof.
  intros HI HQ Hbody. revert acc result HI HQ.
  induction xs as [|x xs IH]; intros acc result HI HQ; simpl.
  - split; [exact HI|]. exists acc. split; [reflexivity|exact HQ].
  - unfold mbind, M_bind.
    destruct (Hbody result acc x HI HQ) as [HI' Hx].
    destruct (body acc x result) as [result' [acc'|e]] eqn:Hrun; simpl in *.
    + destruct (ok x); [|destruct Hx as [e He]; discriminate].
      destruct Hx as (acc'' & [= <-] & HQ'). simpl. apply IH; assumption.
    + destruct (ok x); [destruct Hx as (? & He & _); discriminate|].
      simpl. split; [exact HI'|]. exists e. reflexivity.
Qed.

Lemma record_spools_hierarchy (spools : list (gmap string string)) (result : BatchResult) :
  impact_hierarchy (fold_left record_spool spools result) = impact_hierarchy result.
Proof.
  revert result. induction spools as [|spool spools IH]; intros result; simpl;
    [reflexivity|].
  rewrite IH. unfold record_spool.
  destruct (any_id _ _); reflexivity.
Qed.

Lemma record_parts_hierarchy (parts : list (gmap string string)) (result : BatchResult) :
  impact_hierarchy (fold_left record_part parts result) = impact_hierarchy result.
Proof.
  revert result. induction parts as [|part parts IH]; intros result; simpl;
    [reflexivity|].
  rewrite IH. unfold record_part.
  destruct (any_id _ _); reflexivity.
Qed.

Lemma iso_node_shape (iso_id : string) (spools parts : list (gmap string string)) :
  iso_shape (iso_node iso_id spools parts) ∧
  entity_id (iso_node iso_id spools parts) = iso_id.
Proof.
  split; [|reflexivity]. split; [reflexivity|]. split; [|reflexivity].
  simpl. apply Forall_app. split; apply Forall_fmap, Forall_true; intros bag;
    (split; [|split; reflexivity]); [left|right]; reflexivity.
Qed.

(** The expansion of an ISO leaves the hierarchy alone; it returns the
    node of the ISO when the store answers, and raises when it does not. *)
Lemma get_iso_children_spec (iso_id : string) (include_spools include_parts : bool)
    (result : BatchResult) :
  impact_hierarchy
    (_get_iso_children graph_repo iso_id include_spools include_parts result).1
    = impact_hierarchy result ∧
  if iso_expands graph_repo include_spools include_parts iso_id then
    ∃ n, (_get_iso_children graph_repo iso_id include_spools include_parts result).2
           = Ok n ∧ iso_shape n ∧ entity_id n = iso_id
  else
    ∃ e, (_get_iso_children graph_repo iso_id include_spools include_parts result).2
           = Raise e.
Proof.
  rewrite get_iso_children_run. unfold iso_expands.
  destruct (spools_wanted graph_repo include_spools iso_id) as [spools|e]; simpl.
  - destruct (parts_wanted graph_repo include_parts iso_id) as [parts|e]; simpl.
    + rewrite record_parts_hierarchy, record_spools_hierarchy.
      split; [reflexivity|]. eexists. split; [reflexivity|]. apply iso_node_shape.
    + rewrite record_spools_hierarchy. split; [reflexivity|]. eexists; reflexivity.
  - split; [reflexivity|]. eexists; reflexivity.
Qed.

Lemma fold_left_sum {A} (f : A → Z) (xs : list A) (a : Z) :
  fold_left (λ count x, count + f x) xs a = a + foldr Z.add 0 (f <$> xs).
Proof.
  revert a. induction xs as [|x xs IH]; intros a; [simpl; lia|].
  cbn [fold_left]. rewrite IH, fmap_cons. cbn [foldr]. lia.
Qed.

Lemma count_leaf (n : HierarchyNode) :
  leaf_shape n → _count_hierarchy_impacts n = 1.
Proof. destruct n as [i t cs p c]. intros (_ & Hcs & _). simpl in *. subst cs. reflexivity. Qed.

(** The recursive count of an ISO node is one more than its stored
    [impact_count], which leaves the ISO itself out. *)
Lemma count_iso (n : HierarchyNode) :
  iso_shape n → _count_hierarchy_impacts n = 1 + impact_count n.
Proof.
  destruct n as [i t cs p c]. intros (_ & Hleaves & Hcount). simpl in *. subst c.
  rewrite fold_left_sum. f_equal.
  induction Hleaves as [|leaf cs Hleaf _ IH]; [reflexivity|].
  rewrite fmap_cons. cbn [foldr]. rewrite IH, (count_leaf _ Hleaf), length_cons. lia.
Qed.

Lemma count_line (line_id type : string) (cs : list HierarchyNode) (p : properties) (c : Z) :
  Forall iso_shape cs →
  _count_hierarchy_impacts (mkNode line_id type cs p c)
    = 1 + foldr Z.add 0 ((λ child, 1 + impact_count child) <$> cs).
Proof.
  intros Hisos. simpl. rewrite fold_left_sum. f_equal.
  induction Hisos as [|iso cs Hiso _ IH]; [reflexivity|].
  rewrite !fmap_cons. cbn [foldr]. rewrite IH, (count_iso _ Hiso). reflexivity.
Qed.

(** Running a bind, step by step. *)
Lemma run_bind {A B} (m : M A) (k : A → M B) (result : BatchResult) :
  (m ≫= k) result =
  match m result with
  | (result', Ok a) => k a result'
  | (result', Raise e) => (result', Raise e)
  end.
Proof. reflexivity. Qed.

Lemma run_lift {A} (o : outcome A) (result : BatchResult) : lift o result = (result, o).
Proof. reflexivity. Qed.

Lemma run_modify (f : BatchResult → BatchResult) (result : BatchResult) :
  modify f result = (f result, Ok tt).
Proof. reflexivity. Qed.

Lemma run_get (result : BatchResult) : get result = (result, Ok result).
Proof. reflexivity. Qed.

Lemma run_ret {A} (a : A) (result : BatchResult) :
  @mret M _ A a result = (result, Ok a).
Proof. reflexivity. Qed.

(** One round of the loop of [_process_line] over the ISOs of the line. *)
Lemma process_line_round (include_spools include_parts : bool)
    (h : list HierarchyNode) (result : BatchResult)
    (children : list HierarchyNode) (iso : ISO.t) :
  let round :=
    (@mbind M _ _ _ (λ result,
     _ ← (if negb (any_id (Some (ISO.id iso)) (affected_isos result)) then
            modify (append_affected_isos
                      (mkSummary (ISO.id iso) "ISO" (IsoProps iso)))
          else mret tt);
     iso_children ← _get_iso_children graph_repo (ISO.id iso)
                       include_spools include_parts;
     mret (children ++ [iso_children])) get) result in
  impact_hierarchy result = h → Forall iso_shape children →
  impact_hierarchy round.1 = h ∧
  if iso_expands graph_repo include_spools include_parts (ISO.id iso) then
    ∃ children', round.2 = Ok children' ∧ Forall iso_shape children'
  else ∃ e, round.2 = Raise e.
Proof.
  intros round Hh Hchildren. subst round.
  rewrite run_bind, run_get, run_bind.
  set (result1 := if negb (any_id (Some (ISO.id iso)) (affected_isos result))
                  then append_affected_isos
                         (mkSummary (ISO.id iso) "ISO" (IsoProps iso)) result
                  else result).
  assert (impact_hierarchy result1 = h) as Hh1.
  { subst result1. destruct (negb _); [simpl|]; exact Hh. }
  replace ((if negb (any_id (Some (ISO.id iso)) (affected_isos result))
            then modify (append_affected_isos
                           (mkSummary (ISO.id iso) "ISO" (IsoProps iso)))
            else @mret M _ _ tt) result) with (result1, Ok tt)
    by (subst result1; destruct (negb _); reflexivity).
  rewrite run_bind.
  destruct (get_iso_children_spec (ISO.id iso) include_spools include_parts result1)
    as [Hsame Hnode].
  destruct (_get_iso_children _ _ _ _ _) as [result2 [n|e]]; simpl in Hsame, Hnode.
  - rewrite run_ret. simpl. split; [congruence|].
    destruct (iso_expands _ _ _ _); [|destruct Hnode as [e He]; discriminate].
    destruct Hnode as (n' & [= <-] & Hshape & _).
    eexists. split; [reflexivity|].
    apply Forall_app. split; [exact Hchildren|]. constructor; [exact Hshape|constructor].
  - simpl. split; [congruence|].
    destruct (iso_expands _ _ _ _); [destruct Hnode as (? & He & _); discriminate|].
    eexists; reflexivity.
Qed.

(** A line is never fatal to the batch.  When the line is found and its
    expansion is answered its node joins the hierarchy; otherwise the
    hierarchy is as before. *)
Lemma process_line_spec (line_id : string) (include_spools include_parts : bool)
    (result : BatchResult) :
  ∃ result',
    _process_line graph_repo line_id include_spools include_parts result
      = (result', Ok tt) ∧
    if line_expands graph_repo include_spools include_parts line_id then
      ∃ n, impact_hierarchy result' = impact_hierarchy result ++ [n] ∧
           entity_id n = line_id ∧ line_shape n
    else impact_hierarchy result' = impact_hierarchy result.
Proof.
  unfold _process_line, line_expands, try_except_M.
  rewrite run_bind, run_lift.
  destruct (get_line_by_id graph_repo line_id) as [[line|]|e];
    [|eexists; split; reflexivity..].
  rewrite run_bind, run_modify, run_bind, run_lift.
  destruct (get_affected_isos_by_line graph_repo line_id) as [isos|e];
    [|eexists; split; reflexivity].
  rewrite run_bind.
  match goal with
  | |- context [for_each isos [] ?body ?st] =>
      destruct (for_each_M_spec
        (λ st', impact_hierarchy st' = impact_hierarchy result)
        (Forall iso_shape)
        (λ iso, iso_expands graph_repo include_spools include_parts (ISO.id iso))
        isos [] body st eq_refl (Forall_nil_2 _)) as [Hh Hok];
      [|destruct (for_each isos [] body st) as [result' [children|e]]]
  end.
  { intros st acc iso Hst Hacc.
    apply (process_line_round include_spools include_parts
             (impact_hierarchy result) st acc iso Hst Hacc). }
  - simpl in Hh, Hok.
    destruct (forallb _ isos); [|destruct Hok as [e He]; discriminate].
    destruct Hok as (children' & [= <-] & Hchildren).
    rewrite run_modify. eexists. split; [reflexivity|].
    eexists. split; [|split].
    + simpl. rewrite Hh. reflexivity.
    + reflexivity.
    + split; [reflexivity|]. split; [exact Hchildren|].
      exact (count_line line_id "Line" children (LineProps line) 0 Hchildren).
  - simpl in Hh, Hok.
    destruct (forallb _ isos); [destruct Hok as (? & He & _); discriminate|].
    eexists. split; [reflexivity|]. exact Hh.
Qed.

(** The same for a requested ISO. *)
Lemma process_iso_spec (iso_id : string) (include_spools include_parts : bool)
    (result : BatchResult) :
  ∃ result',
    _process_iso graph_repo iso_id include_spools include_parts result
      = (result', Ok tt) ∧
    if iso_expands graph_repo include_spools include_parts iso_id then
      ∃ n, impact_hierarchy result' = impact_hierarchy result ++ [n] ∧
           entity_id n = iso_id ∧ iso_shape n
    else impact_hierarchy result' = impact_hierarchy result.
Proof.
  unfold _process_iso, try_except_M.
  rewrite run_bind, run_get, run_bind.
  set (result1 := if negb (any_id (Some iso_id) (affected_isos result))
                  then append_affected_isos
                         (mkSummary iso_id "ISO" (IsoProps (iso_fields iso_id))) result
                  else result).
  assert (impact_hierarchy result1 = impact_hierarchy result) as Hh1.
  { subst result1. destruct (negb _); reflexivity. }
  match goal with
  | |- context [(if negb ?b then ?m else ?m') result] =>
      replace ((if negb b then m else m') result) with (result1, Ok tt)
  end.
  2:{ subst result1. destruct (negb _); [|reflexivity].
      rewrite run_bind, run_lift, parse_iso_id_fields. reflexivity. }
  rewrite run_bind.
  destruct (get_iso_children_spec iso_id include_spools include_parts result1)
    as [Hsame Hnode].
  destruct (_get_iso_children _ _ _ _ _) as [result2 [n|e]]; simpl in Hsame, Hnode.
  - rewrite run_modify. eexists. split; [reflexivity|].
    destruct (iso_expands _ _ _ _); [|destruct Hnode as [e He]; discriminate].
    destruct Hnode as (n' & [= <-] & Hshape & Hid).
    exists n. split; [|split; assumption]. simpl. congruence.
  - eexists. split; [reflexivity|].
    destruct (iso_expands _ _ _ _); [destruct Hnode as (? & He & _); discriminate|].
    congruence.
Qed.

(** A loop over requested roots, each round of which returns and adds
    at most its own node. *)
Lemma roots_loop_spec (ok : string → bool) (shape : HierarchyNode → Prop)
    (step : string → M unit) (roots : list string) (result : BatchResult) :
  (∀ root result, ∃ result',
      step root result = (result', Ok tt) ∧
      if ok root then
        ∃ n, impact_hierarchy result' = impact_hierarchy result ++ [n] ∧
             entity_id n = root ∧ shape n
      else impact_hierarchy result' = impact_hierarchy result) →
  ∃ result' added,
    for_each roots tt (λ _ root, step root) result = (result', Ok tt) ∧
    impact_hierarchy result' = impact_hierarchy result ++ added ∧
    entity_id <$> added = List.filter ok roots ∧
    Forall shape added.
Proof.
  intros Hstep. revert result.
  induction roots as [|root roots IH]; intros result.
  - exists result, []. simpl. rewrite app_nil_r. repeat split; constructor.
  - cbn [for_each]. rewrite run_bind.
    destruct (Hstep root result) as (result1 & -> & Hroot).
    destruct (IH result1) as (result2 & added & -> & Hh & Hids & Hshapes).
    cbn [List.filter]. destruct (ok root).
    + destruct Hroot as (n & Hh1 & Hid & Hn).
      exists result2, (n :: added). split; [reflexivity|].
      rewrite Hh, Hh1, <- app_assoc. split; [reflexivity|].
      rewrite fmap_cons, Hid, Hids. split; [reflexivity|].
      constructor; assumption.
    + exists result2, added. split; [reflexivity|].
      rewrite Hh, Hroot. repeat split; assumption.
Qed.

(** The whole batch.  It returns; the roots of its hierarchy are, in
    request order, the lines that were found and expanded and then the
    ISOs that were expanded; line roots have the line shape, ISO roots the
    ISO shape; and the metrics are the lengths of the three flat lists. *)
Lemma execute_spec (line_numbers iso_numbers : list string)
    (include_spools include_parts : bool) :
  ∃ r line_nodes iso_nodes,
    execute graph_repo line_numbers iso_numbers include_spools include_parts = Ok r ∧
    impact_hierarchy r = line_nodes ++ iso_nodes ∧
    entity_id <$> line_nodes
      = List.filter (line_expands graph_repo include_spools include_parts) line_numbers ∧
    entity_id <$> iso_nodes
      = List.filter (iso_expands graph_repo include_spools include_parts) iso_numbers ∧
    Forall line_shape line_nodes ∧ Forall iso_shape iso_nodes ∧
    metrics r =
      mkMetrics (Z.of_nat (length (affected_isos r)))
                (Z.of_nat (length (affected_spools r)))
                (Z.of_nat (length (affected_parts r)))
                (Z.of_nat (length (affected_isos r))
                 + Z.of_nat (length (affected_spools r))
                 + Z.of_nat (length (affected_parts r))).
Proof.
  unfold execute, execute_body.
  destruct (roots_loop_spec
              (line_expands graph_repo include_spools include_parts) line_shape
              (λ line_id, _process_line graph_repo line_id include_spools include_parts)
              line_numbers initial_result)
    as (result1 & line_nodes & Hrun1 & Hh1 & Hids1 & Hshape1).
  { intros root result. apply process_line_spec. }
  destruct (roots_loop_spec
              (iso_expands graph_repo include_spools include_parts) iso_shape
              (λ iso_id, _process_iso graph_repo iso_id include_spools include_parts)
              iso_numbers result1)
    as (result2 & iso_nodes & Hrun2 & Hh2 & Hids2 & Hshape2).
  { intros root result. apply process_iso_spec. }
  rewrite run_bind, Hrun1, run_bind, Hrun2, run_bind, run_get, run_bind, run_modify,
          run_get.
  eexists _, line_nodes, iso_nodes. split; [reflexivity|].
  cbn [snd]. split; [|repeat split; assumption].
  simpl. rewrite Hh2, Hh1. reflexivity.
Qed.

End batch_runs.

(* ================================================================= *)
(** ** Batch analysis: the hierarchy and the counts *)
Section batch_hierarchy.
Import BatchImpactAnalysisUseCase BatchVocabulary.

Lemma Forall_flat_map {A B} (P : B → Prop) (Q : A → Prop) (f : A → list B) (xs : list A) :
  (∀ x, Q x → Forall P (f x)) → Forall Q xs → Forall P (flat_map f xs).
Proof.
  intros Hf. induction 1 as [|x xs Hx _ IH]; simpl; [constructor|].
  apply Forall_app. split; [apply Hf, Hx|exact IH].
Qed.

Lemma nodes_unfold (n : HierarchyNode) : nodes n = n :: flat_map nodes (children n).
Proof. destruct n; reflexivity. Qed.

Lemma leaf_nodes (n : HierarchyNode) : leaf_shape n → Forall spool_is_leaf (nodes n).
Proof.
  intros (Htype & Hcs & Hcount). rewrite nodes_unfold, Hcs. simpl.
  constructor; [|constructor]. intros _. split; assumption.
Qed.

Lemma iso_nodes (n : HierarchyNode) : iso_shape n → Forall spool_is_leaf (nodes n).
Proof.
  intros (Htype & Hleaves & _). rewrite nodes_unfold. constructor.
  - intros Hspool. rewrite Htype in Hspool. discriminate.
  - eapply Forall_flat_map; [apply leaf_nodes|exact Hleaves].
Qed.

Lemma line_nodes (n : HierarchyNode) : line_shape n → Forall spool_is_leaf (nodes n).
Proof.
  intros (Htype & Hisos & _). rewrite nodes_unfold. constructor.
  - intros Hspool. rewrite Htype in Hspool. discriminate.
  - eapply Forall_flat_map; [apply iso_nodes|exact Hisos].
Qed.

(** What the stored counts are, in terms of the children's counts: an
    ISO node leaves itself out, a line node counts itself and counts
    each ISO below it once more than the ISO counts itself. *)
Lemma iso_shape_impact (n : HierarchyNode) :
  iso_shape n → impact_count n = children_impact n.
Proof.
  intros (_ & Hleaves & ->). unfold children_impact.
  induction Hleaves as [|leaf cs (_ & _ & Hone) _ IH]; [reflexivity|].
  rewrite fmap_cons. cbn [foldr]. rewrite <- IH, Hone, length_cons. lia.
Qed.

Lemma line_shape_impact (n : HierarchyNode) :
  line_shape n →
  impact_count n = 1 + Z.of_nat (length (children n)) + children_impact n.
Proof.
  intros (_ & _ & ->). unfold children_impact.
  induction (children n) as [|c cs IH]; [reflexivity|].
  rewrite !fmap_cons. cbn [foldr]. rewrite length_cons. lia.
Qed.

End batch_hierarchy.

(** C10.  Whatever the flags, the batch returns, and every SPOOL node
    of its hierarchy, at any level, is a leaf with [impact_count] 1. *)
Theorem batch_spools_are_leaves (graph_repo : IGraphRepository)
    (line_numbers iso_numbers : list string) (include_spools include_parts : bool) :
  ∃ r, BatchImpactAnalysisUseCase.execute graph_repo line_numbers iso_numbers
         include_spools include_parts = Ok r ∧
       Forall BatchVocabulary.spool_is_leaf
         (BatchVocabulary.hierarchy_nodes (BatchImpactAnalysisUseCase.impact_hierarchy r)).
Proof.
  destruct (execute_spec graph_repo line_numbers iso_numbers include_spools include_parts)
    as (r & lines & isos & Hrun & Hh & _ & _ & Hlines & Hisos & _).
  exists r. split; [exact Hrun|].
  unfold BatchVocabulary.hierarchy_nodes. rewrite Hh, flat_map_app.
  apply Forall_app. split.
  - eapply Forall_flat_map; [apply line_nodes|exact Hlines].
  - eapply Forall_flat_map; [apply iso_nodes|exact Hisos].
Qed.

Lemma batch_spools_are_leaves_witness :
  ∃ r, BatchImpactAnalysisUseCase.execute Stores.plant ["L1"] ["A.1"] true true = Ok r ∧
       Forall BatchVocabulary.spool_is_leaf
         (BatchVocabulary.hierarchy_nodes (BatchImpactAnalysisUseCase.impact_hierarchy r)).
Proof. apply (batch_spools_are_leaves Stores.plant ["L1"] ["A.1"] true true). Defined.

(** C5, as the code has it.  No exception escapes the batch, and a root
    whose expansion meets a store failure is skipped: the roots of the
    hierarchy are, in request order, the lines that were found and whose
    expansion the store answered, then the ISOs whose expansion the store
    answered. *)
Theorem batch_skips_failed_roots (graph_repo : IGraphRepository)
    (line_numbers iso_numbers : list string) (include_spools include_parts : bool) :
  ∃ r, BatchImpactAnalysisUseCase.execute graph_repo line_numbers iso_numbers
         include_spools include_parts = Ok r ∧
       BatchImpactAnalysisUseCase.entity_id <$> BatchImpactAnalysisUseCase.impact_hierarchy r
       = List.filter (BatchVocabulary.line_expands graph_repo include_spools include_parts)
                     line_numbers
         ++ List.filter (BatchVocabulary.iso_expands graph_repo include_spools include_parts)
                        iso_numbers.
Proof.
  destruct (execute_spec graph_repo line_numbers iso_numbers include_spools include_parts)
    as (r & lines & isos & Hrun & Hh & Hlines & Hisos & _).
  exists r. split; [exact Hrun|].
  rewrite Hh, fmap_app, Hlines, Hisos. reflexivity.
Qed.

Lemma batch_skips_failed_roots_witness :
  ∃ r, BatchImpactAnalysisUseCase.execute Stores.plant ["L1"; "L3"] ["A.1"; "B.1"]
         true true = Ok r ∧
       BatchImpactAnalysisUseCase.entity_id <$> BatchImpactAnalysisUseCase.impact_hierarchy r
       = ["L1"; "A.1"].
Proof.
  apply (batch_skips_failed_roots Stores.plant ["L1"; "L3"] ["A.1"; "B.1"] true true).
Defined.

(** In a batch of four roots the spool query fails below the line L3
    and for the ISO B.1: the call returns, but neither root is in the
    hierarchy, with empty children or otherwise, although L3 and B.1 are
    in the flat lists. *)
Lemma batch_failed_roots_absent :
  ∃ r, BatchImpactAnalysisUseCase.execute Stores.plant ["L1"; "L3"] ["A.1"; "B.1"]
         true true = Ok r ∧
       BatchImpactAnalysisUseCase.entity_id <$> BatchImpactAnalysisUseCase.impact_hierarchy r
       = ["L1"; "A.1"] ∧
       BatchImpactAnalysisUseCase.entity_id
         <$> BatchVocabulary.hierarchy_nodes (BatchImpactAnalysisUseCase.impact_hierarchy r)
       = ["L1"; "A.1"; "SP1"; "SP2"; "P1"; "A.2"; "A.1"; "SP1"; "SP2"; "P1"] ∧
       ("L3" ∉ (BatchImpactAnalysisUseCase.entity_id
                  <$> BatchVocabulary.hierarchy_nodes
                        (BatchImpactAnalysisUseCase.impact_hierarchy r))) ∧
       ("B.1" ∉ (BatchImpactAnalysisUseCase.entity_id
                   <$> BatchVocabulary.hierarchy_nodes
                         (BatchImpactAnalysisUseCase.impact_hierarchy r))) ∧
       BatchImpactAnalysisUseCase.id <$> BatchImpactAnalysisUseCase.affected_lines r
       = ["L1"; "L3"] ∧
       BatchImpactAnalysisUseCase.id <$> BatchImpactAnalysisUseCase.affected_isos r
       = ["A.1"; "A.2"; "B.1"].
Proof.
  eexists. split; [vm_compute; reflexivity|].
  split; [vm_compute; reflexivity|]. split; [vm_compute; reflexivity|].
  split; [|split]; [| |split; vm_compute; reflexivity];
    apply (bool_decide_eq_false_1 _); vm_compute; reflexivity.
Qed.

(** C1 at a line with two ISOs, one of them fabricated as two spools with
    one loose part.  The ISO node stores 3, the sum of its children's
    counts, and not 1 + 3; the line node stores 6, which is
    [_count_hierarchy_impacts] and not 1 + (3 + 0) over the stored counts
    of its children.  The total is the sum of the three list lengths. *)
Theorem batch_impact_count_at_line :
  ∃ r line iso rest,
    BatchImpactAnalysisUseCase.execute Stores.plant ["L1"] [] true true = Ok r ∧
    BatchImpactAnalysisUseCase.impact_hierarchy r = [line] ∧
    BatchImpactAnalysisUseCase.children line = iso :: rest ∧
    BatchImpactAnalysisUseCase.impact_count iso = 3 ∧
    BatchVocabulary.children_impact iso = 3 ∧
    BatchImpactAnalysisUseCase._count_hierarchy_impacts iso = 4 ∧
    BatchImpactAnalysisUseCase.impact_count line = 6 ∧
    BatchVocabulary.children_impact line = 3 ∧
    BatchImpactAnalysisUseCase.impact_count iso ≠ 1 + BatchVocabulary.children_impact iso ∧
    BatchImpactAnalysisUseCase.impact_count line ≠ 1 + BatchVocabulary.children_impact line ∧
    BatchImpactAnalysisUseCase.total_impact_count (BatchImpactAnalysisUseCase.metrics r)
    = Z.of_nat (length (BatchImpactAnalysisUseCase.affected_isos r))
      + Z.of_nat (length (BatchImpactAnalysisUseCase.affected_spools r))
      + Z.of_nat (length (BatchImpactAnalysisUseCase.affected_parts r)).
Proof.
  eexists _, _, _, _. split; [vm_compute; reflexivity|].
  split; [reflexivity|]. split; [reflexivity|].
  repeat split; vm_compute; first [reflexivity | discriminate].
Qed.

(** In every batch the total is the sum of the lengths of the three
    flat lists, and the stored counts are: 1 on a leaf; the number of
    children on an ISO node; on a line node, one for the line and, for
    each ISO below it, one more than the ISO stores. *)
Lemma batch_impact_counts (graph_repo : IGraphRepository)
    (line_numbers iso_numbers : list string) (include_spools include_parts : bool) :
  ∃ r, BatchImpactAnalysisUseCase.execute graph_repo line_numbers iso_numbers
         include_spools include_parts = Ok r ∧
       Forall BatchVocabulary.root_shape (BatchImpactAnalysisUseCase.impact_hierarchy r) ∧
       BatchImpactAnalysisUseCase.total_impact_count (BatchImpactAnalysisUseCase.metrics r)
       = Z.of_nat (length (BatchImpactAnalysisUseCase.affected_isos r))
         + Z.of_nat (length (BatchImpactAnalysisUseCase.affected_spools r))
         + Z.of_nat (length (BatchImpactAnalysisUseCase.affected_parts r)).
Proof.
  destruct (execute_spec graph_repo line_numbers iso_numbers include_spools include_parts)
    as (r & lines & isos & Hrun & Hh & _ & _ & Hlines & Hisos & Hmetrics).
  exists r. split; [exact Hrun|]. split.
  - rewrite Hh. apply Forall_app. split.
    + eapply Forall_impl; [exact Hlines|]. intros n Hn. left. exact Hn.
    + eapply Forall_impl; [exact Hisos|]. intros n Hn. right. exact Hn.
  - rewrite Hmetrics. reflexivity.
Qed.

(** C7 at an ISO whose two spools were stored without an id: the
    membership test compares the entries with the missing id, finds
    none, and both spools are recorded under the id "unknown". *)
Theorem batch_unknown_spools_recorded_twice :
  ∃ r, BatchImpactAnalysisUseCase.execute Stores.plant [] ["C.1"] true true = Ok r ∧
       BatchImpactAnalysisUseCase.id <$> BatchImpactAnalysisUseCase.affected_spools r
       = ["unknown"; "unknown"] ∧
       ¬ NoDup (BatchImpactAnalysisUseCase.id
                  <$> BatchImpactAnalysisUseCase.affected_spools r) ∧
       BatchImpactAnalysisUseCase.total_impact_count (BatchImpactAnalysisUseCase.metrics r)
       = 3.
Proof.
  eexists. split; [vm_compute; reflexivity|].
  split; [vm_compute; reflexivity|]. split; [|vm_compute; reflexivity].
  intros Hnodup. apply NoDup_cons_1_1 in Hnodup. apply Hnodup. left.
Qed.

(** Scenario B: an ISO requested as a root and reached from two of the
    requested lines is recorded once, and counted once in the total. *)
Example batch_shared_iso_recorded_once :
  ∃ r, BatchImpactAnalysisUseCase.execute Stores.plant ["L1"; "L2"] ["A.2"] true true
       = Ok r ∧
       BatchImpactAnalysisUseCase.id <$> BatchImpactAnalysisUseCase.affected_isos r
       = ["A.1"; "A.2"] ∧
       BatchImpactAnalysisUseCase.entity_id <$> BatchImpactAnalysisUseCase.impact_hierarchy r
       = ["L1"; "L2"; "A.2"] ∧
       BatchImpactAnalysisUseCase.total_impact_count (BatchImpactAnalysisUseCase.metrics r)
       = 5.
Proof.
  eexists. split; [vm_compute; reflexivity|]. repeat split; vm_compute; reflexivity.
Qed.

(* ================================================================= *)
(** ** Single-entity analysis: the root that is not in the store *)
Section single_entity.
Import GraphTraversalStrategy.
Context (graph_repo : IGraphRepository).

(** A line the store does not have fails the analysis; no result is
    produced. *)
Lemma analyze_line_not_found (change_event : ChangeEvent.t) :
  lower (ChangeEvent.entity_type change_event) = "line" →
  is_empty (ChangeEvent.entity_id change_event) = false →
  get_line_by_id graph_repo (ChangeEvent.entity_id change_event) = Ok None →
  analyze graph_repo change_event = Raise EntityNotFoundError.
Proof.
  intros Htype Hid Hline. unfold analyze. rewrite Hid.
  destruct (ChangeEvent.entity_type change_event) as [|c t]; [discriminate Htype|].
  simpl is_empty. simpl orb. cbv iota. rewrite Htype. simpl String.eqb. cbv iota.
  unfold _analyze_line_impact. rewrite Hline. reflexivity.
Qed.

(** An ISO is never looked up: when the store answers the two queries
    the analysis returns, with the ISO parsed from the id as the one
    affected ISO, so that the count is at least 1. *)
Lemma analyze_iso_returns (change_event : ChangeEvent.t)
    (spools parts : list (gmap string string)) :
  lower (ChangeEvent.entity_type change_event) = "iso" →
  is_empty (ChangeEvent.entity_id change_event) = false →
  get_affected_spools_by_iso graph_repo (ChangeEvent.entity_id change_event) = Ok spools →
  get_affected_parts_by_iso graph_repo (ChangeEvent.entity_id change_event) = Ok parts →
  ∃ r, analyze graph_repo change_event = Ok r ∧
       ImpactResult.affected_isos r
         = [BatchVocabulary.iso_fields (ChangeEvent.entity_id change_event)] ∧
       ImpactResult.impact_count r
         = 1 + Z.of_nat (length spools) + Z.of_nat (length parts).
Proof.
  intros Htype Hid Hspools Hparts. unfold analyze. rewrite Hid.
  destruct (ChangeEvent.entity_type change_event) as [|c t]; [discriminate Htype|].
  simpl is_empty. simpl orb. cbv iota. rewrite Htype. simpl String.eqb. cbv iota.
  unfold _analyze_iso_impact. rewrite Hspools, Hparts, parse_iso_id_fields.
  eexists. split; [reflexivity|]. split; [reflexivity|].
  unfold ImpactResult.update_impact_count, ImpactResult.calculate_impact_count.
  simpl. lia.
Qed.

(** Any other type goes through the generic traversal; when that finds
    nothing the result is empty, with severity LOW. *)
Lemma analyze_other_empty (change_event : ChangeEvent.t) :
  String.eqb (lower (ChangeEvent.entity_type change_event)) "line" = false →
  String.eqb (lower (ChangeEvent.entity_type change_event)) "iso" = false →
  is_empty (ChangeEvent.entity_type change_event) = false →
  is_empty (ChangeEvent.entity_id change_event) = false →
  traverse_impact_graph graph_repo (ChangeEvent.entity_type change_event)
    (ChangeEvent.entity_id change_event) 5 = Ok ∅ →
  analyze graph_repo change_event
  = Ok (ImpactResult.mk (ChangeEvent.event_id change_event) [] [] [] 0 (Some LOW)
                        "graph_traversal").
Proof.
  intros Hline Hiso Htype Hid Htraverse. unfold analyze.
  rewrite Hid, Htype, Hline, Hiso. simpl orb. cbv iota.
  unfold _analyze_generic_impact. rewrite Htraverse. reflexivity.
Qed.

End single_entity.

(** C4 at an ISO that is not in the store.  The store has no node at
    all; the analysis of the ISO X.SHT1 returns a result, with the ISO
    itself as affected and severity MEDIUM, where the analysis of a line
    of that name fails with EntityNotFoundError and that of any other
    type returns the empty result. *)
Theorem analyze_missing_iso_returns :
  GraphTraversalStrategy.analyze Stores.empty_store
    (ChangeEvent.mk None "ISO" "X.SHT1" "sheet revised")
  = Ok (ImpactResult.mk None [ISO.mk "X.SHT1" (Some "X") (Some "SHT1")] [] [] 1
                        (Some MEDIUM) "graph_traversal") ∧
  GraphTraversalStrategy.analyze Stores.empty_store
    (ChangeEvent.mk None "Line" "X.SHT1" "line rerouted")
  = Raise EntityNotFoundError ∧
  GraphTraversalStrategy.analyze Stores.empty_store
    (ChangeEvent.mk None "spool" "X.SHT1" "spool cut")
  = Ok (ImpactResult.mk None [] [] [] 0 (Some LOW) "graph_traversal").
Proof. repeat split; vm_compute; reflexivity. Qed.

(** Through the use case, a type outside the supported list is turned
    down before the strategy runs. *)
Example use_case_rejects_unsupported_type :
  AnalyzeLineImpactUseCase.execute Stores.empty_store
    (ChangeEvent.mk None "valve" "V-1" "valve replaced")
  = Raise InvalidChangeEventError.
Proof. vm_compute. reflexivity. Qed.

(* ================================================================= *)
(** ** Batch analysis: what every step keeps *)
Section batch_preservation.
Import BatchImpactAnalysisUseCase BatchVocabulary.
Context (graph_repo : IGraphRepository) (include_spools include_parts : bool).

(** A property of the [result] dictionary that the appends of the batch
    keep: any append to the lines, to the hierarchy and of the metrics;
    the append of an ISO that the membership test did not find; and,
    under the flag that asks for them, the recording of the spools and
    parts the store returns. *)
Context (I : BatchResult → Prop).
Hypothesis keeps_lines : ∀ e result, I result → I (append_affected_lines e result).
Hypothesis keeps_hierarchy : ∀ n result, I result → I (append_impact_hierarchy n result).
Hypothesis keeps_metrics : ∀ m result, I result → I (set_metrics m result).
Hypothesis keeps_iso : ∀ iso_id props result,
  I result → any_id (Some iso_id) (affected_isos result) = false →
  I (append_affected_isos (mkSummary iso_id "ISO" props) result).
Hypothesis keeps_spools : include_spools = true → ∀ iso_id spools,
  get_affected_spools_by_iso graph_repo iso_id = Ok spools →
  Forall (λ spool, ∀ result, I result → I (record_spool result spool)) spools.
Hypothesis keeps_parts : include_parts = true → ∀ iso_id parts,
  get_affected_parts_by_iso graph_repo iso_id = Ok parts →
  Forall (λ part, ∀ result, I result → I (record_part result part)) parts.

#[local] Abbreviation preserves := (BatchVocabulary.preserves I).

Lemma preserves_bind_at {A B} (m : M A) (k : A → M B) (result : BatchResult) :
  I (m result).1 → (∀ a, preserves (k a)) → I ((m ≫= k) result).1.
Proof.
  intros Hm Hk. rewrite run_bind.
  destruct (m result) as [result' [a|e]]; simpl in *; [apply Hk, Hm|exact Hm].
Qed.

Lemma preserves_bind {A B} (m : M A) (k : A → M B) :
  preserves m → (∀ a, preserves (k a)) → preserves (m ≫= k).
Proof. intros Hm Hk result HI. apply preserves_bind_at; [apply Hm, HI|exact Hk]. Qed.

Lemma preserves_ret {A} (a : A) : preserves (@mret M _ A a).
Proof. intros result HI. exact HI. Qed.

Lemma preserves_lift {A} (o : outcome A) : preserves (lift o).
Proof. intros result HI. exact HI. Qed.

Lemma preserves_try {A} (body : M A) (handler : exn → M A) :
  preserves body → (∀ e, preserves (handler e)) → preserves (try_except_M body handler).
Proof.
  intros Hbody Hhandler result HI. unfold try_except_M.
  specialize (Hbody result HI).
  destruct (body result) as [result' [a|e]]; simpl in *; [exact Hbody|].
  apply Hhandler, Hbody.
Qed.

Lemma preserves_for_each {A S} (xs : list A) (acc : S) (body : S → A → M S) :
  (∀ acc x, preserves (body acc x)) → preserves (for_each xs acc body).
Proof.
  intros Hbody. revert acc.
  induction xs as [|x xs IH]; intros acc; simpl; [apply preserves_ret|].
  apply preserves_bind; [apply Hbody|exact IH].
Qed.

Lemma preserves_record {A} (record : BatchResult → A → BatchResult) (xs : list A)
    (result : BatchResult) :
  Forall (λ x, ∀ result, I result → I (record result x)) xs →
  I result → I (fold_left record xs result).
Proof.
  intros Hxs. revert result.
  induction Hxs as [|x xs Hx _ IH]; intros result HI; simpl; [exact HI|].
  apply IH, Hx, HI.
Qed.

Lemma preserves_get_iso_children (iso_id : string) :
  preserves (_get_iso_children graph_repo iso_id include_spools include_parts).
Proof.
  intros result HI. rewrite get_iso_children_run.
  assert (∀ spools, spools_wanted graph_repo include_spools iso_id = Ok spools →
            Forall (λ spool, ∀ result, I result → I (record_spool result spool)) spools)
    as Hspools.
  { unfold spools_wanted. destruct include_spools eqn:Hflag;
      [apply keeps_spools; reflexivity|].
    intros spools [= <-]. constructor. }
  assert (∀ parts, parts_wanted graph_repo include_parts iso_id = Ok parts →
            Forall (λ part, ∀ result, I result → I (record_part result part)) parts)
    as Hparts.
  { unfold parts_wanted. destruct include_parts eqn:Hflag;
      [apply keeps_parts; reflexivity|].
    intros parts [= <-]. constructor. }
  destruct (spools_wanted graph_repo include_spools iso_id) as [spools|e];
    [|exact HI].
  specialize (Hspools spools eq_refl). cbv zeta.
  destruct (parts_wanted graph_repo include_parts iso_id) as [parts|e]; simpl.
  - apply preserves_record; [apply Hparts; reflexivity|].
    apply preserves_record; assumption.
  - apply preserves_record; assumption.
Qed.

(** The guarded append of an ISO. *)
Lemma preserves_iso_append (iso_id : string) (props : properties) (m : M unit)
    (result : BatchResult) :
  m = modify (append_affected_isos (mkSummary iso_id "ISO" props)) →
  I result →
  I ((if negb (any_id (Some iso_id) (affected_isos result)) then m
      else @mret M _ _ tt) result).1.
Proof.
  intros -> HI.
  destruct (any_id (Some iso_id) (affected_isos result)) eqn:Hany; simpl;
    [exact HI|].
  apply keeps_iso; assumption.
Qed.

Lemma preserves_process_line (line_id : string) :
  preserves (_process_line graph_repo line_id include_spools include_parts).
Proof.
  unfold _process_line.
  apply preserves_try; [|intros e; apply preserves_ret].
  apply preserves_bind; [apply preserves_lift|]. intros [line|]; [|apply preserves_ret].
  apply preserves_bind; [intros result HI; apply keeps_lines, HI|]. intros _.
  apply preserves_bind; [apply preserves_lift|]. intros isos.
  apply preserves_bind; [|intros children result HI; apply keeps_hierarchy, HI].
  apply preserves_for_each. intros children iso result HI.
  rewrite run_bind, run_get.
  apply preserves_bind_at; [apply (preserves_iso_append _ _ _ _ eq_refl HI)|].
  intros _. apply preserves_bind; [apply preserves_get_iso_children|].
  intros node. apply preserves_ret.
Qed.

Lemma preserves_process_iso (iso_id : string) :
  preserves (_process_iso graph_repo iso_id include_spools include_parts).
Proof.
  unfold _process_iso.
  apply preserves_try; [|intros e; apply preserves_ret].
  intros result HI. rewrite run_bind, run_get.
  apply preserves_bind_at.
  - destruct (any_id (Some iso_id) (affected_isos result)) eqn:Hany; simpl;
      [exact HI|].
    rewrite run_bind, run_lift, parse_iso_id_fields. simpl.
    apply keeps_iso; assumption.
  - intros _. apply preserves_bind; [apply preserves_get_iso_children|].
    intros node result' HI'. apply keeps_hierarchy, HI'.
Qed.

(** What the appends keep holds of the dictionary the batch returns. *)
Lemma execute_preserves (line_numbers iso_numbers : list string) :
  I initial_result →
  ∃ r, execute graph_repo line_numbers iso_numbers include_spools include_parts = Ok r ∧
       I r.
Proof.
  intros Hinit. unfold execute, execute_body.
  pose proof (preserves_for_each line_numbers tt
                (λ _ line_id, _process_line graph_repo line_id include_spools include_parts)
                (λ _ line_id, preserves_process_line line_id)
                initial_result Hinit) as H1.
  destruct (roots_loop_spec
              (line_expands graph_repo include_spools include_parts) line_shape
              (λ line_id, _process_line graph_repo line_id include_spools include_parts)
              line_numbers initial_result)
    as (result1 & ? & Hrun1 & _).
  { intros root result. apply process_line_spec. }
  rewrite Hrun1 in H1. simpl in H1.
  pose proof (preserves_for_each iso_numbers tt
                (λ _ iso_id, _process_iso graph_repo iso_id include_spools include_parts)
                (λ _ iso_id, preserves_process_iso iso_id)
                result1 H1) as H2.
  destruct (roots_loop_spec
              (iso_expands graph_repo include_spools include_parts) iso_shape
              (λ iso_id, _process_iso graph_repo iso_id include_spools include_parts)
              iso_numbers result1)
    as (result2 & ? & Hrun2 & _).
  { intros root result. apply process_iso_spec. }
  rewrite Hrun2 in H2. simpl in H2.
  rewrite run_bind, Hrun1, run_bind, Hrun2, run_bind, run_get, run_bind, run_modify,
          run_get.
  eexists. split; [reflexivity|]. apply keeps_metrics, H2.
Qed.

End batch_preservation.

(* ================================================================= *)
(** ** Batch analysis: the flat lists as sets *)
Section batch_sets.
Import BatchImpactAnalysisUseCase BatchVocabulary.

Lemma any_id_elem (i : string) (entries : list EntitySummary) :
  any_id (Some i) entries = true ↔ i ∈ id <$> entries.
Proof.
  unfold any_id. rewrite existsb_exists, list_elem_of_fmap.
  split.
  - intros (x & Hx%list_elem_of_In & Heq%bool_decide_eq_true). exists x.
    split; [congruence|exact Hx].
  - intros (x & -> & Hx). exists x. split; [apply list_elem_of_In, Hx|].
    apply bool_decide_eq_true. reflexivity.
Qed.

Lemma distinct_ids_snoc (e : EntitySummary) (entries : list EntitySummary) :
  distinct_ids entries → any_id (Some (id e)) entries = false →
  distinct_ids (entries ++ [e]).
Proof.
  unfold distinct_ids. intros Hnodup Hfresh. rewrite fmap_app.
  apply NoDup_app. split; [exact Hnodup|]. split.
  - intros i Hi [->|[]%elem_of_nil]%elem_of_cons.
    apply any_id_elem in Hi. congruence.
  - apply NoDup_singleton.
Qed.

(** Recording a bag whose id is already in the list leaves the
    dictionary as it is: the first occurrence stays, with its
    properties. *)
Lemma record_spool_present (result : BatchResult) (spool : gmap string string) :
  any_id (spool !! "id") (affected_spools result) = true →
  record_spool result spool = result.
Proof. unfold record_spool. intros ->. reflexivity. Qed.

(** Recording a bag that has an id is idempotent. *)
Lemma record_spool_twice (result : BatchResult) (spool : gmap string string) :
  has_id spool →
  record_spool (record_spool result spool) spool = record_spool result spool.
Proof.
  intros [i Hi]. unfold record_spool at 2 3.
  destruct (any_id _ (affected_spools result)) eqn:Hany.
  - apply record_spool_present, Hany.
  - apply record_spool_present. rewrite Hi. apply any_id_elem.
    simpl. rewrite fmap_app. apply elem_of_app. right.
    unfold bag_summary, get_default. rewrite Hi. simpl. left.
Qed.

Lemma record_spool_distinct (result : BatchResult) (spool : gmap string string) :
  has_id spool →
  distinct_ids (affected_spools result) →
  distinct_ids (affected_spools (record_spool result spool)).
Proof.
  intros [i Hi] Hnodup. unfold record_spool. rewrite Hi.
  destruct (any_id (Some i) (affected_spools result)) eqn:Hany; [exact Hnodup|].
  simpl. apply distinct_ids_snoc; [exact Hnodup|].
  unfold bag_summary, get_default. rewrite Hi. exact Hany.
Qed.

Lemma record_part_distinct (result : BatchResult) (part : gmap string string) :
  has_id part →
  distinct_ids (affected_parts result) →
  distinct_ids (affected_parts (record_part result part)).
Proof.
  intros [i Hi] Hnodup. unfold record_part. rewrite Hi.
  destruct (any_id (Some i) (affected_parts result)) eqn:Hany; [exact Hnodup|].
  simpl. apply distinct_ids_snoc; [exact Hnodup|].
  unfold bag_summary, get_default. rewrite Hi. exact Hany.
Qed.

(** The ISO list never holds an id twice, whatever the store returns. *)
Lemma batch_isos_distinct (graph_repo : IGraphRepository)
    (line_numbers iso_numbers : list string) (include_spools include_parts : bool) :
  ∃ r, execute graph_repo line_numbers iso_numbers include_spools include_parts = Ok r ∧
       distinct_ids (affected_isos r).
Proof.
  apply (execute_preserves graph_repo include_spools include_parts
           (λ r, distinct_ids (affected_isos r)));
    try (intros; assumption).
  - intros iso_id props result Hnodup Hfresh. simpl.
    apply distinct_ids_snoc; assumption.
  - intros _ iso_id spools _. apply Forall_true. intros spool result Hnodup.
    unfold record_spool. destruct (any_id _ _); exact Hnodup.
  - intros _ iso_id parts _. apply Forall_true. intros part result Hnodup.
    unfold record_part. destruct (any_id _ _); exact Hnodup.
  - apply NoDup_nil_2.
Qed.

(** When every spool and part the store returns carries an id, the
    three flat lists are sets: no id occurs twice in any of them. *)
Lemma batch_sets_distinct (graph_repo : IGraphRepository)
    (line_numbers iso_numbers : list string) (include_spools include_parts : bool) :
  (∀ iso_id spools, get_affected_spools_by_iso graph_repo iso_id = Ok spools →
                    Forall has_id spools) →
  (∀ iso_id parts, get_affected_parts_by_iso graph_repo iso_id = Ok parts →
                   Forall has_id parts) →
  ∃ r, execute graph_repo line_numbers iso_numbers include_spools include_parts = Ok r ∧
       distinct_ids (affected_isos r) ∧
       distinct_ids (affected_spools r) ∧
       distinct_ids (affected_parts r).
Proof.
  intros Hspools Hparts.
  apply (execute_preserves graph_repo include_spools include_parts
           (λ r, distinct_ids (affected_isos r) ∧ distinct_ids (affected_spools r) ∧
                 distinct_ids (affected_parts r)));
    try (intros; assumption).
  - intros iso_id props result (Hi & Hs & Hp) Hfresh. simpl.
    split; [apply distinct_ids_snoc; assumption|]. split; assumption.
  - intros _ iso_id spools Hq. eapply Forall_impl; [apply (Hspools _ _ Hq)|].
    intros spool Hid result (Hi & Hs & Hp).
    split; [|split; [apply record_spool_distinct; assumption|]];
      unfold record_spool; destruct (any_id _ _); assumption.
  - intros _ iso_id parts Hq. eapply Forall_impl; [apply (Hparts _ _ Hq)|].
    intros part Hid result (Hi & Hs & Hp).
    split; [|split; [|apply record_part_distinct; assumption]];
      unfold record_part; destruct (any_id _ _); assumption.
  - repeat split; apply NoDup_nil_2.
Qed.

End batch_sets.

(* ================================================================= *)
(** * Further properties *)

(* ================================================================= *)
(** ** The two classifiers together *)

(** Both classifiers are monotone on the counts from 0 on: a larger
    count never gives a lower band. *)
Theorem assess_severity_monotone (m n : Z) (Hmn : 0 ≤ m ≤ n) :
  severity_rank (GraphTraversalStrategy._assess_severity m)
    ≤ severity_rank (GraphTraversalStrategy._assess_severity n) ∧
  band_rank (BatchImpactAnalysisUseCase._assess_severity m)
    ≤ band_rank (BatchImpactAnalysisUseCase._assess_severity n).
Proof.
  unfold GraphTraversalStrategy._assess_severity,
         BatchImpactAnalysisUseCase._assess_severity.
  split;
    repeat match goal with
           | |- context [?a =? ?b] => destruct (Z.eqb_spec a b)
           | |- context [?a <=? ?b] => destruct (Z.leb_spec a b)
           end; simpl; try lia; vm_compute; intros Hgt; discriminate Hgt.
Qed.

Lemma assess_severity_monotone_witness :
  0 ≤ 4 ≤ 12 ∧
  severity_rank (GraphTraversalStrategy._assess_severity 4)
    ≤ severity_rank (GraphTraversalStrategy._assess_severity 12) ∧
  band_rank (BatchImpactAnalysisUseCase._assess_severity 4)
    ≤ band_rank (BatchImpactAnalysisUseCase._assess_severity 12).
Proof. split; [lia|]. apply (assess_severity_monotone 4 12). lia. Defined.

(** For the same count the batch band is never above the single-entity
    band, and the two name the same band exactly on the counts up to 5,
    from 11 to 15, and above 30. *)
Theorem batch_band_below_single_band (n : Z) :
  band_rank (BatchImpactAnalysisUseCase._assess_severity n)
    ≤ severity_rank (GraphTraversalStrategy._assess_severity n) ∧
  (BatchImpactAnalysisUseCase._assess_severity n
     = severity_value (GraphTraversalStrategy._assess_severity n)
   ↔ n ≤ 5 ∨ 11 ≤ n ≤ 15 ∨ 30 < n).
Proof.
  unfold GraphTraversalStrategy._assess_severity,
         BatchImpactAnalysisUseCase._assess_severity.
  repeat match goal with
         | |- context [?a =? ?b] => destruct (Z.eqb_spec a b)
         | |- context [?a <=? ?b] => destruct (Z.leb_spec a b)
         end; simpl severity_value; simpl severity_rank;
    (split; [first [lia | vm_compute; intros Hgt; discriminate Hgt]|]);
    (split; [intros Heq; first [discriminate Heq | lia] | intros Hn; first [reflexivity | lia]]).
Qed.

(* ================================================================= *)
(** ** The decision of the batch endpoint *)

(** As the endpoint calls them, severity first and approval on that
    severity, approval is required exactly when the total exceeds 10:
    the test on 15 never decides. *)
Theorem decide_requires_approval (result : BatchImpactAnalysisUseCase.BatchResult) :
  CamundaEndpoint.requiresApproval (CamundaEndpoint.decide result) = true
  ↔ 10 < BatchImpactAnalysisUseCase.total_impact_count
           (BatchImpactAnalysisUseCase.metrics result).
Proof.
  unfold CamundaEndpoint.decide. simpl CamundaEndpoint.requiresApproval.
  set (n := BatchImpactAnalysisUseCase.total_impact_count _).
  unfold BatchImpactAnalysisUseCase._requires_approval,
         BatchImpactAnalysisUseCase._assess_severity.
  rewrite orb_true_iff, bool_decide_eq_true, Z.ltb_lt, !elem_of_cons, elem_of_nil.
  repeat match goal with
         | |- context [?a =? ?b] => destruct (Z.eqb_spec a b)
         | |- context [?a <=? ?b] => destruct (Z.leb_spec a b)
         end;
    (split; [intros [[Hs|[Hs|[]]]|Hn]; first [discriminate Hs | lia]
            | intros Hn; first [lia | left; left; reflexivity
                               | left; right; left; reflexivity]]).
Qed.


(* ================================================================= *)
(** ** What the parse of an ISO id always gives *)

Lemma split_segments_clean (sep : ascii) (s : string) :
  Forall (λ seg, occurs sep seg = false) (split sep s).
Proof.
  induction s as [|c rest IH]; simpl; [repeat constructor|].
  destruct (Ascii.eqb c sep) eqn:Hc; [constructor; [reflexivity|exact IH]|].
  destruct (split sep rest) as [|seg segs]; [repeat constructor; simpl; rewrite Hc; reflexivity|].
  inversion IH as [|? ? Hseg Hsegs]; subst.
  constructor; [simpl; rewrite Hc; exact Hseg|exact Hsegs].
Qed.

Lemma split_single (sep : ascii) (s : string) :
  (∃ seg, split sep s = [seg]) ↔ occurs sep s = false.
Proof.
  split; [|intros H; eexists; apply split_absent, H].
  induction s as [|c rest IH]; simpl; [reflexivity|].
  destruct (Ascii.eqb c sep) eqn:Hc.
  - intros [seg Hseg]. injection Hseg as _ Hnil. destruct (split_nonempty _ _ Hnil).
  - destruct (split sep rest) as [|seg segs] eqn:Hsplit.
    + destruct (split_nonempty _ _ Hsplit).
    + intros [seg' Hseg']. injection Hseg' as _ ->. apply IH. eexists; reflexivity.
Qed.

(** Whatever the id, the parse keeps it as [id], gives a drawing number,
    gives a sheet number exactly when the id contains a '.', and neither
    of the two contains a '.'. *)
Theorem parse_iso_id_fields_clean (iso_id : string) :
  ∃ r number,
    ISO.parse_iso_id iso_id = Ok r ∧ ISO.id r = iso_id ∧
    ISO.iso_number r = Some number ∧ occurs "." number = false ∧
    (ISO.sheet_number r = None ↔ occurs "." iso_id = false) ∧
    (∀ sheet, ISO.sheet_number r = Some sheet → occurs "." sheet = false) ∧
    (occurs "." iso_id = false → number = iso_id).
Proof.
  rewrite parse_iso_id_segments.
  pose proof (split_segments_clean "." iso_id) as Hclean.
  pose proof (split_single "." iso_id) as Hsingle.
  destruct (split "." iso_id) as [|a [|b rest]] eqn:Hsplit.
  - destruct (split_nonempty _ _ Hsplit).
  - inversion Hclean as [|? ? Ha _]; subst.
    assert (occurs "." iso_id = false) as Hno by (apply Hsingle; eexists; reflexivity).
    rewrite (split_absent _ _ Hno) in Hsplit. injection Hsplit as <-.
    exists (ISO.mk iso_id (Some iso_id) None), iso_id. simpl.
    split; [reflexivity|]. split; [reflexivity|]. split; [reflexivity|].
    split; [exact Hno|]. split; [split; intros _; [exact Hno|reflexivity]|].
    split; [discriminate|reflexivity].
  - inversion Hclean as [|? ? Ha Hrest]; subst.
    inversion Hrest as [|? ? Hb _]; subst.
    assert (occurs "." iso_id ≠ false) as Hdot.
    { intros Hno. apply Hsingle in Hno as [seg Hseg]. discriminate. }
    exists (ISO.mk iso_id (Some a) (Some b)), a. simpl.
    split; [reflexivity|]. split; [reflexivity|]. split; [reflexivity|].
    split; [exact Ha|]. split; [split; [discriminate|intros Hno; contradiction]|].
    split; [intros sheet [= <-]; exact Hb|intros Hno; contradiction].
Qed.

(* ================================================================= *)
(** ** Single-entity analysis: what a result always satisfies *)
Section single_entity_results.
Import GraphTraversalStrategy.
Context (graph_repo : IGraphRepository).

Lemma analyze_line_header (line_id : string) (result r : ImpactResult.t) :
  _analyze_line_impact graph_repo line_id result = Ok r → same_header result r.
Proof.
  unfold _analyze_line_impact, mbind, outcome_bind.
  destruct (get_line_by_id graph_repo line_id) as [[line|]|e]; try discriminate.
  destruct (get_affected_isos_by_line graph_repo line_id) as [isos|e]; [|discriminate].
  apply (for_each_invariant (same_header result)); [split; reflexivity|].
  intros acc iso acc' Hacc. unfold mbind, outcome_bind.
  destruct (get_affected_spools_by_iso _ _); [|discriminate].
  destruct (get_affected_parts_by_iso _ _); [|discriminate].
  intros [= <-]. exact Hacc.
Qed.

Lemma analyze_iso_header (iso_id : string) (result r : ImpactResult.t) :
  _analyze_iso_impact graph_repo iso_id result = Ok r → same_header result r.
Proof.
  unfold _analyze_iso_impact, mbind, outcome_bind.
  destruct (get_affected_spools_by_iso _ _); [|discriminate].
  destruct (get_affected_parts_by_iso _ _); [|discriminate].
  destruct (ISO.parse_iso_id iso_id); [|discriminate].
  intros [= <-]. split; reflexivity.
Qed.

Lemma analyze_generic_header (entity_type entity_id : string) (result r : ImpactResult.t) :
  _analyze_generic_impact graph_repo entity_type entity_id result = Ok r →
  same_header result r.
Proof.
  unfold _analyze_generic_impact, mbind, outcome_bind.
  destruct (traverse_impact_graph _ _ _ _) as [groups|e]; [|discriminate].
  destruct (groups !! "ISO") as [isos|];
    [destruct (for_each isos [] _) as [parsed|e]; [|discriminate]|];
    destruct (groups !! "SPOOL"), (groups !! "Part");
    intros [= <-]; split; reflexivity.
Qed.

End single_entity_results.

(** Every result the analysis returns is consistent: its count is the
    sum of the lengths of its three lists, its severity is the band of
    that count, it carries the event id and the method name, and it is
    LOW exactly when the three lists are empty. *)
Theorem analyze_result_consistent (graph_repo : IGraphRepository)
    (change_event : ChangeEvent.t) (r : ImpactResult.t)
    (Hrun : GraphTraversalStrategy.analyze graph_repo change_event = Ok r) :
  ImpactResult.impact_count r
    = Z.of_nat (length (ImpactResult.affected_isos r))
      + Z.of_nat (length (ImpactResult.affected_spools r))
      + Z.of_nat (length (ImpactResult.affected_parts r)) ∧
  ImpactResult.severity r
    = Some (GraphTraversalStrategy._assess_severity (ImpactResult.impact_count r)) ∧
  ImpactResult.event_id r = ChangeEvent.event_id change_event ∧
  ImpactResult.analysis_method r = "graph_traversal" ∧
  (ImpactResult.severity r = Some LOW
   ↔ ImpactResult.affected_isos r = [] ∧ ImpactResult.affected_spools r = [] ∧
     ImpactResult.affected_parts r = []).
Proof.
  revert Hrun. unfold GraphTraversalStrategy.analyze.
  destruct (is_empty _ || is_empty _); [discriminate|].
  set (result0 := ImpactResult.mk _ _ _ _ _ _ _).
  unfold mbind at 1, outcome_bind at 1.
  match goal with
  | |- match ?inner with _ => _ end = _ → _ =>
      destruct inner as [result1|e] eqn:Hinner; [|discriminate]
  end.
  assert (same_header result0 result1) as [Hevent Hmethod].
  { destruct (String.eqb _ "line");
      [eapply analyze_line_header; exact Hinner|].
    destruct (String.eqb _ "iso");
      [eapply analyze_iso_header; exact Hinner
      |eapply analyze_generic_header; exact Hinner]. }
  intros [= <-]. simpl.
  unfold ImpactResult.calculate_impact_count.
  split; [reflexivity|]. split; [reflexivity|].
  split; [symmetry; exact Hevent|]. split; [symmetry; exact Hmethod|].
  assert (∀ n, GraphTraversalStrategy._assess_severity n = LOW ↔ n = 0) as Hlow.
  { intros n. unfold GraphTraversalStrategy._assess_severity.
    repeat match goal with
           | |- context [?a =? ?b] => destruct (Z.eqb_spec a b)
           | |- context [?a <=? ?b] => destruct (Z.leb_spec a b)
           end; split; intros Hn; first [reflexivity | assumption | discriminate Hn | lia]. }
  split.
  - intros [= Hband]. apply Hlow in Hband.
    destruct (ImpactResult.affected_isos result1),
             (ImpactResult.affected_spools result1),
             (ImpactResult.affected_parts result1); simpl length in Hband;
      first [lia | auto].
  - intros (-> & -> & ->). reflexivity.
Qed.

Lemma analyze_result_consistent_witness :
  ∃ r, GraphTraversalStrategy.analyze Stores.plant
         (ChangeEvent.mk (Some "CHG-1") "Line" "L1" "line rerouted") = Ok r ∧
       ImpactResult.impact_count r = 5 ∧
       ImpactResult.severity r = Some MEDIUM ∧
       ImpactResult.event_id r = Some "CHG-1".
Proof.
  eexists. split; [vm_compute; reflexivity|].
  match goal with
  | |- ImpactResult.impact_count ?r = _ ∧ _ =>
      destruct (analyze_result_consistent Stores.plant
                  (ChangeEvent.mk (Some "CHG-1") "Line" "L1" "line rerouted") r
                  ltac:(vm_compute; reflexivity))
        as (Hcount & Hseverity & Hevent & _)
  end.
  split; [rewrite Hcount; reflexivity|].
  split; [rewrite Hseverity; reflexivity|exact Hevent].
Defined.

(* ================================================================= *)
(** ** Single-entity analysis: the lists of a line *)
Section single_entity_line.
Import GraphTraversalStrategy.
Context (graph_repo : IGraphRepository).

Lemma outcome_bind_ok {A B} (a : A) (k : A → outcome B) : Ok a ≫= k = k a.
Proof. reflexivity. Qed.

Lemma outcome_bind_ret {A B} (a : A) (k : A → outcome B) : mret a ≫= k = k a.
Proof. reflexivity. Qed.

(** The loop of [_analyze_line_impact] appends, ISO after ISO, what the
    store returns. *)
Lemma analyze_line_loop (spools_of parts_of : string → list (gmap string string))
    (isos : list ISO.t) (result : ImpactResult.t) :
  (∀ iso, iso ∈ isos →
     get_affected_spools_by_iso graph_repo (ISO.id iso) = Ok (spools_of (ISO.id iso))) →
  (∀ iso, iso ∈ isos →
     get_affected_parts_by_iso graph_repo (ISO.id iso) = Ok (parts_of (ISO.id iso))) →
  for_each isos result (λ result iso,
    spools ← get_affected_spools_by_iso graph_repo (ISO.id iso);
    parts ← get_affected_parts_by_iso graph_repo (ISO.id iso);
    let result :=
      ImpactResult.set_affected_spools (ImpactResult.affected_spools result ++ spools)
                                       result in
    mret (ImpactResult.set_affected_parts (ImpactResult.affected_parts result ++ parts)
                                          result))
  = Ok (ImpactResult.set_affected_parts
          (ImpactResult.affected_parts result
           ++ flat_map (λ iso, parts_of (ISO.id iso)) isos)
          (ImpactResult.set_affected_spools
             (ImpactResult.affected_spools result
              ++ flat_map (λ iso, spools_of (ISO.id iso)) isos)
             result)).
Proof.
  revert result. induction isos as [|iso isos IH]; intros result Hspools Hparts.
  - simpl. rewrite !app_nil_r. destruct result; reflexivity.
  - cbn [for_each]. rewrite (Hspools iso), (Hparts iso) by left.
    rewrite !outcome_bind_ok. cbv zeta. rewrite ?outcome_bind_ok, ?outcome_bind_ret.
    rewrite IH.
    + simpl. rewrite <- !app_assoc. reflexivity.
    + intros iso' Hin. apply Hspools. right. exact Hin.
    + intros iso' Hin. apply Hparts. right. exact Hin.
Qed.

End single_entity_line.

(** The analysis of a line that is found lists the ISOs of the line and,
    ISO after ISO in that order, every spool and every part the store
    returns for it: nothing is dropped, a spool under two ISOs is listed
    twice, and the count is the sum of the three lengths. *)
Theorem analyze_line_lists (graph_repo : IGraphRepository)
    (change_event : ChangeEvent.t) (line : Line.t) (isos : list ISO.t)
    (spools_of parts_of : string → list (gmap string string))
    (Htype : lower (ChangeEvent.entity_type change_event) = "line")
    (Hid : is_empty (ChangeEvent.entity_id change_event) = false)
    (Hline : get_line_by_id graph_repo (ChangeEvent.entity_id change_event)
             = Ok (Some line))
    (Hisos : get_affected_isos_by_line graph_repo (ChangeEvent.entity_id change_event)
             = Ok isos)
    (Hspools : ∀ iso, iso ∈ isos →
       get_affected_spools_by_iso graph_repo (ISO.id iso) = Ok (spools_of (ISO.id iso)))
    (Hparts : ∀ iso, iso ∈ isos →
       get_affected_parts_by_iso graph_repo (ISO.id iso) = Ok (parts_of (ISO.id iso))) :
  ∃ r, GraphTraversalStrategy.analyze graph_repo change_event = Ok r ∧
       ImpactResult.affected_isos r = isos ∧
       ImpactResult.affected_spools r = flat_map (λ iso, spools_of (ISO.id iso)) isos ∧
       ImpactResult.affected_parts r = flat_map (λ iso, parts_of (ISO.id iso)) isos ∧
       ImpactResult.impact_count r
         = Z.of_nat (length isos)
           + Z.of_nat (length (flat_map (λ iso, spools_of (ISO.id iso)) isos))
           + Z.of_nat (length (flat_map (λ iso, parts_of (ISO.id iso)) isos)).
Proof.
  unfold GraphTraversalStrategy.analyze. rewrite Hid.
  destruct (ChangeEvent.entity_type change_event) as [|c t]; [discriminate Htype|].
  simpl is_empty. simpl orb. cbv iota. rewrite Htype. simpl String.eqb. cbv iota.
  unfold GraphTraversalStrategy._analyze_line_impact. rewrite Hline, Hisos.
  rewrite !outcome_bind_ok.
  rewrite (analyze_line_loop graph_repo spools_of parts_of isos _ Hspools Hparts).
  eexists. split; [reflexivity|]. simpl. repeat split; reflexivity.
Qed.

Lemma analyze_line_lists_witness :
  ∃ r, GraphTraversalStrategy.analyze Stores.yard
         (ChangeEvent.mk None "LINE" "L1" "line rerouted") = Ok r ∧
       ImpactResult.affected_isos r
         = [Stores.iso "A.1" "A" "1"; Stores.iso "A.2" "A" "2"] ∧
       length (ImpactResult.affected_spools r) = 2%nat ∧
       length (ImpactResult.affected_parts r) = 1%nat ∧
       ImpactResult.impact_count r = 5.
Proof.
  destruct (analyze_line_lists Stores.yard
              (ChangeEvent.mk None "LINE" "L1" "line rerouted") (Stores.line "L1")
              [Stores.iso "A.1" "A" "1"; Stores.iso "A.2" "A" "2"]
              (λ i, match get_affected_spools_by_iso Stores.yard i with
                    | Ok l => l | Raise _ => [] end)
              (λ i, match get_affected_parts_by_iso Stores.yard i with
                    | Ok l => l | Raise _ => [] end))
    as (r & Hrun & Hisos & Hspools & Hparts & Hcount);
    try reflexivity;
    try (intros iso Hin;
         repeat (apply elem_of_cons in Hin as [->|Hin]; [reflexivity|]);
         apply elem_of_nil in Hin; destruct Hin).
  exists r. split; [exact Hrun|]. split; [exact Hisos|].
  rewrite Hspools, Hparts, Hcount. repeat split; reflexivity.
Defined.

(* ================================================================= *)
(** ** Single-entity analysis: how it fails *)

(** A loop that raises, raises from one of its rounds. *)
Lemma for_each_raises {A S} (xs : list A) (acc : S) (body : S → A → outcome S) (e : exn) :
  for_each xs acc body = Raise e → ∃ acc' x, x ∈ xs ∧ body acc' x = Raise e.
Proof.
  revert acc. induction xs as [|x xs IH]; intros acc; simpl; [discriminate|].
  unfold mbind, outcome_bind.
  destruct (body acc x) as [acc'|e'] eqn:Hx.
  - intros Hrest. destruct (IH _ Hrest) as (acc'' & x' & Hin & Hraise).
    exists acc'', x'. split; [right; exact Hin|exact Hraise].
  - intros [= <-]. exists acc, x. split; [left|exact Hx].
Qed.

(** What the analysis can raise over a store that raises database
    errors only, and when. *)
Lemma analyze_raises (graph_repo : IGraphRepository)
    (change_event : ChangeEvent.t) (e : exn)
    (Hstore : raises_only_database_errors graph_repo)
    (Hrun : GraphTraversalStrategy.analyze graph_repo change_event = Raise e) :
  (e = InvalidChangeEventError ∧
   (is_empty (ChangeEvent.entity_id change_event) = true ∨
    is_empty (ChangeEvent.entity_type change_event) = true)) ∨
  (e = EntityNotFoundError ∧
   lower (ChangeEvent.entity_type change_event) = "line" ∧
   get_line_by_id graph_repo (ChangeEvent.entity_id change_event) = Ok None) ∨
  e = DatabaseConnectionError ∨
  (e = KeyError ∧
   lower (ChangeEvent.entity_type change_event) ≠ "line" ∧
   lower (ChangeEvent.entity_type change_event) ≠ "iso").
Proof.
  destruct Hstore as (Hline & Hisos & Hspools & Hparts & Htraverse).
  revert Hrun. unfold GraphTraversalStrategy.analyze.
  destruct (is_empty (ChangeEvent.entity_id change_event)) eqn:Hid;
    [intros [= <-]; left; split; [reflexivity|left; reflexivity]|].
  destruct (is_empty (ChangeEvent.entity_type change_event)) eqn:Htype;
    [intros [= <-]; left; split; [reflexivity|right; reflexivity]|].
  simpl orb. cbv iota.
  unfold mbind at 1, outcome_bind at 1.
  match goal with
  | |- match ?inner with _ => _ end = _ → _ =>
      destruct inner as [result1|e'] eqn:Hinner; [discriminate|]
  end.
  intros [= <-]. revert Hinner.
  destruct (String.eqb_spec (lower (ChangeEvent.entity_type change_event)) "line")
    as [Hl|Hl].
  { unfold GraphTraversalStrategy._analyze_line_impact, mbind, outcome_bind.
    destruct (get_line_by_id graph_repo _) as [[line|]|e] eqn:Hq.
    - destruct (get_affected_isos_by_line graph_repo _) as [isos|e] eqn:Hq2;
        [|intros [= <-]; right; right; left; eapply Hisos; exact Hq2].
      intros Hloop. apply for_each_raises in Hloop as (acc & iso & _ & Hround).
      revert Hround. unfold mbind, outcome_bind.
      destruct (get_affected_spools_by_iso graph_repo _) as [spools|e] eqn:Hq3;
        [|intros [= <-]; right; right; left; eapply Hspools; exact Hq3].
      destruct (get_affected_parts_by_iso graph_repo _) as [parts|e] eqn:Hq4;
        [discriminate|intros [= <-]; right; right; left; eapply Hparts; exact Hq4].
    - intros [= <-]. right; left. repeat split; assumption.
    - intros [= <-]. right; right; left. eapply Hline; exact Hq. }
  destruct (String.eqb_spec (lower (ChangeEvent.entity_type change_event)) "iso")
    as [Hi|Hi].
  { unfold GraphTraversalStrategy._analyze_iso_impact, mbind, outcome_bind.
    destruct (get_affected_spools_by_iso graph_repo _) as [spools|e] eqn:Hq3;
      [|intros [= <-]; right; right; left; eapply Hspools; exact Hq3].
    destruct (get_affected_parts_by_iso graph_repo _) as [parts|e] eqn:Hq4;
      [|intros [= <-]; right; right; left; eapply Hparts; exact Hq4].
    rewrite parse_iso_id_fields. discriminate. }
  unfold GraphTraversalStrategy._analyze_generic_impact, mbind, outcome_bind.
  destruct (traverse_impact_graph graph_repo _ _ _) as [groups|e] eqn:Hq;
    [|intros [= <-]; right; right; left; eapply Htraverse; exact Hq].
  destruct (groups !! "ISO") as [isos|]; [|discriminate].
  destruct (for_each isos [] _) as [parsed|e] eqn:Hloop; [discriminate|].
  intros [= <-]. apply for_each_raises in Hloop as (acc & iso & _ & Hround).
  revert Hround. unfold mbind, outcome_bind, subscript.
  destruct (iso !! "id") as [iso_id|].
  - rewrite parse_iso_id_fields. discriminate.
  - intros [= <-]. right; right; right. repeat split; assumption.
Qed.



(* ================================================================= *)
(** ** Single-entity analysis: the other entity types *)
Section single_entity_generic.
Import GraphTraversalStrategy.

Lemma subscript_some {V} (d : gmap string V) (k : string) (v : V) :
  d !! k = Some v → subscript d k = Ok v.
Proof. unfold subscript. intros ->. reflexivity. Qed.

Lemma subscript_none {V} (d : gmap string V) (k : string) :
  d !! k = None → subscript d k = Raise KeyError.
Proof. unfold subscript. intros ->. reflexivity. Qed.

(** The comprehension over the ISO nodes of the traversal parses the
    id of each; the first node without id ends it with a key error. *)
Lemma generic_iso_loop (isos : list (gmap string string)) (acc : list ISO.t) :
  for_each isos acc (λ acc iso,
    iso_id ← subscript iso "id";
    parsed ← ISO.parse_iso_id iso_id;
    mret (acc ++ [parsed]))
  = if decide (Forall BatchVocabulary.has_id isos)
    then Ok (acc ++ ((λ iso, BatchVocabulary.iso_fields (shown_id iso)) <$> isos))
    else Raise KeyError.
Proof.
  revert acc. induction isos as [|iso isos IH]; intros acc.
  - simpl. rewrite app_nil_r.
    destruct (decide (Forall BatchVocabulary.has_id [])) as [_|Hno]; [reflexivity|].
    destruct Hno. constructor.
  - cbn [for_each]. unfold shown_id, get_default.
    destruct (iso !! "id") as [iso_id|] eqn:Hid.
    + rewrite (subscript_some _ _ _ Hid).
      rewrite outcome_bind_ok, parse_iso_id_fields, outcome_bind_ok,
              ?outcome_bind_ok, ?outcome_bind_ret, IH.
      destruct (decide (Forall BatchVocabulary.has_id isos)) as [Hall|Hno].
      * rewrite decide_True by (constructor; [eexists; exact Hid|exact Hall]).
        rewrite fmap_cons, <- app_assoc. simpl. rewrite Hid. reflexivity.
      * rewrite decide_False; [reflexivity|].
        intros Hall. apply Hno. inversion Hall; assumption.
    + rewrite (subscript_none _ _ Hid).
      rewrite decide_False; [reflexivity|].
      intros Hall. inversion Hall as [|? ? [i Hi] _]; subst. congruence.
Qed.

End single_entity_generic.

(** The analysis of any type other than line and ISO, once the
    traversal has answered.  When every ISO node it returned has an id,
    the result lists the parse of those ids, and the SPOOL and Part
    nodes as they came; nodes under any other label are left out.  When
    an ISO node has no id, the analysis fails with a key error. *)
Theorem analyze_generic_lists (graph_repo : IGraphRepository)
    (change_event : ChangeEvent.t)
    (groups : gmap string (list (gmap string string)))
    (Hline : lower (ChangeEvent.entity_type change_event) ≠ "line")
    (Hiso : lower (ChangeEvent.entity_type change_event) ≠ "iso")
    (Htype : is_empty (ChangeEvent.entity_type change_event) = false)
    (Hid : is_empty (ChangeEvent.entity_id change_event) = false)
    (Htraverse : traverse_impact_graph graph_repo (ChangeEvent.entity_type change_event)
                   (ChangeEvent.entity_id change_event) 5 = Ok groups) :
  (Forall BatchVocabulary.has_id (default [] (groups !! "ISO")) →
   ∃ r, GraphTraversalStrategy.analyze graph_repo change_event = Ok r ∧
        ImpactResult.affected_isos r
          = (λ iso, BatchVocabulary.iso_fields (shown_id iso))
              <$> default [] (groups !! "ISO") ∧
        ImpactResult.affected_spools r = default [] (groups !! "SPOOL") ∧
        ImpactResult.affected_parts r = default [] (groups !! "Part")) ∧
  (¬ Forall BatchVocabulary.has_id (default [] (groups !! "ISO")) →
   GraphTraversalStrategy.analyze graph_repo change_event = Raise KeyError).
Proof.
  unfold GraphTraversalStrategy.analyze. rewrite Hid, Htype. simpl orb. cbv iota.
  destruct (String.eqb_spec (lower (ChangeEvent.entity_type change_event)) "line");
    [contradiction|].
  destruct (String.eqb_spec (lower (ChangeEvent.entity_type change_event)) "iso");
    [contradiction|].
  unfold GraphTraversalStrategy._analyze_generic_impact. rewrite Htraverse.
  rewrite outcome_bind_ok.
  destruct (groups !! "ISO") as [isos|]; simpl default.
  - rewrite generic_iso_loop. split.
    + intros Hall. rewrite decide_True by exact Hall.
      eexists. split; [reflexivity|].
      destruct (groups !! "SPOOL"), (groups !! "Part"); repeat split; reflexivity.
    + intros Hno. rewrite decide_False by exact Hno. reflexivity.
  - split; [|intros Hno; destruct Hno; constructor].
    intros _. eexists. split; [reflexivity|].
    destruct (groups !! "SPOOL"), (groups !! "Part"); repeat split; reflexivity.
Qed.

Lemma analyze_generic_lists_witness :
  (∃ r, GraphTraversalStrategy.analyze Stores.neo4j
          (ChangeEvent.mk None "Equipment" "E1" "pump replaced") = Ok r ∧
        ImpactResult.affected_isos r
          = [ISO.mk "A.1" (Some "A") (Some "1"); ISO.mk "A.2" (Some "A") (Some "2")] ∧
        length (ImpactResult.affected_spools r) = 1%nat ∧
        ImpactResult.affected_parts r = []) ∧
  GraphTraversalStrategy.analyze Stores.neo4j
    (ChangeEvent.mk None "Equipment" "P1" "pump replaced") = Raise KeyError.
Proof.
  assert (lower "Equipment" ≠ "line") as Hline by (vm_compute; discriminate).
  assert (lower "Equipment" ≠ "iso") as Hiso by (vm_compute; discriminate).
  split.
  - assert (traverse_impact_graph Stores.neo4j "Equipment" "E1" 5
            = Ok {[ "ISO" := [ {[ "id" := "A.1" ]}; {[ "id" := "A.2" ]} ];
                    "SPOOL" := [ {[ "id" := "SP1" ]} ];
                    "Unknown" := [ {[ "id" := "N1" ]} ] ]}) as Htraverse
      by (vm_compute; reflexivity).
    destruct (analyze_generic_lists Stores.neo4j
                (ChangeEvent.mk None "Equipment" "E1" "pump replaced") _
                Hline Hiso eq_refl eq_refl Htraverse) as [Hok _].
    destruct Hok as (r & Hrun & Hisos & Hspools & Hparts).
    { vm_compute. repeat constructor; eexists; reflexivity. }
    exists r. split; [exact Hrun|].
    split; [rewrite Hisos; vm_compute; reflexivity|].
    split; [rewrite Hspools; vm_compute; reflexivity|].
    rewrite Hparts. vm_compute. reflexivity.
  - assert (traverse_impact_graph Stores.neo4j "Equipment" "P1" 5
            = Ok {[ "ISO" := [ {[ "name" := "A.3" ]} ] ]}) as Htraverse
      by (vm_compute; reflexivity).
    destruct (analyze_generic_lists Stores.neo4j
                (ChangeEvent.mk None "Equipment" "P1" "pump replaced") _
                Hline Hiso eq_refl eq_refl Htraverse) as [_ Hraise].
    apply Hraise. vm_compute. intros Hall.
    inversion Hall as [|? ? [i Hi] _]; subst. vm_compute in Hi. discriminate Hi.
Defined.

(* ================================================================= *)
(** ** The use case around the strategy *)

(** The use case returns a result exactly when the event has an id, a
    type and a description, the type is, up to case, one of line, iso,
    equipment, spool and part, and the strategy returns that result. *)
Theorem use_case_returns_iff (graph_repo : IGraphRepository)
    (change_event : ChangeEvent.t) (r : ImpactResult.t) :
  AnalyzeLineImpactUseCase.execute graph_repo change_event = Ok r
  ↔ is_empty (ChangeEvent.entity_id change_event) = false ∧
    is_empty (ChangeEvent.entity_type change_event) = false ∧
    is_empty (ChangeEvent.description change_event) = false ∧
    lower (ChangeEvent.entity_type change_event)
      ∈ ["line"; "iso"; "equipment"; "spool"; "part"] ∧
    GraphTraversalStrategy.analyze graph_repo change_event = Ok r.
Proof.
  unfold AnalyzeLineImpactUseCase.execute, AnalyzeLineImpactUseCase._validate_change_event.
  simpl strategy_supports. simpl strategy_analyze.
  unfold GraphTraversalStrategy.supports_entity_type.
  destruct (is_empty (ChangeEvent.entity_id change_event));
    [split; [discriminate|intros (H & _); discriminate H]|].
  destruct (is_empty (ChangeEvent.entity_type change_event));
    [split; [discriminate|intros (_ & H & _); discriminate H]|].
  destruct (is_empty (ChangeEvent.description change_event));
    [split; [discriminate|intros (_ & _ & H & _); discriminate H]|].
  rewrite outcome_bind_ret.
  destruct (bool_decide _) eqn:Hsupported; simpl negb; cbv iota.
  - apply bool_decide_eq_true in Hsupported. tauto.
  - apply bool_decide_eq_false in Hsupported.
    split; [discriminate|]. intros (_ & _ & _ & Hin & _). contradiction.
Qed.

(** With the simulation strategy the use case never returns a result:
    whatever the event, it fails with InvalidChangeEventError. *)
Theorem use_case_simulation_disabled (strategy : SimulationStrategy.t)
    (change_event : ChangeEvent.t) :
  AnalyzeLineImpactUseCase.execute strategy change_event = Raise InvalidChangeEventError.
Proof.
  unfold AnalyzeLineImpactUseCase.execute, AnalyzeLineImpactUseCase._validate_change_event.
  destruct (is_empty (ChangeEvent.entity_id change_event)); [reflexivity|].
  destruct (is_empty (ChangeEvent.entity_type change_event)); [reflexivity|].
  destruct (is_empty (ChangeEvent.description change_event)); reflexivity.
Qed.

(* ================================================================= *)
(** ** The Neo4j repository *)
Section neo4j_repository.
Import Neo4jGraphRepository.
Context (client : Neo4jClient) (make_line : gmap string string → outcome Line.t).

Lemma try_except_wraps {A} (body : outcome A) (e : exn) :
  try_except body (λ _, Raise DatabaseConnectionError) = Raise e →
  e = DatabaseConnectionError.
Proof. unfold try_except. destruct body; [discriminate|]. intros [= <-]. reflexivity. Qed.

Lemma try_except_ok {A} (body : outcome A) (handler : exn → outcome A) (a : A) :
  body = Ok a → try_except body handler = Ok a.
Proof. intros ->. reflexivity. Qed.

(** One round of the grouping of the traversal. *)
Lemma traverse_round (groups : gmap string (list (gmap string string)))
    (record : list string * gmap string string) :
  (let label := match record.1 with l :: _ => l | [] => "Unknown" end in
   let entity := record.2 in
   let affected_entities :=
     match groups !! label with
     | None => <[label := []]> groups
     | Some _ => groups
     end in
   entities ← subscript affected_entities label;
   mret (<[label := entities ++ [entity]]> affected_entities))
  = Ok (<[first_label record := default [] (groups !! first_label record) ++ [record.2]]>
          groups).
Proof.
  cbv zeta. fold (first_label record).
  destruct (groups !! first_label record) as [entities|] eqn:Hgroup.
  - rewrite (subscript_some _ _ _ Hgroup). reflexivity.
  - rewrite (subscript_some _ _ [] (lookup_insert_eq _ _ _)).
    rewrite outcome_bind_ok. unfold mret, outcome_ret.
    rewrite insert_insert_eq. reflexivity.
Qed.

Lemma traverse_loop (records : list (list string * gmap string string))
    (groups : gmap string (list (gmap string string))) :
  ∃ groups',
    for_each records groups (λ affected_entities record,
      let label := match record.1 with l :: _ => l | [] => "Unknown" end in
      let entity := record.2 in
      let affected_entities :=
        match affected_entities !! label with
        | None => <[label := []]> affected_entities
        | Some _ => affected_entities
        end in
      entities ← subscript affected_entities label;
      mret (<[label := entities ++ [entity]]> affected_entities)) = Ok groups' ∧
    ∀ label,
      default [] (groups' !! label)
      = default [] (groups !! label)
        ++ (snd <$> filter (λ record, first_label record = label) records) ∧
      (groups' !! label = None
       ↔ groups !! label = None ∧
         filter (λ record, first_label record = label) records = []).
Proof.
  revert groups. induction records as [|record records IH]; intros groups.
  - exists groups. split; [reflexivity|]. intros label. rewrite app_nil_r.
    split; [reflexivity|]. tauto.
  - cbn [for_each]. rewrite traverse_round, outcome_bind_ok.
    destruct (IH (<[first_label record
                    := default [] (groups !! first_label record) ++ [record.2]]> groups))
      as (groups' & Hrun & Hgroups).
    exists groups'. split; [exact Hrun|]. intros label.
    destruct (Hgroups label) as [Hentities Hnone].
    rewrite Hentities, Hnone, filter_cons.
    destruct (decide (first_label record = label)) as [<-|Hother].
    + rewrite lookup_insert_eq. simpl. rewrite <- app_assoc.
      split; [reflexivity|]. split; [intros [H _]; discriminate H|intros [_ H]; discriminate H].
    + rewrite lookup_insert_ne by exact Hother. split; [reflexivity|]. tauto.
Qed.

End neo4j_repository.

Lemma iso_fields_id (iso_id : string) :
  ISO.id (BatchVocabulary.iso_fields iso_id) = iso_id.
Proof.
  unfold BatchVocabulary.iso_fields.
  destruct (split "." iso_id) as [|a [|b rest]]; reflexivity.
Qed.

(** Whatever goes wrong in an operation of the Neo4j repository, in the
    driver or in what the repository makes of the records, the caller
    sees a DatabaseConnectionError. *)
Theorem neo4j_repository_wraps (client : Neo4jGraphRepository.Neo4jClient)
    (make_line : gmap string string → outcome Line.t) :
  raises_only_database_errors (Neo4jGraphRepository.repository client make_line) ∧
  ∀ line_id e,
    Neo4jGraphRepository.get_line_iso_relationship_count client line_id = Raise e →
    e = DatabaseConnectionError.
Proof.
  repeat split; simpl; intros; eapply try_except_wraps; eassumption.
Qed.

(** The ISOs of a line are the parse of the ids of the nodes, in the
    order of the records, so each is determined by its id; one node
    without id fails the whole call. *)
Theorem neo4j_isos_parsed (client : Neo4jGraphRepository.Neo4jClient)
    (line_id : string) (records : list (gmap string string))
    (Hquery : Neo4jGraphRepository.match_isos_of_line client line_id = Ok records) :
  (Forall BatchVocabulary.has_id records →
   Neo4jGraphRepository.get_affected_isos_by_line client line_id
     = Ok ((λ node, BatchVocabulary.iso_fields (shown_id node)) <$> records)) ∧
  (¬ Forall BatchVocabulary.has_id records →
   Neo4jGraphRepository.get_affected_isos_by_line client line_id
     = Raise DatabaseConnectionError) ∧
  (∀ isos, Neo4jGraphRepository.get_affected_isos_by_line client line_id = Ok isos →
           Forall (λ iso, iso = BatchVocabulary.iso_fields (ISO.id iso)) isos).
Proof.
  unfold Neo4jGraphRepository.get_affected_isos_by_line.
  rewrite Hquery, outcome_bind_ok, generic_iso_loop.
  destruct (decide (Forall BatchVocabulary.has_id records)) as [Hall|Hno]; simpl.
  - split; [reflexivity|]. split; [contradiction|].
    intros isos [= <-]. apply Forall_fmap, Forall_true. intros node. simpl.
    rewrite iso_fields_id. reflexivity.
  - split; [contradiction|]. split; [reflexivity|discriminate].
Qed.

Lemma neo4j_isos_parsed_witness :
  Neo4jGraphRepository.get_affected_isos_by_line Stores.client "L1"
    = Ok [ISO.mk "A.1" (Some "A") (Some "1"); ISO.mk "A.2" (Some "A") (Some "2")] ∧
  Neo4jGraphRepository.get_affected_isos_by_line Stores.client "L9"
    = Raise DatabaseConnectionError.
Proof.
  split.
  - destruct (neo4j_isos_parsed Stores.client "L1"
                [ {[ "id" := "A.1" ]}; {[ "id" := "A.2" ]} ] eq_refl) as [Hok _].
    rewrite Hok; [vm_compute; reflexivity|].
    repeat constructor; eexists; vm_compute; reflexivity.
  - destruct (neo4j_isos_parsed Stores.client "L9" [ {[ "name" := "A.9" ]} ] eq_refl)
      as (_ & Hraise & _).
    apply Hraise. intros Hall. inversion Hall as [|? ? [i Hi] _]; subst.
    vm_compute in Hi. discriminate Hi.
Defined.

(** The traversal returns, under each label, the nodes whose first
    label it is, in the order of the records, the nodes without label
    under "Unknown"; a label no record starts with is not a key. *)
Theorem neo4j_traverse_groups (client : Neo4jGraphRepository.Neo4jClient)
    (entity_type entity_id : string) (max_depth : Z)
    (records : list (list string * gmap string string))
    (Hquery : Neo4jGraphRepository.match_reachable client entity_type entity_id max_depth
              = Ok records) :
  ∃ groups,
    Neo4jGraphRepository.traverse_impact_graph client entity_type entity_id max_depth
      = Ok groups ∧
    ∀ label,
      default [] (groups !! label)
        = snd <$> filter (λ record, first_label record = label) records ∧
      (groups !! label = None
       ↔ filter (λ record, first_label record = label) records = []).
Proof.
  unfold Neo4jGraphRepository.traverse_impact_graph.
  rewrite Hquery.
  destruct (traverse_loop records ∅) as (groups & Hrun & Hgroups).
  exists groups. split; [apply try_except_ok; exact Hrun|]. intros label.
  destruct (Hgroups label) as [Hentities Hnone].
  rewrite Hentities, Hnone, lookup_empty. simpl. tauto.
Qed.

Lemma neo4j_traverse_groups_witness :
  ∃ groups,
    Neo4jGraphRepository.traverse_impact_graph Stores.client "Equipment" "E1" 5
      = Ok groups ∧
    default [] (groups !! "ISO") = [ {[ "id" := "A.1" ]}; {[ "id" := "A.2" ]} ] ∧
    default [] (groups !! "Unknown") = [ {[ "id" := "N1" ]} ] ∧
    groups !! "Drawing" = None.
Proof.
  destruct (neo4j_traverse_groups Stores.client "Equipment" "E1" 5 _ eq_refl)
    as (groups & Hrun & Hgroups).
  exists groups. split; [exact Hrun|].
  split; [rewrite (proj1 (Hgroups "ISO")); vm_compute; reflexivity|].
  split; [rewrite (proj1 (Hgroups "Unknown")); vm_compute; reflexivity|].
  apply (proj2 (Hgroups "Drawing")). vm_compute. reflexivity.
Defined.

(* ================================================================= *)
(** ** Batch analysis: counting the hierarchy *)
Section batch_counting.
Import BatchImpactAnalysisUseCase BatchVocabulary.

Lemma length_flat_map_sum {A B} (f : A → list B) (xs : list A) :
  Z.of_nat (length (flat_map f xs)) = foldr Z.add 0 ((λ x, Z.of_nat (length (f x))) <$> xs).
Proof.
  induction xs as [|x xs IH]; [reflexivity|].
  cbn [flat_map]. rewrite length_app, Nat2Z.inj_add, IH, fmap_cons. reflexivity.
Qed.

End batch_counting.

(** [_count_hierarchy_impacts] counts the nodes of the tree it is given,
    the root included, whatever the [impact_count] entries say. *)
Theorem count_hierarchy_impacts_nodes (node : BatchImpactAnalysisUseCase.HierarchyNode) :
  BatchImpactAnalysisUseCase._count_hierarchy_impacts node
  = Z.of_nat (length (BatchVocabulary.nodes node)).
Proof.
  revert node. fix IH 1. intros [i t cs p c].
  cbn [BatchImpactAnalysisUseCase._count_hierarchy_impacts BatchVocabulary.nodes].
  rewrite fold_left_sum, length_cons, Nat2Z.inj_succ, length_flat_map_sum.
  unfold Z.succ. rewrite Z.add_comm. f_equal.
  induction cs as [|child cs IHcs]; [reflexivity|].
  rewrite !fmap_cons. cbn [foldr]. rewrite IHcs, (IH child). reflexivity.
Qed.

(* ================================================================= *)
(** ** Batch analysis: the flat lists *)
Section batch_lists.
Import BatchImpactAnalysisUseCase BatchVocabulary.
Context (graph_repo : IGraphRepository) (include_spools include_parts : bool).

Lemma record_spool_others (result : BatchResult) (spool : gmap string string) :
  affected_lines (record_spool result spool) = affected_lines result ∧
  affected_isos (record_spool result spool) = affected_isos result ∧
  affected_parts (record_spool result spool) = affected_parts result.
Proof. unfold record_spool. destruct (any_id _ _); repeat split; reflexivity. Qed.

Lemma record_part_others (result : BatchResult) (part : gmap string string) :
  affected_lines (record_part result part) = affected_lines result ∧
  affected_isos (record_part result part) = affected_isos result ∧
  affected_spools (record_part result part) = affected_spools result.
Proof. unfold record_part. destruct (any_id _ _); repeat split; reflexivity. Qed.

(** The expansion of an ISO and the processing of a requested ISO leave
    [affected_lines] alone. *)
Lemma get_iso_children_lines (lines : list EntitySummary) (iso_id : string) :
  preserves (λ r, affected_lines r = lines)
            (_get_iso_children graph_repo iso_id include_spools include_parts).
Proof.
  apply preserves_get_iso_children.
  - intros _ i spools _. apply Forall_true. intros spool result <-.
    apply record_spool_others.
  - intros _ i parts _. apply Forall_true. intros part result <-.
    apply record_part_others.
Qed.

Lemma process_iso_lines (iso_id : string) (result : BatchResult) :
  affected_lines (_process_iso graph_repo iso_id include_spools include_parts result).1
  = affected_lines result.
Proof.
  apply (preserves_process_iso graph_repo include_spools include_parts
           (λ r, affected_lines r = affected_lines result));
    try reflexivity; try (intros; assumption).
  - intros _ i spools _. apply Forall_true. intros spool r <-. apply record_spool_others.
  - intros _ i parts _. apply Forall_true. intros part r <-. apply record_part_others.
Qed.

(** A requested line adds its entry as soon as it is found, whatever
    happens to its expansion afterwards. *)
Lemma process_line_lines (line_id : string) (result : BatchResult) :
  affected_lines (_process_line graph_repo line_id include_spools include_parts result).1
  = affected_lines result ++ found_line graph_repo line_id.
Proof.
  unfold _process_line, try_except_M, found_line.
  rewrite run_bind, run_lift.
  destruct (get_line_by_id graph_repo line_id) as [[line|]|e];
    [|simpl; rewrite app_nil_r; reflexivity..].
  rewrite run_bind, run_modify.
  set (result1 := append_affected_lines _ result).
  match goal with
  | |- affected_lines (match ?rest result1 with _ => _ end).1 = _ =>
      assert (affected_lines (rest result1).1 = affected_lines result1) as Hrest;
      [|destruct (rest result1) as [result2 [[]|e]]; exact Hrest]
  end.
  apply (preserves_bind (λ r, affected_lines r = affected_lines result1));
    [apply preserves_lift| |reflexivity].
  intros isos.
  apply preserves_bind; [|intros children r Hr; exact Hr].
  apply preserves_for_each. intros children iso r Hr.
  rewrite run_bind, run_get.
  apply preserves_bind_at.
  - apply (preserves_iso_append (λ r, affected_lines r = affected_lines result1)
             (λ _ _ _ H _, H) _ _ _ _ eq_refl Hr).
  - intros _. apply preserves_bind; [apply get_iso_children_lines|].
    intros node. apply preserves_ret.
Qed.

(** The state the body of [execute] reaches after the two loops. *)
Lemma execute_run (line_numbers iso_numbers : list string) :
  ∃ result1 result2,
    for_each line_numbers tt
      (λ _ line_id, _process_line graph_repo line_id include_spools include_parts)
      initial_result = (result1, Ok tt) ∧
    for_each iso_numbers tt
      (λ _ iso_id, _process_iso graph_repo iso_id include_spools include_parts)
      result1 = (result2, Ok tt) ∧
    ∃ m, execute graph_repo line_numbers iso_numbers include_spools include_parts
         = Ok (set_metrics m result2).
Proof.
  destruct (roots_loop_spec
              (line_expands graph_repo include_spools include_parts) line_shape
              (λ line_id, _process_line graph_repo line_id include_spools include_parts)
              line_numbers initial_result)
    as (result1 & ? & Hrun1 & _).
  { intros root result. apply process_line_spec. }
  destruct (roots_loop_spec
              (iso_expands graph_repo include_spools include_parts) iso_shape
              (λ iso_id, _process_iso graph_repo iso_id include_spools include_parts)
              iso_numbers result1)
    as (result2 & ? & Hrun2 & _).
  { intros root result. apply process_iso_spec. }
  exists result1, result2. split; [exact Hrun1|]. split; [exact Hrun2|].
  unfold execute, execute_body.
  rewrite run_bind, Hrun1, run_bind, Hrun2, run_bind, run_get, run_bind, run_modify,
          run_get.
  eexists. reflexivity.
Qed.

(** A loop over roots accumulates what each root adds to a list. *)
Lemma roots_loop_appends {A} (field : BatchResult → list A) (added : string → list A)
    (step : string → M unit) (roots : list string) (result : BatchResult) :
  (∀ root result, ∃ result', step root result = (result', Ok tt)) →
  (∀ root result, field (step root result).1 = field result ++ added root) →
  field (for_each roots tt (λ _ root, step root) result).1
  = field result ++ flat_map added roots.
Proof.
  intros Hreturns Hadds. revert result.
  induction roots as [|root roots IH]; intros result.
  - simpl. rewrite app_nil_r. reflexivity.
  - cbn [for_each flat_map]. rewrite run_bind.
    destruct (Hreturns root result) as [result' Hrun].
    specialize (Hadds root result). rewrite Hrun in Hadds |- *. simpl in Hadds.
    rewrite IH, Hadds, <- app_assoc. reflexivity.
Qed.

End batch_lists.

(** [affected_lines] is not a set: it has one entry for every requested
    line id the lookup finds, in request order, a line requested twice
    being listed twice, and a line whose expansion fails being listed
    all the same; lines the lookup does not find, or fails on, have no
    entry. *)
Theorem batch_affected_lines (graph_repo : IGraphRepository)
    (line_numbers iso_numbers : list string) (include_spools include_parts : bool) :
  ∃ r, BatchImpactAnalysisUseCase.execute graph_repo line_numbers iso_numbers
         include_spools include_parts = Ok r ∧
       BatchImpactAnalysisUseCase.affected_lines r
       = flat_map (found_line graph_repo) line_numbers.
Proof.
  destruct (execute_run graph_repo include_spools include_parts line_numbers iso_numbers)
    as (result1 & result2 & Hrun1 & Hrun2 & m & Hrun).
  eexists. split; [exact Hrun|]. simpl.
  pose proof (roots_loop_appends BatchImpactAnalysisUseCase.affected_lines (λ _, [])
                (λ iso_id, BatchImpactAnalysisUseCase._process_iso graph_repo iso_id
                             include_spools include_parts)
                iso_numbers result1) as H2.
  cbv beta in H2. rewrite Hrun2 in H2. simpl in H2. rewrite H2.
  - pose proof (roots_loop_appends BatchImpactAnalysisUseCase.affected_lines
                  (found_line graph_repo)
                  (λ line_id, BatchImpactAnalysisUseCase._process_line graph_repo line_id
                                include_spools include_parts)
                  line_numbers BatchImpactAnalysisUseCase.initial_result) as H1.
    cbv beta in H1. rewrite Hrun1 in H1. simpl in H1. rewrite H1.
    + assert (flat_map (λ _ : string, @nil BatchImpactAnalysisUseCase.EntitySummary)
                       iso_numbers = []) as ->.
      { clear. induction iso_numbers as [|x xs IHxs]; [reflexivity|exact IHxs]. }
      rewrite app_nil_r. reflexivity.
    + intros root result. destruct (process_line_spec graph_repo root include_spools
                                      include_parts result) as (r' & Hr' & _).
      exists r'. exact Hr'.
    + intros root result. apply process_line_lines.
  - intros root result. destruct (process_iso_spec graph_repo root include_spools
                                    include_parts result) as (r' & Hr' & _).
    exists r'. exact Hr'.
  - intros root result. rewrite app_nil_r. apply process_iso_lines.
Qed.

Lemma batch_affected_lines_witness :
  ∃ r, BatchImpactAnalysisUseCase.execute Stores.plant ["L1"; "L7"; "L3"; "L1"] []
         true true = Ok r ∧
       BatchImpactAnalysisUseCase.id <$> BatchImpactAnalysisUseCase.affected_lines r
       = ["L1"; "L3"; "L1"].
Proof.
  destruct (batch_affected_lines Stores.plant ["L1"; "L7"; "L3"; "L1"] [] true true)
    as (r & Hrun & Hlines).
  exists r. split; [exact Hrun|]. rewrite Hlines. vm_compute. reflexivity.
Defined.

(** With [include_spools] off no spool is recorded, and with
    [include_parts] off no part, whatever the store holds: the list is
    empty and its total is 0. *)
Theorem batch_flags_off (graph_repo : IGraphRepository)
    (line_numbers iso_numbers : list string) (include_spools include_parts : bool) :
  ∃ r, BatchImpactAnalysisUseCase.execute graph_repo line_numbers iso_numbers
         include_spools include_parts = Ok r ∧
       (include_spools = false →
        BatchImpactAnalysisUseCase.affected_spools r = [] ∧
        BatchImpactAnalysisUseCase.total_affected_spools
          (BatchImpactAnalysisUseCase.metrics r) = 0) ∧
       (include_parts = false →
        BatchImpactAnalysisUseCase.affected_parts r = [] ∧
        BatchImpactAnalysisUseCase.total_affected_parts
          (BatchImpactAnalysisUseCase.metrics r) = 0).
Proof.
  destruct (execute_spec graph_repo line_numbers iso_numbers include_spools include_parts)
    as (r & lines & isos & Hrun & _ & _ & _ & _ & _ & Hmetrics).
  exists r. split; [exact Hrun|].
  destruct (execute_preserves graph_repo include_spools include_parts
              (λ r, (include_spools = false → BatchImpactAnalysisUseCase.affected_spools r = []) ∧
                    (include_parts = false → BatchImpactAnalysisUseCase.affected_parts r = []))
              ltac:(intros; assumption) ltac:(intros; assumption)
              ltac:(intros; assumption) ltac:(intros; assumption))
    with (line_numbers := line_numbers) (iso_numbers := iso_numbers)
    as (r' & Hrun' & Hspools & Hparts).
  - intros Hflag i spools _. apply Forall_true. intros spool result [Hs Hp].
    destruct (record_spool_others result spool) as (_ & _ & Hsame).
    split; [intros Hoff; congruence|]. intros Hoff. rewrite Hsame. apply Hp, Hoff.
  - intros Hflag i parts _. apply Forall_true. intros part result [Hs Hp].
    destruct (record_part_others result part) as (_ & _ & Hsame).
    split; [|intros Hoff; congruence]. intros Hoff. rewrite Hsame. apply Hs, Hoff.
  - split; reflexivity.
  - rewrite Hrun in Hrun'. injection Hrun' as <-.
    rewrite Hmetrics. simpl.
    split; intros Hoff; [rewrite (Hspools Hoff)|rewrite (Hparts Hoff)];
      split; reflexivity.
Qed.

Lemma batch_flags_off_witness :
  ∃ r, BatchImpactAnalysisUseCase.execute Stores.plant ["L1"] ["A.1"] false true = Ok r ∧
       BatchImpactAnalysisUseCase.affected_spools r = [] ∧
       BatchImpactAnalysisUseCase.total_affected_spools
         (BatchImpactAnalysisUseCase.metrics r) = 0 ∧
       BatchImpactAnalysisUseCase.id <$> BatchImpactAnalysisUseCase.affected_parts r
       = ["P1"].
Proof.
  destruct (batch_flags_off Stores.plant ["L1"] ["A.1"] false true)
    as (r & Hrun & Hspools & _).
  exists r. split; [exact Hrun|].
  destruct (Hspools eq_refl) as [Hnone Hzero].
  split; [exact Hnone|]. split; [exact Hzero|].
  assert (BatchImpactAnalysisUseCase.execute Stores.plant ["L1"] ["A.1"] false true
          = Ok r) as Hrun' by exact Hrun.
  vm_compute in Hrun'. injection Hrun' as <-. reflexivity.
Defined.

(* ================================================================= *)
(** ** Batch analysis: the requested ISOs *)
Section batch_requested_isos.
Import BatchImpactAnalysisUseCase BatchVocabulary.
Context (graph_repo : IGraphRepository) (include_spools include_parts : bool).

Lemma recorded_iso_stays (x iso_id : string) :
  preserves (λ r, x ∈ id <$> affected_isos r)
            (_process_iso graph_repo iso_id include_spools include_parts).
Proof.
  apply preserves_process_iso.
  - intros n result Hx. exact Hx.
  - intros i props result Hx _. simpl. rewrite fmap_app. apply elem_of_app. left. exact Hx.
  - intros _ i spools _. apply Forall_true. intros spool result Hx.
    destruct (record_spool_others result spool) as (_ & -> & _). exact Hx.
  - intros _ i parts _. apply Forall_true. intros part result Hx.
    destruct (record_part_others result part) as (_ & -> & _). exact Hx.
Qed.

Lemma try_state (body : M unit) (result : BatchResult) :
  (try_except_M body (λ e, mret tt) result).1 = (body result).1.
Proof. unfold try_except_M. destruct (body result) as [result' [[]|e]]; reflexivity. Qed.

(** A requested ISO is in the list once it has been processed, whether
    its expansion returned or raised. *)
Lemma process_iso_records (iso_id : string) (result : BatchResult) :
  iso_id ∈ id <$> affected_isos
                    (_process_iso graph_repo iso_id include_spools include_parts result).1.
Proof.
  unfold _process_iso. rewrite try_state, run_bind, run_get.
  apply (preserves_bind_at (λ r, iso_id ∈ id <$> affected_isos r)).
  - destruct (any_id (Some iso_id) (affected_isos result)) eqn:Hany; simpl.
    + apply any_id_elem, Hany.
    + rewrite run_bind, run_lift, parse_iso_id_fields. simpl.
      rewrite fmap_app. apply elem_of_app. right. left.
  - intros _. apply preserves_bind.
    + apply preserves_get_iso_children.
      * intros _ i spools _. apply Forall_true. intros spool r Hx.
        destruct (record_spool_others r spool) as (_ & -> & _). exact Hx.
      * intros _ i parts _. apply Forall_true. intros part r Hx.
        destruct (record_part_others r part) as (_ & -> & _). exact Hx.
    + intros node r Hx. exact Hx.
Qed.

Lemma process_isos_record (iso_numbers : list string) (result : BatchResult) (x : string) :
  x ∈ iso_numbers →
  x ∈ id <$> affected_isos
               (for_each iso_numbers tt
                  (λ _ iso_id, _process_iso graph_repo iso_id include_spools include_parts)
                  result).1.
Proof.
  revert result. induction iso_numbers as [|iso_id rest IH]; intros result Hin.
  - apply elem_of_nil in Hin. destruct Hin.
  - cbn [for_each].
    apply elem_of_cons in Hin as [->|Hin].
    + apply (preserves_bind_at (λ r, iso_id ∈ id <$> affected_isos r));
        [apply process_iso_records|].
      intros []. apply preserves_for_each. intros [] i. apply recorded_iso_stays.
    + rewrite run_bind.
      destruct (_process_iso graph_repo iso_id include_spools include_parts result)
        as [result' [[]|e]] eqn:Hrun.
      * apply IH, Hin.
      * destruct (process_iso_spec graph_repo iso_id include_spools include_parts result)
          as (? & Hok & _). congruence.
Qed.

End batch_requested_isos.

(** Every requested ISO id is in [affected_isos], whether or not the
    store has such an ISO and whether or not its expansion failed; so a
    request with at least one ISO id never has a total of 0. *)
Theorem batch_requested_isos_recorded (graph_repo : IGraphRepository)
    (line_numbers iso_numbers : list string) (include_spools include_parts : bool) :
  ∃ r, BatchImpactAnalysisUseCase.execute graph_repo line_numbers iso_numbers
         include_spools include_parts = Ok r ∧
       (∀ iso_id, iso_id ∈ iso_numbers →
          iso_id ∈ BatchImpactAnalysisUseCase.id
                     <$> BatchImpactAnalysisUseCase.affected_isos r) ∧
       (iso_numbers ≠ [] →
        0 < BatchImpactAnalysisUseCase.total_impact_count
              (BatchImpactAnalysisUseCase.metrics r)).
Proof.
  destruct (execute_run graph_repo include_spools include_parts line_numbers iso_numbers)
    as (result1 & result2 & Hrun1 & Hrun2 & m & Hrun).
  destruct (execute_spec graph_repo line_numbers iso_numbers include_spools include_parts)
    as (r & _ & _ & Hrun' & _ & _ & _ & _ & _ & Hmetrics).
  rewrite Hrun in Hrun'. injection Hrun' as <-.
  eexists. split; [exact Hrun|].
  assert (∀ iso_id, iso_id ∈ iso_numbers →
            iso_id ∈ BatchImpactAnalysisUseCase.id
                       <$> BatchImpactAnalysisUseCase.affected_isos
                             (BatchImpactAnalysisUseCase.set_metrics m result2))
    as Hrecorded.
  { intros iso_id Hin. simpl.
    pose proof (process_isos_record graph_repo include_spools include_parts
                  iso_numbers result1 iso_id Hin) as Hx.
    rewrite Hrun2 in Hx. exact Hx. }
  split; [exact Hrecorded|].
  intros Hsome. rewrite Hmetrics. simpl.
  destruct iso_numbers as [|iso_id rest]; [contradiction|].
  specialize (Hrecorded iso_id ltac:(left)). simpl in Hrecorded.
  destruct (BatchImpactAnalysisUseCase.affected_isos result2);
    [apply elem_of_nil in Hrecorded; destruct Hrecorded|].
  simpl length. lia.
Qed.

Lemma batch_requested_isos_recorded_witness :
  ∃ r, BatchImpactAnalysisUseCase.execute Stores.plant [] ["B.1"; "NO.SUCH"] true true
       = Ok r ∧
       "B.1" ∈ BatchImpactAnalysisUseCase.id <$> BatchImpactAnalysisUseCase.affected_isos r ∧
       "NO.SUCH" ∈ BatchImpactAnalysisUseCase.id
                     <$> BatchImpactAnalysisUseCase.affected_isos r ∧
       0 < BatchImpactAnalysisUseCase.total_impact_count
             (BatchImpactAnalysisUseCase.metrics r).
Proof.
  destruct (batch_requested_isos_recorded Stores.plant [] ["B.1"; "NO.SUCH"] true true)
    as (r & Hrun & Hrecorded & Hpositive).
  exists r. split; [exact Hrun|].
  split; [apply Hrecorded; left|].
  split; [apply Hrecorded; right; left|].
  apply Hpositive. discriminate.
Defined.

(* ================================================================= *)
(** ** Children request: what each level returns *)
Section children_runs.
Import GetChildrenHierarchyUseCase.
Context (graph_repo : IGraphRepository).

(** A loop that appends one node per element, made without raising. *)
Lemma for_each_appends {A B} (f : A → B) (xs : list A) (acc : list B)
    (body : list B → A → outcome (list B)) :
  (∀ acc x, body acc x = Ok (acc ++ [f x])) →
  for_each xs acc body = Ok (acc ++ (f <$> xs)).
Proof.
  intros Hbody. revert acc.
  induction xs as [|x xs IH]; intros acc; cbn [for_each].
  - rewrite fmap_nil, app_nil_r. reflexivity.
  - rewrite Hbody. unfold mbind, outcome_bind. rewrite IH, fmap_cons, <- app_assoc.
    reflexivity.
Qed.

Lemma for_each_ext {A S} (xs : list A) (acc : S) (body body' : S → A → outcome S) :
  (∀ acc x, body acc x = body' acc x) →
  for_each xs acc body = for_each xs acc body'.
Proof.
  intros Hbody. revert acc.
  induction xs as [|x xs IH]; intros acc; cbn [for_each]; [reflexivity|].
  rewrite Hbody. unfold mbind, outcome_bind.
  destruct (body' acc x); [apply IH|reflexivity].
Qed.

(** The spool level: the grouped parts, or nothing when the request
    does not reach it or the grouping query fails. *)
Lemma spool_children_run (spool_id : string) (max_depth current_depth : Z) :
  _get_spool_children graph_repo spool_id max_depth current_depth
  = Ok (if max_depth <? current_depth then [] else grouped_parts graph_repo spool_id).
Proof.
  unfold _get_spool_children, grouped_parts.
  destruct (max_depth <? current_depth); [reflexivity|].
  unfold mbind at 1, outcome_bind at 1.
  destruct (client_groups_query graph_repo spool_id) as [records|e]; [|reflexivity].
  rewrite (for_each_appends part_leaf); [reflexivity|].
  intros acc part. reflexivity.
Qed.

(** The ISO level: the spools, then the loose parts. *)
Lemma iso_children_run (iso_id : string) (max_depth current_depth : Z) :
  _get_iso_children graph_repo iso_id max_depth current_depth
  = if max_depth <? current_depth then Ok []
    else
      spools ← get_affected_spools_by_iso graph_repo iso_id;
      parts ← get_affected_parts_by_iso graph_repo iso_id;
      Ok ((spool_tree graph_repo (current_depth <? max_depth) <$> spools)
          ++ (part_leaf <$> parts)).
Proof.
  unfold _get_iso_children.
  destruct (Z.ltb_spec max_depth current_depth) as [Hlt|Hge]; [reflexivity|].
  destruct (get_affected_spools_by_iso graph_repo iso_id) as [spools|e]; [|reflexivity].
  unfold mbind at 1, outcome_bind at 1.
  rewrite (for_each_appends (spool_tree graph_repo (current_depth <? max_depth))).
  - unfold mbind at 1, outcome_bind at 1. unfold mbind at 2, outcome_bind at 2.
    destruct (get_affected_parts_by_iso graph_repo iso_id) as [parts|e]; [|reflexivity].
    unfold mbind, outcome_bind.
    apply (for_each_appends part_leaf). intros acc part. reflexivity.
  - intros acc spool. unfold spool_tree, shown_id.
    destruct (Z.ltb_spec current_depth max_depth) as [Hdeeper|Hlast]; [|reflexivity].
    rewrite spool_children_run.
    destruct (Z.ltb_spec max_depth (current_depth + 1)); [lia|reflexivity].
Qed.

Lemma iso_children_ext (iso_id : string) (max_depth current_depth max_depth' current_depth' : Z) :
  (max_depth <? current_depth) = (max_depth' <? current_depth') →
  (current_depth <? max_depth) = (current_depth' <? max_depth') →
  _get_iso_children graph_repo iso_id max_depth current_depth
  = _get_iso_children graph_repo iso_id max_depth' current_depth'.
Proof. intros Hstop Hdeeper. rewrite !iso_children_run, Hstop, Hdeeper. reflexivity. Qed.

Lemma line_children_ext (line_id : string) (max_depth current_depth max_depth' current_depth' : Z) :
  (max_depth <? current_depth) = (max_depth' <? current_depth') →
  (current_depth <? max_depth) = (current_depth' <? max_depth') →
  (∀ iso_id, _get_iso_children graph_repo iso_id max_depth (current_depth + 1)
             = _get_iso_children graph_repo iso_id max_depth' (current_depth' + 1)) →
  _get_line_children graph_repo line_id max_depth current_depth
  = _get_line_children graph_repo line_id max_depth' current_depth'.
Proof.
  intros Hstop Hdeeper Hisos. unfold _get_line_children. rewrite Hstop, Hdeeper.
  destruct (max_depth' <? current_depth'); [reflexivity|].
  destruct (get_affected_isos_by_line graph_repo line_id) as [isos|e]; [|reflexivity].
  unfold mbind at 1 3, outcome_bind at 1 3.
  apply for_each_ext. intros acc iso. cbv zeta. rewrite Hisos. reflexivity.
Qed.

(** Above the number of levels an entity of a type has below it, the
    depth makes no difference. *)
Lemma execute_saturates (entity_type entity_id : string) (d : Z) :
  levels_below entity_type ≤ d →
  execute graph_repo entity_type entity_id d
  = execute graph_repo entity_type entity_id (levels_below entity_type).
Proof.
  unfold execute, levels_below.
  destruct (String.eqb (lower entity_type) "line");
    [|destruct (String.eqb (lower entity_type) "iso");
      [|destruct (String.eqb (lower entity_type) "spool")]]; intros Hd.
  - rewrite (line_children_ext entity_id d 1 3 1); [reflexivity| | |].
    + destruct (Z.ltb_spec d 1); [lia|reflexivity].
    + destruct (Z.ltb_spec 1 d); [reflexivity|lia].
    + intros iso_id. apply iso_children_ext.
      * destruct (Z.ltb_spec d (1 + 1)); [lia|reflexivity].
      * destruct (Z.ltb_spec (1 + 1) d); [reflexivity|lia].
  - rewrite (iso_children_ext entity_id d 1 2 1); [reflexivity| |].
    + destruct (Z.ltb_spec d 1); [lia|reflexivity].
    + destruct (Z.ltb_spec 1 d); [reflexivity|lia].
  - rewrite !spool_children_run.
    destruct (Z.ltb_spec d 1); [lia|reflexivity].
  - reflexivity.
Qed.

(** The tree is within the budget of the depth asked for. *)
Lemma execute_height (entity_type entity_id : string) (d : Z) (r : ChildrenResult) :
  execute graph_repo entity_type entity_id d = Ok r →
  Z.of_nat (height (result_children r)) ≤ budget d 1.
Proof.
  unfold execute, mbind, outcome_bind.
  destruct (String.eqb (lower entity_type) "line");
    [|destruct (String.eqb (lower entity_type) "iso");
      [|destruct (String.eqb (lower entity_type) "spool")]].
  - destruct (_get_line_children _ _ _ _) as [cs|e] eqn:Hcs; [|discriminate].
    intros [= <-]. simpl. apply (line_children_height graph_repo) in Hcs. exact Hcs.
  - destruct (_get_iso_children _ _ _ _) as [cs|e] eqn:Hcs; [|discriminate].
    intros [= <-]. simpl. apply (iso_children_height graph_repo) in Hcs. exact Hcs.
  - destruct (_get_spool_children _ _ _ _) as [cs|e] eqn:Hcs; [|discriminate].
    intros [= <-]. simpl. apply (spool_children_height graph_repo) in Hcs. exact Hcs.
  - intros [= <-]. simpl. unfold budget. lia.
Qed.

Lemma levels_below_range (entity_type : string) : 0 ≤ levels_below entity_type ≤ 3.
Proof.
  unfold levels_below.
  repeat match goal with |- context [String.eqb ?a ?b] => destruct (String.eqb a b) end;
    lia.
Qed.

End children_runs.

(** Asking for more levels than an entity of the type has below it (3
    for a line, 2 for an ISO, 1 for a spool) returns what asking for
    exactly that many returns: the traversal does not continue. *)
Theorem get_children_depth_saturates (graph_repo : IGraphRepository)
    (entity_type entity_id : string) (d : Z)
    (Hd : levels_below entity_type ≤ d) :
  GetChildrenHierarchyUseCase.execute graph_repo entity_type entity_id d
  = GetChildrenHierarchyUseCase.execute graph_repo entity_type entity_id
      (levels_below entity_type).
Proof. apply execute_saturates, Hd. Qed.

Lemma get_children_depth_saturates_witness :
  levels_below "Line" = 3 ∧
  GetChildrenHierarchyUseCase.execute Stores.plant "Line" "L1" 5
  = GetChildrenHierarchyUseCase.execute Stores.plant "Line" "L1" 3 ∧
  ∃ r, GetChildrenHierarchyUseCase.execute Stores.plant "Line" "L1" 5 = Ok r ∧
       GetChildrenHierarchyUseCase.total_descendants r = 7.
Proof.
  split; [reflexivity|].
  split; [apply (get_children_depth_saturates Stores.plant "Line" "L1" 5);
          vm_compute; intros Hgt; discriminate Hgt|].
  eexists. split; vm_compute; reflexivity.
Defined.

(** Whatever depth is asked for, the tree returned for a line has at
    most three levels, for an ISO two, for a spool one, and for any
    other type none. *)
Theorem get_children_levels (graph_repo : IGraphRepository)
    (entity_type entity_id : string) (d : Z)
    (r : GetChildrenHierarchyUseCase.ChildrenResult)
    (Hrun : GetChildrenHierarchyUseCase.execute graph_repo entity_type entity_id d = Ok r) :
  Z.of_nat (GetChildrenHierarchyUseCase.height
              (GetChildrenHierarchyUseCase.result_children r))
  ≤ levels_below entity_type.
Proof.
  pose proof (levels_below_range entity_type) as Hrange.
  destruct (Z.le_gt_cases (levels_below entity_type) d) as [Hd|Hd].
  - rewrite (execute_saturates graph_repo _ _ _ Hd) in Hrun.
    apply execute_height in Hrun. unfold budget in Hrun. lia.
  - apply execute_height in Hrun. unfold budget in Hrun. lia.
Qed.

Lemma get_children_levels_witness :
  ∃ r, GetChildrenHierarchyUseCase.execute Stores.plant "iso" "A.1" 4 = Ok r ∧
       Z.of_nat (GetChildrenHierarchyUseCase.height
                   (GetChildrenHierarchyUseCase.result_children r)) ≤ 2.
Proof.
  eexists. split; [vm_compute; reflexivity|].
  apply (get_children_levels Stores.plant "iso" "A.1" 4). vm_compute. reflexivity.
Defined.
(* ================================================================= *)
(** ** Children request: the total *)
Section children_total.
Import GetChildrenHierarchyUseCase.

Lemma descendants_of_nodes (child : ChildNode) :
  descendants_of child = Z.of_nat (length (forest_nodes (children child))).
Proof.
  revert child. fix IH 1. intros [i s cs].
  cbn [descendants_of children]. unfold forest_nodes.
  rewrite fold_left_sum, length_flat_map_sum.
  induction cs as [|c cs IHcs]; [reflexivity|].
  rewrite !fmap_cons. cbn [foldr length].
  rewrite Nat2Z.inj_succ.
  assert (Z.of_nat (length (child_nodes c)) = 1 + descendants_of c) as ->.
  { rewrite (IH c). destruct c as [i' s' cs']. cbn [child_nodes children length].
    unfold forest_nodes. lia. }
  lia.
Qed.

Lemma count_descendants_nodes (cs : list ChildNode) :
  _count_descendants cs = Z.of_nat (length (forest_nodes cs)).
Proof.
  exact (descendants_of_nodes (mkChild "" None cs)).
Qed.

End children_total.

(** The result of a children request repeats the id and the type as
    they were given, and its [total_descendants] is the number of nodes
    of the tree it returns, at every level. *)
Theorem get_children_total (graph_repo : IGraphRepository)
    (entity_type entity_id : string) (d : Z)
    (r : GetChildrenHierarchyUseCase.ChildrenResult)
    (Hrun : GetChildrenHierarchyUseCase.execute graph_repo entity_type entity_id d = Ok r) :
  GetChildrenHierarchyUseCase.entity_id r = entity_id ∧
  GetChildrenHierarchyUseCase.entity_type r = entity_type ∧
  GetChildrenHierarchyUseCase.total_descendants r
  = Z.of_nat (length (forest_nodes (GetChildrenHierarchyUseCase.result_children r))) ∧
  Z.of_nat (length (GetChildrenHierarchyUseCase.result_children r))
  ≤ GetChildrenHierarchyUseCase.total_descendants r.
Proof.
  revert Hrun. unfold GetChildrenHierarchyUseCase.execute, mbind, outcome_bind.
  match goal with |- context [match ?m with Ok _ => _ | Raise _ => _ end] =>
    destruct m as [cs|e]; [|discriminate] end.
  intros [= <-]. cbn.
  split; [reflexivity|]. split; [reflexivity|].
  rewrite count_descendants_nodes. split; [reflexivity|].
  apply inj_le. unfold forest_nodes.
  induction cs as [|[i s gs] cs IH]; [reflexivity|].
  cbn [flat_map child_nodes length]. rewrite length_app. cbn [length]. lia.
Qed.

Lemma get_children_total_witness :
  ∃ r, GetChildrenHierarchyUseCase.execute Stores.plant "LINE" "L1" 3 = Ok r ∧
       GetChildrenHierarchyUseCase.entity_type r = "LINE" ∧
       GetChildrenHierarchyUseCase.total_descendants r = 7 ∧
       length (GetChildrenHierarchyUseCase.result_children r) = 2%nat.
Proof.
  destruct (GetChildrenHierarchyUseCase.execute Stores.plant "LINE" "L1" 3)
    as [r|e] eqn:Hrun; [|vm_compute in Hrun; discriminate Hrun].
  exists r. split; [reflexivity|].
  destruct (get_children_total Stores.plant "LINE" "L1" 3 r Hrun)
    as (_ & Htype & Htotal & _).
  split; [exact Htype|].
  vm_compute in Hrun. injection Hrun as <-.
  split; [rewrite Htotal|]; vm_compute; reflexivity.
Defined.

(* ================================================================= *)
(** ** Children request: spools *)

(** A children request for a spool never fails, whatever the store
    does.  Its children are leaves without status, one per record of the
    grouping query, shown under the record's id or ["unknown"]; when that
    query fails the spool is shown without children, as a spool that
    groups no part is. *)
Theorem get_children_spool_never_fails (graph_repo : IGraphRepository)
    (entity_type entity_id : string) (d : Z)
    (Htype : lower entity_type = "spool") :
  ∃ r, GetChildrenHierarchyUseCase.execute graph_repo entity_type entity_id d = Ok r ∧
       Forall (λ c, GetChildrenHierarchyUseCase.latest_status c = None ∧
                    GetChildrenHierarchyUseCase.children c = [])
              (GetChildrenHierarchyUseCase.result_children r) ∧
       GetChildrenHierarchyUseCase.total_descendants r
       = Z.of_nat (length (GetChildrenHierarchyUseCase.result_children r)) ∧
       (d < 1 → GetChildrenHierarchyUseCase.result_children r = []) ∧
       (1 ≤ d → ∀ records,
          client_groups_query graph_repo entity_id = Ok records →
          GetChildrenHierarchyUseCase.id <$> GetChildrenHierarchyUseCase.result_children r
          = shown_id <$> records) ∧
       (∀ e, client_groups_query graph_repo entity_id = Raise e →
             GetChildrenHierarchyUseCase.result_children r = []).
Proof.
  unfold GetChildrenHierarchyUseCase.execute. rewrite Htype.
  change (String.eqb "spool" "line") with false.
  change (String.eqb "spool" "iso") with false.
  change (String.eqb "spool" "spool") with true. cbv iota.
  rewrite spool_children_run. unfold mbind, outcome_bind, mret, outcome_ret.
  eexists. split; [reflexivity|]. cbn [GetChildrenHierarchyUseCase.result_children
                                        GetChildrenHierarchyUseCase.total_descendants].
  assert (Forall (λ c, GetChildrenHierarchyUseCase.latest_status c = None ∧
                       GetChildrenHierarchyUseCase.children c = [])
                 (grouped_parts graph_repo entity_id)) as Hleaves.
  { unfold grouped_parts. destruct (client_groups_query graph_repo entity_id);
      [|constructor].
    apply Forall_fmap, Forall_true. intros part. split; reflexivity. }
  split; [destruct (d <? 1); [constructor|exact Hleaves]|].
  split.
  { rewrite count_descendants_nodes. f_equal. unfold forest_nodes.
    destruct (d <? 1); [reflexivity|].
    induction Hleaves as [|[i s cs] rest [_ Hcs] _ IH]; [reflexivity|].
    cbn in Hcs. subst cs. cbn. f_equal. exact IH. }
  split; [intros Hd; destruct (Z.ltb_spec d 1); [reflexivity|lia]|].
  split.
  - intros Hd records Hquery. destruct (Z.ltb_spec d 1); [lia|].
    unfold grouped_parts. rewrite Hquery, <- list_fmap_compose. reflexivity.
  - intros e Hquery. unfold grouped_parts. rewrite Hquery.
    destruct (d <? 1); reflexivity.
Qed.

Lemma get_children_spool_never_fails_witness :
  ∃ r, GetChildrenHierarchyUseCase.execute Stores.plant "SPOOL" "SP1" 1 = Ok r ∧
       GetChildrenHierarchyUseCase.id <$> GetChildrenHierarchyUseCase.result_children r
       = ["P2"; "P3"] ∧
       GetChildrenHierarchyUseCase.total_descendants r = 2.
Proof.
  destruct (get_children_spool_never_fails Stores.plant "SPOOL" "SP1" 1 eq_refl)
    as (r & Hrun & _ & Htotal & _ & Hids & _).
  exists r. split; [exact Hrun|].
  pose proof (Hids ltac:(lia) _ eq_refl) as Hshown.
  split; [exact Hshown|].
  rewrite Htotal, <- (length_fmap GetChildrenHierarchyUseCase.id), Hshown. reflexivity.
Defined.

(* ================================================================= *)
(** ** Children request: the children of an ISO *)

(** When the store answers both queries for an ISO, the request lists
    one node for each spool record, in store order and with the spool's
    status, and then one leaf without status for each loose part; no
    record is dropped or merged, and a record without id is shown as
    ["unknown"].  From depth 2 on each spool node carries the parts the
    spool groups, or nothing when that query fails. *)
Theorem get_children_iso_listing (graph_repo : IGraphRepository)
    (entity_type entity_id : string) (d : Z)
    (spools parts : list (gmap string string))
    (Htype : lower entity_type = "iso") (Hd : 1 ≤ d)
    (Hspools : get_affected_spools_by_iso graph_repo entity_id = Ok spools)
    (Hparts : get_affected_parts_by_iso graph_repo entity_id = Ok parts) :
  ∃ r, GetChildrenHierarchyUseCase.execute graph_repo entity_type entity_id d = Ok r ∧
       GetChildrenHierarchyUseCase.result_children r
       = ((λ spool, GetChildrenHierarchyUseCase.mkChild
                      (shown_id spool) (spool !! "latest_status")
                      (if 2 <=? d then grouped_parts graph_repo (shown_id spool) else []))
            <$> spools)
         ++ ((λ part, GetChildrenHierarchyUseCase.mkChild (shown_id part) None [])
               <$> parts) ∧
       GetChildrenHierarchyUseCase.id <$> GetChildrenHierarchyUseCase.result_children r
       = (shown_id <$> spools) ++ (shown_id <$> parts).
Proof.
  unfold GetChildrenHierarchyUseCase.execute. rewrite Htype.
  change (String.eqb "iso" "line") with false.
  change (String.eqb "iso" "iso") with true. cbv iota.
  rewrite iso_children_run, Hspools, Hparts.
  destruct (Z.ltb_spec d 1) as [Hlt|_]; [lia|].
  unfold mbind, outcome_bind, mret, outcome_ret.
  eexists. split; [reflexivity|].
  cbn [GetChildrenHierarchyUseCase.result_children].
  assert ((1 <? d) = (2 <=? d)) as ->.
  { destruct (Z.ltb_spec 1 d), (Z.leb_spec 2 d); first [reflexivity|lia]. }
  split; [reflexivity|].
  rewrite fmap_app, <- !list_fmap_compose. reflexivity.
Qed.

Lemma get_children_iso_listing_witness :
  ∃ r, GetChildrenHierarchyUseCase.execute Stores.plant "ISO" "C.1" 2 = Ok r ∧
       GetChildrenHierarchyUseCase.id <$> GetChildrenHierarchyUseCase.result_children r
       = ["unknown"; "unknown"].
Proof.
  destruct (get_children_iso_listing Stores.plant "ISO" "C.1" 2 _ _
              eq_refl ltac:(lia) eq_refl eq_refl) as (r & Hrun & _ & Hids).
  exists r. split; [exact Hrun|]. rewrite Hids. vm_compute. reflexivity.
Defined.
(* ================================================================= *)
(** ** Children request: how it fails, and the children of a line *)
Section children_failures.
Import GetChildrenHierarchyUseCase.
Context (graph_repo : IGraphRepository).

Lemma iso_children_raises (iso_id : string) (max_depth current_depth : Z) (e : exn) :
  _get_iso_children graph_repo iso_id max_depth current_depth = Raise e →
  current_depth ≤ max_depth ∧ iso_queries_raise graph_repo iso_id e.
Proof.
  rewrite iso_children_run. unfold iso_queries_raise.
  destruct (Z.ltb_spec max_depth current_depth) as [Hlt|Hge]; [discriminate|].
  unfold mbind, outcome_bind.
  destruct (get_affected_spools_by_iso graph_repo iso_id) as [spools|e1].
  - destruct (get_affected_parts_by_iso graph_repo iso_id) as [parts|e2]; [discriminate|].
    intros [= <-]. split; [exact Hge|]. right. split; [eexists|]; reflexivity.
  - intros [= <-]. split; [exact Hge|]. left. reflexivity.
Qed.

Lemma line_children_raises (line_id : string) (max_depth current_depth : Z) (e : exn) :
  _get_line_children graph_repo line_id max_depth current_depth = Raise e →
  current_depth ≤ max_depth ∧
  (get_affected_isos_by_line graph_repo line_id = Raise e ∨
   (current_depth < max_depth ∧
    ∃ isos iso, get_affected_isos_by_line graph_repo line_id = Ok isos ∧ iso ∈ isos ∧
                iso_queries_raise graph_repo (ISO.id iso) e)).
Proof.
  unfold _get_line_children.
  destruct (Z.ltb_spec max_depth current_depth) as [Hlt|Hge]; [discriminate|].
  unfold mbind at 1, outcome_bind at 1.
  destruct (get_affected_isos_by_line graph_repo line_id) as [isos|e1].
  - intros Hloop. split; [exact Hge|]. right.
    apply for_each_raises in Hloop as (acc & iso & Hin & Hround).
    cbv zeta in Hround. unfold mbind, outcome_bind in Hround.
    destruct (Z.ltb_spec current_depth max_depth) as [Hdeeper|Hlast]; [|discriminate].
    split; [exact Hdeeper|]. exists isos, iso. split; [reflexivity|]. split; [exact Hin|].
    destruct (_get_iso_children graph_repo (ISO.id iso) max_depth (current_depth + 1))
      as [gs|e2] eqn:Hgs; [discriminate|].
    injection Hround as <-. apply iso_children_raises in Hgs as [_ Hgs]. exact Hgs.
  - intros [= <-]. split; [exact Hge|]. left. reflexivity.
Qed.

(** A loop that appends one element each round pairs what it appended
    with what it went through. *)
Lemma for_each_pairs {A B} (R : A → B → Prop) (xs : list A) (acc r : list B)
    (body : list B → A → outcome (list B)) :
  (∀ acc x acc', body acc x = Ok acc' → ∃ y, acc' = acc ++ [y] ∧ R x y) →
  for_each xs acc body = Ok r → ∃ ys, r = acc ++ ys ∧ Forall2 R xs ys.
Proof.
  intros Hbody. revert acc.
  induction xs as [|x xs IH]; intros acc; cbn [for_each].
  - intros [= <-]. exists []. split; [rewrite app_nil_r; reflexivity|constructor].
  - unfold mbind, outcome_bind.
    destruct (body acc x) as [acc'|e] eqn:Hx; [|discriminate].
    intros Hrest. destruct (Hbody _ _ _ Hx) as (y & -> & Hy).
    destruct (IH _ Hrest) as (ys & -> & Hys).
    exists (y :: ys). split; [rewrite <- app_assoc; reflexivity|].
    constructor; assumption.
Qed.

(** The line level: one node per ISO of the line, each with the ISO
    level below it when the request goes deeper. *)
Lemma line_children_pairs (line_id : string) (max_depth current_depth : Z)
    (cs : list ChildNode) :
  current_depth ≤ max_depth →
  _get_line_children graph_repo line_id max_depth current_depth = Ok cs →
  ∃ isos, get_affected_isos_by_line graph_repo line_id = Ok isos ∧
    Forall2 (λ iso c,
               id c = ISO.id iso ∧ latest_status c = None ∧
               if current_depth <? max_depth
               then _get_iso_children graph_repo (ISO.id iso) max_depth (current_depth + 1)
                    = Ok (children c)
               else children c = [])
            isos cs.
Proof.
  intros Hge. unfold _get_line_children.
  destruct (Z.ltb_spec max_depth current_depth) as [Hlt|_]; [lia|].
  unfold mbind at 1, outcome_bind at 1.
  destruct (get_affected_isos_by_line graph_repo line_id) as [isos|e]; [|discriminate].
  intros Hloop. exists isos. split; [reflexivity|].
  eapply for_each_pairs in Hloop as (ys & -> & Hys); [exact Hys|].
  intros acc iso acc'. cbv zeta. unfold mbind, outcome_bind.
  destruct (current_depth <? max_depth).
  - destruct (_get_iso_children graph_repo (ISO.id iso) max_depth (current_depth + 1))
      as [gs|e]; [|discriminate].
    intros [= <-]. eexists. split; [reflexivity|]. repeat split; reflexivity.
  - intros [= <-]. eexists. split; [reflexivity|]. repeat split; reflexivity.
Qed.

End children_failures.

(** A children request fails only when the depth is at least 1 and one
    of the store's queries for ISOs, spools or parts fails, and then
    with that query's exception: for a line, the query for its ISOs or,
    from depth 2, the queries of one of those ISOs; for an ISO, its own
    two queries.  A request for a spool or for any other type does not
    fail, and a failure of the grouping query never reaches the caller. *)
Theorem get_children_failures (graph_repo : IGraphRepository)
    (entity_type entity_id : string) (d : Z) (e : exn)
    (Hrun : GetChildrenHierarchyUseCase.execute graph_repo entity_type entity_id d
            = Raise e) :
  1 ≤ d ∧
  ((lower entity_type = "line" ∧
    (get_affected_isos_by_line graph_repo entity_id = Raise e ∨
     (2 ≤ d ∧
      ∃ isos iso, get_affected_isos_by_line graph_repo entity_id = Ok isos ∧
                  iso ∈ isos ∧ iso_queries_raise graph_repo (ISO.id iso) e))) ∨
   (lower entity_type = "iso" ∧ iso_queries_raise graph_repo entity_id e)).
Proof.
  revert Hrun. unfold GetChildrenHierarchyUseCase.execute, mbind, outcome_bind.
  destruct (String.eqb_spec (lower entity_type) "line") as [Hline|_];
    [|destruct (String.eqb_spec (lower entity_type) "iso") as [Hiso|_];
      [|destruct (String.eqb (lower entity_type) "spool")]].
  - destruct (GetChildrenHierarchyUseCase._get_line_children graph_repo entity_id d 1)
      as [cs|e'] eqn:Hcs; [discriminate|].
    intros [= <-]. apply line_children_raises in Hcs as [Hd Hcs].
    split; [exact Hd|]. left. split; [exact Hline|].
    destruct Hcs as [Hisos|[Hdeeper Hcs]]; [left; exact Hisos|].
    right. split; [lia|exact Hcs].
  - destruct (GetChildrenHierarchyUseCase._get_iso_children graph_repo entity_id d 1)
      as [cs|e'] eqn:Hcs; [discriminate|].
    intros [= <-]. apply iso_children_raises in Hcs as [Hd Hcs].
    split; [exact Hd|]. right. split; [exact Hiso|exact Hcs].
  - rewrite spool_children_run. discriminate.
  - discriminate.
Qed.

Lemma get_children_failures_witness :
  GetChildrenHierarchyUseCase.execute Stores.plant "Line" "L3" 2
    = Raise DatabaseConnectionError ∧
  (∃ r, GetChildrenHierarchyUseCase.execute Stores.plant "Line" "L3" 1 = Ok r) ∧
  1 ≤ 2.
Proof.
  split; [vm_compute; reflexivity|].
  split; [eexists; vm_compute; reflexivity|].
  apply (get_children_failures Stores.plant "Line" "L3" 2 DatabaseConnectionError).
  vm_compute. reflexivity.
Defined.

(** The children of a line are one node per ISO the store returns for
    it, in store order, under the ISO's id and without status; ISOs are
    not merged.  At depth 1 they are leaves; from depth 2 each carries
    what the ISO level returns for it. *)
Theorem get_children_line_listing (graph_repo : IGraphRepository)
    (entity_type entity_id : string) (d : Z)
    (r : GetChildrenHierarchyUseCase.ChildrenResult)
    (Htype : lower entity_type = "line") (Hd : 1 ≤ d)
    (Hrun : GetChildrenHierarchyUseCase.execute graph_repo entity_type entity_id d = Ok r) :
  ∃ isos,
    get_affected_isos_by_line graph_repo entity_id = Ok isos ∧
    GetChildrenHierarchyUseCase.id <$> GetChildrenHierarchyUseCase.result_children r
    = ISO.id <$> isos ∧
    Forall (λ c, GetChildrenHierarchyUseCase.latest_status c = None)
           (GetChildrenHierarchyUseCase.result_children r) ∧
    (d = 1 → Forall (λ c, GetChildrenHierarchyUseCase.children c = [])
                    (GetChildrenHierarchyUseCase.result_children r)) ∧
    (2 ≤ d →
     Forall2 (λ iso c,
                GetChildrenHierarchyUseCase._get_iso_children graph_repo (ISO.id iso) d 2
                = Ok (GetChildrenHierarchyUseCase.children c))
             isos (GetChildrenHierarchyUseCase.result_children r)).
Proof.
  revert Hrun. unfold GetChildrenHierarchyUseCase.execute. rewrite Htype.
  change (String.eqb "line" "line") with true. cbv iota.
  unfold mbind, outcome_bind.
  destruct (GetChildrenHierarchyUseCase._get_line_children graph_repo entity_id d 1)
    as [cs|e] eqn:Hcs; [|discriminate].
  intros [= <-]. cbn [GetChildrenHierarchyUseCase.result_children].
  apply line_children_pairs in Hcs as (isos & Hisos & Hpairs); [|exact Hd].
  exists isos. split; [exact Hisos|]. clear Hisos.
  split; [induction Hpairs as [|iso c isos cs (Hid & _) _ IH];
          [reflexivity|rewrite !fmap_cons, Hid, IH; reflexivity]|].
  split; [induction Hpairs as [|iso c isos cs (_ & Hstatus & _) _ IH];
          constructor; assumption|].
  split.
  - intros ->. change (1 <? 1) with false in Hpairs.
    induction Hpairs as [|iso c isos cs (_ & _ & Hleaf) _ IH]; constructor; assumption.
  - intros Hdeeper. destruct (Z.ltb_spec 1 d) as [_|Hlast]; [|lia].
    change (1 + 1) with 2 in Hpairs.
    induction Hpairs as [|iso c isos cs (_ & _ & Hbelow) _ IH]; constructor; assumption.
Qed.

Lemma get_children_line_listing_witness :
  ∃ r, GetChildrenHierarchyUseCase.execute Stores.plant "line" "L1" 1 = Ok r ∧
       GetChildrenHierarchyUseCase.id <$> GetChildrenHierarchyUseCase.result_children r
       = ["A.1"; "A.2"].
Proof.
  destruct (GetChildrenHierarchyUseCase.execute Stores.plant "line" "L1" 1)
    as [r|e] eqn:Hrun; [|vm_compute in Hrun; discriminate Hrun].
  exists r. split; [reflexivity|].
  destruct (get_children_line_listing Stores.plant "line" "L1" 1 r
              eq_refl ltac:(lia) Hrun) as (isos & Hisos & Hids & _).
  rewrite Hids. vm_compute in Hisos. injection Hisos as <-. reflexivity.
Defined.

(* ================================================================= *)
(** ** The children endpoints *)
Section children_endpoint.
Import GetChildrenHierarchyUseCase.
Context (graph_repo : IGraphRepository) (entity_type : string) (depth : Z).


End children_endpoint.


(** One failing id hides the answers for the others. *)
Example children_endpoint_one_failure :
  ChildrenEndpoint.get_children_objects_v2 Stores.plant "iso" ["A.1"; "B.1"; "A.2"] 1
  = Raise DatabaseConnectionError ∧
  ∃ responses,
    ChildrenEndpoint.get_children_objects_v2 Stores.plant "iso" ["A.1"; "A.1"] 1
    = Ok responses ∧
    GetChildrenHierarchyUseCase.total_descendants <$> responses = [3; 3].
Proof. split; [vm_compute; reflexivity|]. eexists. split; vm_compute; reflexivity. Qed.
(* ================================================================= *)
(** ** Batch analysis: the flat lists as sets, on a store with ids *)

Lemma batch_sets_distinct_witness :
  ∃ r, BatchImpactAnalysisUseCase.execute Stores.yard ["L1"; "L2"] ["C.1"; "A.1"] true true
       = Ok r ∧
       BatchImpactAnalysisUseCase.id <$> BatchImpactAnalysisUseCase.affected_spools r
       = ["SP1"; "SP2"; "SP7"] ∧
       BatchVocabulary.distinct_ids (BatchImpactAnalysisUseCase.affected_isos r) ∧
       BatchVocabulary.distinct_ids (BatchImpactAnalysisUseCase.affected_spools r) ∧
       BatchVocabulary.distinct_ids (BatchImpactAnalysisUseCase.affected_parts r).
Proof.
  destruct (batch_sets_distinct Stores.yard ["L1"; "L2"] ["C.1"; "A.1"] true true)
    as (r & Hrun & Hdistinct).
  - intros iso_id spools. cbn.
    repeat match goal with
           | |- context [String.eqb ?a ?b] => destruct (String.eqb a b)
           end;
      intros [= <-]; repeat constructor; eexists; vm_compute; reflexivity.
  - intros iso_id parts. cbn.
    repeat match goal with
           | |- context [String.eqb ?a ?b] => destruct (String.eqb a b)
           end;
      intros [= <-]; repeat constructor; eexists; vm_compute; reflexivity.
  - exists r. split; [exact Hrun|]. split; [|exact Hdistinct].
    vm_compute in Hrun. injection Hrun as <-. vm_compute. reflexivity.
Defined.

(* ================================================================= *)
(** ** The analysis endpoint: status codes *)
Section endpoint_statuses.
Context (graph_repo : IGraphRepository).
Hypothesis Hstore : raises_only_database_errors graph_repo.

(** What the use case does with a request that is accepted, and with
    one that is not. *)
Lemma use_case_accepted (request : ImpactEndpoint.AnalyzeImpactRequest) :
  AnalyzeLineImpactUseCase.execute graph_repo
    (ChangeEvent.mk None (ImpactEndpoint.entity_type request)
       (ImpactEndpoint.entity_id request) (ImpactEndpoint.description request))
  = if accepted request
    then GraphTraversalStrategy.analyze graph_repo
           (ChangeEvent.mk None (ImpactEndpoint.entity_type request)
              (ImpactEndpoint.entity_id request) (ImpactEndpoint.description request))
    else Raise InvalidChangeEventError.
Proof.
  unfold AnalyzeLineImpactUseCase.execute, AnalyzeLineImpactUseCase._validate_change_event,
    accepted.
  cbn [ChangeEvent.entity_id ChangeEvent.entity_type ChangeEvent.description
       strategy_supports strategy_analyze graph_traversal_strategy].
  destruct (is_empty (ImpactEndpoint.entity_id request)); [reflexivity|].
  destruct (is_empty (ImpactEndpoint.entity_type request)); [reflexivity|].
  destruct (is_empty (ImpactEndpoint.description request)); [reflexivity|].
  cbn [negb andb]. rewrite outcome_bind_ret.
  destruct (GraphTraversalStrategy.supports_entity_type _); reflexivity.
Qed.

Lemma accepted_fields (request : ImpactEndpoint.AnalyzeImpactRequest) :
  accepted request = true →
  is_empty (ImpactEndpoint.entity_id request) = false ∧
  is_empty (ImpactEndpoint.entity_type request) = false.
Proof.
  unfold accepted.
  destruct (is_empty (ImpactEndpoint.entity_id request)); [discriminate|].
  destruct (is_empty (ImpactEndpoint.entity_type request)); [discriminate|].
  split; reflexivity.
Qed.

End endpoint_statuses.

(** Over a store that raises database errors only, the analysis
    endpoint answers 400 exactly for a request that is not accepted
    (an empty id, type or description, or a type the strategy does not
    support), and 404 exactly for an accepted request for a line that the
    lookup does not find.  An accepted request for an ISO is never
    answered with 404: it gets a response or a database error.  The
    unexpected-error answer is given only for a type other than line
    and ISO. *)
Theorem analyze_impact_statuses (graph_repo : IGraphRepository)
    (request : ImpactEndpoint.AnalyzeImpactRequest)
    (Hstore : raises_only_database_errors graph_repo) :
  (ImpactEndpoint.analyze_impact graph_repo request
   = ImpactEndpoint.HTTPException 400 "InvalidChangeEventError"
   ↔ accepted request = false) ∧
  (ImpactEndpoint.analyze_impact graph_repo request
   = ImpactEndpoint.HTTPException 404 "EntityNotFoundError"
   ↔ accepted request = true ∧
     lower (ImpactEndpoint.entity_type request) = "line" ∧
     get_line_by_id graph_repo (ImpactEndpoint.entity_id request) = Ok None) ∧
  (accepted request = true → lower (ImpactEndpoint.entity_type request) = "iso" →
   (∃ result, ImpactEndpoint.analyze_impact graph_repo request
              = ImpactEndpoint.Response result) ∨
   ImpactEndpoint.analyze_impact graph_repo request
   = ImpactEndpoint.HTTPException 500 "DatabaseConnectionError") ∧
  (ImpactEndpoint.analyze_impact graph_repo request
   = ImpactEndpoint.HTTPException 500 "InternalServerError" →
   lower (ImpactEndpoint.entity_type request) ≠ "line" ∧
   lower (ImpactEndpoint.entity_type request) ≠ "iso").
Proof.
  unfold ImpactEndpoint.analyze_impact. cbv zeta. rewrite use_case_accepted.
  destruct (accepted request) eqn:Haccepted.
  2:{ split; [split; [reflexivity|reflexivity]|].
      split; [split; [discriminate|intros [Habs _]; discriminate Habs]|].
      split; [discriminate|discriminate]. }
  destruct (accepted_fields request Haccepted) as [Hid Htype].
  destruct (GraphTraversalStrategy.analyze graph_repo _) as [result|e] eqn:Hrun.
  { split; [split; discriminate|].
    split.
    - split; [discriminate|]. intros (_ & Hline & Hlookup). exfalso.
      revert Hrun. unfold GraphTraversalStrategy.analyze.
      cbn [ChangeEvent.entity_id ChangeEvent.entity_type ChangeEvent.event_id].
      rewrite Hid, Htype, Hline. cbn [orb]. change (String.eqb "line" "line") with true.
      cbv iota. unfold GraphTraversalStrategy._analyze_line_impact.
      rewrite Hlookup. discriminate.
    - split; [intros _ _; left; eexists; reflexivity|discriminate]. }
  destruct (analyze_raises graph_repo _ e Hstore Hrun)
    as [[-> [Hempty|Hempty]]|[(-> & Hline & Hlookup)|[->|(-> & Hline & Hiso)]]];
    cbn [ChangeEvent.entity_id ChangeEvent.entity_type] in *.
  - congruence.
  - congruence.
  - split; [split; discriminate|].
    split; [split; [intros _; repeat split; assumption|reflexivity]|].
    split; [intros _ Hiso; congruence|discriminate].
  - split; [split; discriminate|].
    split; [split; [discriminate|]|].
    + intros (_ & Hline & Hlookup). exfalso.
      revert Hrun. unfold GraphTraversalStrategy.analyze.
      cbn [ChangeEvent.entity_id ChangeEvent.entity_type ChangeEvent.event_id].
      rewrite Hid, Htype, Hline. cbn [orb]. change (String.eqb "line" "line") with true.
      cbv iota. unfold GraphTraversalStrategy._analyze_line_impact.
      rewrite Hlookup. discriminate.
    + split; [intros _ _; right; reflexivity|discriminate].
  - split; [split; discriminate|].
    split; [split; [discriminate|intros (_ & Habs & _); contradiction]|].
    split; [intros _ Habs; contradiction|intros _; split; assumption].
Qed.

Lemma analyze_impact_statuses_witness :
  raises_only_database_errors Stores.plant ∧
  ImpactEndpoint.analyze_impact Stores.plant
    (ImpactEndpoint.mkRequest "Line" "L7" "line rerouted")
  = ImpactEndpoint.HTTPException 404 "EntityNotFoundError" ∧
  ImpactEndpoint.analyze_impact Stores.plant
    (ImpactEndpoint.mkRequest "Valve" "V1" "valve replaced")
  = ImpactEndpoint.HTTPException 400 "InvalidChangeEventError" ∧
  ∃ result, ImpactEndpoint.analyze_impact Stores.plant
              (ImpactEndpoint.mkRequest "ISO" "NO.SUCH" "sheet revised")
            = ImpactEndpoint.Response result.
Proof.
  assert (raises_only_database_errors Stores.plant) as Hstore.
  { repeat split; simpl; intros;
      repeat match goal with
             | H : context [String.eqb ?a ?b] |- _ => destruct (String.eqb a b)
             end; congruence. }
  split; [exact Hstore|].
  split; [apply (analyze_impact_statuses Stores.plant
                   (ImpactEndpoint.mkRequest "Line" "L7" "line rerouted") Hstore);
          repeat split; vm_compute; reflexivity|].
  split; [apply (analyze_impact_statuses Stores.plant
                   (ImpactEndpoint.mkRequest "Valve" "V1" "valve replaced") Hstore);
          vm_compute; reflexivity|].
  eexists. vm_compute. reflexivity.
Defined.
